(** * caseInternship back end: schemas, data model and request handlers

    A shallow embedding of [src/BackEnd/src/schemas.ts],
    [src/BackEnd/src/server.ts] and [prisma/schema.prisma] (the second
    document of [src/BackEnd/tsconfig.json]).  The repository holds two
    revisions of the first two files: a customer-only server (routes for
    [/clientes] alone) and the full route set (customers, assets,
    allocations).  Both are embedded, in [ServerClientes] and [Server].

    Strings are sequences of UTF-16 code units, as in JavaScript; a number is
    a rational, an infinity or NaN; a date is a timestamp in milliseconds. *)

From Stdlib Require Import String Ascii NArith ZArith QArith Bool List Lia
  Permutation.
Import ListNotations.

Set Implicit Arguments.

(** ** JavaScript values *)

Module Js.

Definition CodeUnit := N.
Definition JsString := list CodeUnit.
Definition Date := Z.

(** The code units of an ASCII literal. *)
Fixpoint units (s : string) : JsString :=
  match s with
  | EmptyString => []
  | String a r => N_of_ascii a :: units r
  end.

(** A number: finite, infinite or NaN.  [JSON.parse] gives [Infinity] for
    a literal that is too large, and so does [Number] for such a string. *)
Inductive JsNumber :=
| Finite (q : Q)
| PlusInfinity
| MinusInfinity
| NaN.

Coercion Finite : Q >-> JsNumber.

#[local] Unset Elimination Schemes.
Inductive JsValue :=
| JUndefined
| JNull
| JBool (b : bool)
| JNum (n : JsNumber)
| JStr (s : JsString)
| JArr (items : list JsValue)
| JObj (fields : list (string * JsValue)).
#[local] Set Elimination Schemes.

Definition JsObject := list (string * JsValue).

(** [o[k]]: the value of a property, [undefined] when the object has none.
    An object lists each of its keys once. *)
Fixpoint get (k : string) (o : JsObject) : JsValue :=
  match o with
  | [] => JUndefined
  | (k', v) :: r => if String.eqb k k' then v else get k r
  end.

(** [k in o] *)
Fixpoint has (k : string) (o : JsObject) : bool :=
  match o with
  | [] => false
  | (k', _) :: r => String.eqb k k' || has k r
  end.

(** [!!s] for a string that may be [undefined]. *)
Definition truthy (s : option JsString) : bool :=
  match s with
  | Some (_ :: _) => true
  | _ => false
  end.

Definition code_eqb (a b : CodeUnit) : bool := N.eqb a b.

Fixpoint str_eqb (s t : JsString) : bool :=
  match s, t with
  | [], [] => true
  | a :: s', b :: t' => code_eqb a b && str_eqb s' t'
  | _, _ => false
  end.

End Js.

(** ** Regular expressions, as the schemas use them *)

Module Regex.
Import Js.

Inductive regex :=
| Void
| Eps
| Class (p : CodeUnit -> bool)
| Cat (r1 r2 : regex)
| Alt (r1 r2 : regex)
| Star (r : regex).

(** [r{n}] *)
Fixpoint Rep (n : nat) (r : regex) : regex :=
  match n with
  | O => Eps
  | S n' => Cat r (Rep n' r)
  end.

(** [r+] *)
Definition Plus (r : regex) : regex := Cat r (Star r).

Fixpoint nullable (r : regex) : bool :=
  match r with
  | Void => false
  | Eps => true
  | Class _ => false
  | Cat r1 r2 => nullable r1 && nullable r2
  | Alt r1 r2 => nullable r1 || nullable r2
  | Star _ => true
  end.

Fixpoint deriv (c : CodeUnit) (r : regex) : regex :=
  match r with
  | Void => Void
  | Eps => Void
  | Class p => if p c then Eps else Void
  | Cat r1 r2 =>
      if nullable r1 then Alt (Cat (deriv c r1) r2) (deriv c r2)
      else Cat (deriv c r1) r2
  | Alt r1 r2 => Alt (deriv c r1) (deriv c r2)
  | Star r1 => Cat (deriv c r1) (Star r1)
  end.

(** [/^r$/.test(s)]: the whole string matches (no flags: [$] is the end of
    the input). *)
Fixpoint test (r : regex) (s : JsString) : bool :=
  match s with
  | [] => nullable r
  | c :: s' => test (deriv c r) s'
  end.

(** The language of a regular expression. *)
Inductive lang : regex -> JsString -> Prop :=
| LEps : lang Eps []
| LClass p c : p c = true -> lang (Class p) [c]
| LCat r1 r2 s1 s2 : lang r1 s1 -> lang r2 s2 -> lang (Cat r1 r2) (s1 ++ s2)
| LAltL r1 r2 s : lang r1 s -> lang (Alt r1 r2) s
| LAltR r1 r2 s : lang r2 s -> lang (Alt r1 r2) s
| LStarNil r : lang (Star r) []
| LStarApp r s1 s2 : lang r s1 -> lang (Star r) s2 -> lang (Star r) (s1 ++ s2).

(** [\d] *)
Definition is_digit (c : CodeUnit) : bool := (48 <=? c)%N && (c <=? 57)%N.
Definition digit : regex := Class is_digit.

(** [[A-Z0-9]] *)
Definition is_upper_or_digit (c : CodeUnit) : bool :=
  ((65 <=? c)%N && (c <=? 90)%N) || is_digit c.

End Regex.

(** ** The schema library, as far as the schemas use it *)

Module Zod.
Import Js Regex.
#[local] Open Scope string_scope.
#[local] Open Scope list_scope.

Definition Issue := string.

Inductive Parsed (A : Type) : Type :=
| Valid (value : A)
| Invalid (issues : list Issue).
Arguments Invalid {A} issues.

Definition is_valid {A} (p : Parsed A) : bool :=
  match p with Valid _ => true | Invalid _ => false end.

Definition issues_of {A} (p : Parsed A) : list Issue :=
  match p with Valid _ => [] | Invalid l => l end.

(** What the schema library delegates to the JavaScript runtime:
    [Number(v)], [new Date(v)] ([None] for an invalid date), and the
    library's own e-mail pattern. *)
Record Env := {
  Number : JsValue -> JsNumber;
  to_Date : JsValue -> option Date;
  is_email : JsString -> bool
}.

(** One constraint of a schema: a test and the message of its issue. *)
Record Check (A : Type) := { holds : A -> bool; message : Issue }.

(** Every constraint is tried; the value is valid when none fails. *)
Definition run_checks {A} (cks : list (Check A)) (a : A) : Parsed A :=
  match map (@message A) (filter (fun ck => negb (holds ck a)) cks) with
  | [] => Valid a
  | l => Invalid l
  end.

Definition min (n : nat) (msg : Issue) : Check JsString :=
  {| holds := fun s => Nat.leb n (length s); message := msg |}.
Definition max (n : nat) (msg : Issue) : Check JsString :=
  {| holds := fun s => Nat.leb (length s) n; message := msg |}.
Definition regex (r : Regex.regex) (msg : Issue) : Check JsString :=
  {| holds := Regex.test r; message := msg |}.
Definition email (env : Env) (msg : Issue) : Check JsString :=
  {| holds := is_email env; message := msg |}.

(** [Number.isInteger(n)] *)
Definition is_int (n : JsNumber) : bool :=
  match n with
  | Finite q => Z.eqb (Qnum q mod Zpos (Qden q)) 0
  | _ => false
  end.

(** [n > 0] and [n >= 0]; no schema of the repository calls [.finite()], so
    [Infinity] passes both. *)
Definition gt_0 (n : JsNumber) : bool :=
  match n with
  | Finite q => Z.ltb 0 (Qnum q)
  | PlusInfinity => true
  | _ => false
  end.

Definition ge_0 (n : JsNumber) : bool :=
  match n with
  | Finite q => Z.leb 0 (Qnum q)
  | PlusInfinity => true
  | _ => false
  end.

Definition int (msg : Issue) : Check JsNumber :=
  {| holds := is_int; message := msg |}.
Definition positive (msg : Issue) : Check JsNumber :=
  {| holds := gt_0; message := msg |}.
Definition nonnegative (msg : Issue) : Check JsNumber :=
  {| holds := ge_0; message := msg |}.

Definition refine {A} (p : A -> bool) (msg : Issue) : Check A :=
  {| holds := p; message := msg |}.

Definition typeof (v : JsValue) : string :=
  match v with
  | JUndefined => "undefined"
  | JNull => "null"
  | JBool _ => "boolean"
  | JNum _ => "number"
  | JStr _ => "string"
  | JArr _ => "array"
  | JObj _ => "object"
  end.

(** [z.string({ required_error }).check1(...)....] *)
Definition string_ (required_error : Issue) (cks : list (Check JsString))
    (v : JsValue) : Parsed JsString :=
  match v with
  | JStr s => run_checks cks s
  | JUndefined => Invalid [required_error]
  | _ => Invalid [("Expected string, received " ++ typeof v)%string]
  end.

(** [z.number({ required_error }).check1(...)....]: NaN is not a number
    for the library, an infinity is. *)
Definition number_ (required_error : Issue) (cks : list (Check JsNumber))
    (v : JsValue) : Parsed JsNumber :=
  match v with
  | JNum NaN => Invalid ["Expected number, received nan"]
  | JNum n => run_checks cks n
  | JUndefined => Invalid [required_error]
  | _ => Invalid [("Expected number, received " ++ typeof v)%string]
  end.

(** [z.coerce.number(...).check1(...)....]: the input is made a number
    first; NaN is the issue [msg]. *)
Definition coerce_number (env : Env) (msg : Issue)
    (cks : list (Check JsNumber)) (v : JsValue) : Parsed JsNumber :=
  match Number env v with
  | NaN => Invalid [msg]
  | n => run_checks cks n
  end.

(** [z.coerce.date(...)]: the input is made a date first, so what can fail
    is the date, with the issue [msg]. *)
Definition coerce_date (env : Env) (msg : Issue) (v : JsValue) : Parsed Date :=
  match to_Date env v with
  | Some d => Valid d
  | None => Invalid [msg]
  end.

(** [schema.optional()] *)
Definition optional {A} (p : JsValue -> Parsed A) (v : JsValue)
    : Parsed (option A) :=
  match v with
  | JUndefined => Valid None
  | _ => match p v with
         | Valid a => Valid (Some a)
         | Invalid l => Invalid l
         end
  end.

(** [schema.nullable()] *)
Definition nullable {A} (p : JsValue -> Parsed A) (v : JsValue)
    : Parsed (option A) :=
  match v with
  | JNull => Valid None
  | _ => match p v with
         | Valid a => Valid (Some a)
         | Invalid l => Invalid l
         end
  end.

(** [z.object({...})]: the input must be an object; keys the shape does not
    name are dropped, since the shape alone reads the input. *)
Definition object_ {A} (shape : JsObject -> Parsed A) (v : JsValue) : Parsed A :=
  match v with
  | JObj o => shape o
  | _ => Invalid [("Expected object, received " ++ typeof v)%string]
  end.

(** The value of a whole number. *)
Definition to_Z (n : JsNumber) : Z :=
  match n with
  | Finite q => (Qnum q / Zpos (Qden q))%Z
  | _ => 0%Z
  end.

(** Default messages of the library. *)
Definition Required : Issue := "Required".
Definition Invalid_ : Issue := "Invalid".
Definition Invalid_date : Issue := "Invalid date".
Definition Expected_number : Issue := "Expected number, received nan".
Definition Expected_integer : Issue := "Expected integer, received float".
Definition Number_gt_0 : Issue := "Number must be greater than 0".

End Zod.

(** ** schemas.ts *)

Module CreateClienteInput.
Record t := {
  nome_completo : Js.JsString;
  cpf_cnpj : Js.JsString;
  telefone : Js.JsString;
  data_nascimento : Js.Date;
  email : Js.JsString
}.
End CreateClienteInput.

Module UpdateClienteInput.
Record t := {
  nome_completo : option Js.JsString;
  cpf_cnpj : option Js.JsString;
  telefone : option Js.JsString;
  data_nascimento : option Js.Date;
  email : option Js.JsString
}.
End UpdateClienteInput.

Module BuscarClienteQueryInput.
Record t := {
  nome_completo : option Js.JsString;
  cpf_cnpj : option Js.JsString
}.
End BuscarClienteQueryInput.

Module CreateAcaoInput.
Record t := {
  nome_ativo : Js.JsString;
  codigo_ticker : Js.JsString;
  valor_atual : Js.JsNumber;
  tipo_ativo : option Js.JsString;
  descricao : option Js.JsString
}.
End CreateAcaoInput.

Module UpdateAcaoInput.
(** [descricao]: [None] when the key is absent, [Some None] for [null]. *)
Record t := {
  nome_ativo : option Js.JsString;
  codigo_ticker : option Js.JsString;
  valor_atual : option Js.JsNumber;
  tipo_ativo : option Js.JsString;
  descricao : option (option Js.JsString)
}.
End UpdateAcaoInput.

Module CreateAlocacaoInput.
Record t := {
  acaoId : Z;
  quantidade : Js.JsNumber;
  valor_medio_aquisicao : Js.JsNumber;
  data_ultima_compra : Js.Date
}.
End CreateAlocacaoInput.

Module UpdateAlocacaoInput.
Record t := {
  quantidade : option Js.JsNumber;
  valor_medio_aquisicao : option Js.JsNumber;
  data_ultima_compra : option Js.Date
}.
End UpdateAlocacaoInput.

Module Schemas.
Import Js Regex Zod.
#[local] Open Scope string_scope.
#[local] Open Scope list_scope.

(** [/^(\d{11}|\d{14})$/] *)
Definition cpf_cnpj_regex : Regex.regex := Alt (Rep 11 digit) (Rep 14 digit).
(** [/^\d+$/] *)
Definition telefone_regex : Regex.regex := Plus digit.
(** [/^[A-Z0-9]+$/] *)
Definition ticker_regex : Regex.regex := Plus (Class is_upper_or_digit).

Definition msg_cpf_len : Issue := "CPF/CNPJ deve ter entre 11 e 18 caracteres.".
Definition msg_cpf_formato : Issue :=
  "Formato de CPF/CNPJ inválido. Forneça 11 dígitos para CPF ou 14 para CNPJ, apenas números.".
Definition msg_tel_len : Issue := "Telefone deve ter entre 10 e 15 caracteres.".
Definition msg_tel_formato : Issue := "Telefone deve conter apenas números.".
Definition msg_nome_len : Issue := "Nome completo deve ter pelo menos 3 caracteres.".

(** The [cpf_cnpj] field of [createClienteSchema]. *)
Definition create_cpf_cnpj : JsValue -> Parsed JsString :=
  string_ "CPF/CNPJ é obrigatório."
    [min 11 msg_cpf_len; max 18 msg_cpf_len; regex cpf_cnpj_regex msg_cpf_formato].

(** The [cpf_cnpj] field of [updateClienteSchema]. *)
Definition update_cpf_cnpj : JsValue -> Parsed (option JsString) :=
  optional (string_ Required
    [min 11 "String must contain at least 11 character(s)";
     max 18 "String must contain at most 18 character(s)";
     regex cpf_cnpj_regex Invalid_]).

(** The same field in the customer-only revision of the file, which names
    its messages. *)
Definition update_cpf_cnpj_clientes : JsValue -> Parsed (option JsString) :=
  optional (string_ Required
    [min 11 msg_cpf_len; max 18 msg_cpf_len;
     regex cpf_cnpj_regex "Formato de CPF/CNPJ inválido."]).

Section ClienteSchemas.
Variable env : Env.

Definition idParamSchema (msg : Issue) : JsValue -> Parsed Z :=
  object_ (fun o =>
    match coerce_number env Expected_number
            [int Expected_integer; positive msg] (get "id" o) with
    | Valid n => Valid (to_Z n)
    | Invalid l => Invalid l
    end).

Definition clienteIdParamSchema :=
  idParamSchema "ID do cliente deve ser um número inteiro positivo.".
(** [clienteIdParamSchema] of the customer-only revision. *)
Definition clienteIdParamSchema_clientes :=
  idParamSchema "ID deve ser um número inteiro positivo.".
Definition acaoIdParamSchema :=
  idParamSchema "ID da ação deve ser um número inteiro positivo.".
Definition alocacaoIdParamSchema :=
  idParamSchema "ID da alocação deve ser um número inteiro positivo.".

Definition createClienteSchema : JsValue -> Parsed CreateClienteInput.t :=
  object_ (fun o =>
    let nome_completo :=
      string_ "Nome completo é obrigatório." [min 3 msg_nome_len]
        (get "nome_completo" o) in
    let cpf_cnpj := create_cpf_cnpj (get "cpf_cnpj" o) in
    let telefone :=
      string_ "Telefone é obrigatório."
        [min 10 msg_tel_len; max 15 msg_tel_len;
         regex telefone_regex msg_tel_formato]
        (get "telefone" o) in
    let data_nascimento :=
      coerce_date env Invalid_date (get "data_nascimento" o) in
    let email :=
      string_ "Email é obrigatório." [email env "Formato de email inválido."]
        (get "email" o) in
    match nome_completo, cpf_cnpj, telefone, data_nascimento, email with
    | Valid n, Valid c, Valid t, Valid d, Valid e =>
        Valid {| CreateClienteInput.nome_completo := n;
                 CreateClienteInput.cpf_cnpj := c;
                 CreateClienteInput.telefone := t;
                 CreateClienteInput.data_nascimento := d;
                 CreateClienteInput.email := e |}
    | _, _, _, _, _ =>
        Invalid (issues_of nome_completo ++ issues_of cpf_cnpj
                 ++ issues_of telefone ++ issues_of data_nascimento
                 ++ issues_of email)
    end).

Definition updateClienteSchema : JsValue -> Parsed UpdateClienteInput.t :=
  object_ (fun o =>
    let nome_completo :=
      optional (string_ Required
        [min 3 "String must contain at least 3 character(s)"])
        (get "nome_completo" o) in
    let cpf_cnpj := update_cpf_cnpj (get "cpf_cnpj" o) in
    let telefone :=
      optional (string_ Required
        [min 10 "String must contain at least 10 character(s)";
         max 15 "String must contain at most 15 character(s)";
         regex telefone_regex Invalid_])
        (get "telefone" o) in
    let data_nascimento :=
      optional (coerce_date env Invalid_date) (get "data_nascimento" o) in
    let email :=
      optional (string_ Required [email env "Invalid email"]) (get "email" o) in
    match nome_completo, cpf_cnpj, telefone, data_nascimento, email with
    | Valid n, Valid c, Valid t, Valid d, Valid e =>
        Valid {| UpdateClienteInput.nome_completo := n;
                 UpdateClienteInput.cpf_cnpj := c;
                 UpdateClienteInput.telefone := t;
                 UpdateClienteInput.data_nascimento := d;
                 UpdateClienteInput.email := e |}
    | _, _, _, _, _ =>
        Invalid (issues_of nome_completo ++ issues_of cpf_cnpj
                 ++ issues_of telefone ++ issues_of data_nascimento
                 ++ issues_of email)
    end).

(** [updateClienteSchema] of the customer-only revision. *)
Definition updateClienteSchema_clientes
    : JsValue -> Parsed UpdateClienteInput.t :=
  object_ (fun o =>
    let nome_completo :=
      optional (string_ Required [min 3 msg_nome_len])
        (get "nome_completo" o) in
    let cpf_cnpj := update_cpf_cnpj_clientes (get "cpf_cnpj" o) in
    let telefone :=
      optional (string_ Required
        [min 10 msg_tel_len; max 15 msg_tel_len;
         regex telefone_regex msg_tel_formato])
        (get "telefone" o) in
    let data_nascimento :=
      optional (coerce_date env Invalid_date) (get "data_nascimento" o) in
    let email :=
      optional (string_ Required [email env "Formato de email inválido."])
        (get "email" o) in
    match nome_completo, cpf_cnpj, telefone, data_nascimento, email with
    | Valid n, Valid c, Valid t, Valid d, Valid e =>
        Valid {| UpdateClienteInput.nome_completo := n;
                 UpdateClienteInput.cpf_cnpj := c;
                 UpdateClienteInput.telefone := t;
                 UpdateClienteInput.data_nascimento := d;
                 UpdateClienteInput.email := e |}
    | _, _, _, _, _ =>
        Invalid (issues_of nome_completo ++ issues_of cpf_cnpj
                 ++ issues_of telefone ++ issues_of data_nascimento
                 ++ issues_of email)
    end).

End ClienteSchemas.

Definition msg_buscar_nenhum : Issue :=
  "Forneça 'nome_completo' ou 'cpf_cnpj' para a busca.".
Definition msg_buscar_ambos : Issue :=
  "Forneça apenas 'nome_completo' OU 'cpf_cnpj' para a busca, não ambos simultaneamente.".

(** The two refinements of [buscarClienteQuerySchema]. *)
Definition buscar_refinements : list (Check BuscarClienteQueryInput.t) :=
  [ refine (fun data =>
              truthy (BuscarClienteQueryInput.nome_completo data)
              || truthy (BuscarClienteQueryInput.cpf_cnpj data))
           msg_buscar_nenhum;
    refine (fun data =>
              negb (truthy (BuscarClienteQueryInput.nome_completo data)
                    && truthy (BuscarClienteQueryInput.cpf_cnpj data)))
           msg_buscar_ambos ].

Definition buscarClienteQuerySchema (v : JsValue)
    : Parsed BuscarClienteQueryInput.t :=
  match
    object_ (fun o =>
      let nome_completo :=
        optional (string_ Required []) (get "nome_completo" o) in
      let cpf_cnpj := optional (string_ Required []) (get "cpf_cnpj" o) in
      match nome_completo, cpf_cnpj with
      | Valid n, Valid c =>
          Valid {| BuscarClienteQueryInput.nome_completo := n;
                   BuscarClienteQueryInput.cpf_cnpj := c |}
      | _, _ => Invalid (issues_of nome_completo ++ issues_of cpf_cnpj)
      end) v
  with
  | Valid data => run_checks buscar_refinements data
  | Invalid l => Invalid l
  end.

Section AcaoAlocacaoSchemas.
Variable env : Env.

Definition createAcaoSchema : JsValue -> Parsed CreateAcaoInput.t :=
  object_ (fun o =>
    let nome_ativo :=
      string_ "Nome do ativo é obrigatório."
        [min 3 "String must contain at least 3 character(s)"]
        (get "nome_ativo" o) in
    let codigo_ticker :=
      string_ "Código ticker é obrigatório."
        [min 3 "String must contain at least 3 character(s)";
         max 10 "String must contain at most 10 character(s)";
         regex ticker_regex
           "Ticker deve conter apenas letras maiúsculas e números."]
        (get "codigo_ticker" o) in
    let valor_atual :=
      coerce_number env Expected_number [positive Number_gt_0]
        (get "valor_atual" o) in
    let tipo_ativo := optional (string_ Required []) (get "tipo_ativo" o) in
    let descricao := optional (string_ Required []) (get "descricao" o) in
    match nome_ativo, codigo_ticker, valor_atual, tipo_ativo, descricao with
    | Valid n, Valid c, Valid v, Valid t, Valid d =>
        Valid {| CreateAcaoInput.nome_ativo := n;
                 CreateAcaoInput.codigo_ticker := c;
                 CreateAcaoInput.valor_atual := v;
                 CreateAcaoInput.tipo_ativo := t;
                 CreateAcaoInput.descricao := d |}
    | _, _, _, _, _ =>
        Invalid (issues_of nome_ativo ++ issues_of codigo_ticker
                 ++ issues_of valor_atual ++ issues_of tipo_ativo
                 ++ issues_of descricao)
    end).

(** [descricao] is [.optional().nullable()]: [null] clears the description. *)
Definition update_descricao (v : JsValue) : Parsed (option (option JsString)) :=
  match v with
  | JUndefined => Valid None
  | _ => match nullable (string_ Required []) v with
         | Valid d => Valid (Some d)
         | Invalid l => Invalid l
         end
  end.

Definition updateAcaoSchema : JsValue -> Parsed UpdateAcaoInput.t :=
  object_ (fun o =>
    let nome_ativo :=
      optional (string_ Required
        [min 3 "String must contain at least 3 character(s)"])
        (get "nome_ativo" o) in
    let codigo_ticker :=
      optional (string_ Required
        [min 3 "String must contain at least 3 character(s)";
         max 10 "String must contain at most 10 character(s)";
         regex ticker_regex Invalid_])
        (get "codigo_ticker" o) in
    let valor_atual :=
      optional (coerce_number env Expected_number [positive Number_gt_0])
        (get "valor_atual" o) in
    let tipo_ativo := optional (string_ Required []) (get "tipo_ativo" o) in
    let descricao := update_descricao (get "descricao" o) in
    match nome_ativo, codigo_ticker, valor_atual, tipo_ativo, descricao with
    | Valid n, Valid c, Valid v, Valid t, Valid d =>
        Valid {| UpdateAcaoInput.nome_ativo := n;
                 UpdateAcaoInput.codigo_ticker := c;
                 UpdateAcaoInput.valor_atual := v;
                 UpdateAcaoInput.tipo_ativo := t;
                 UpdateAcaoInput.descricao := d |}
    | _, _, _, _, _ =>
        Invalid (issues_of nome_ativo ++ issues_of codigo_ticker
                 ++ issues_of valor_atual ++ issues_of tipo_ativo
                 ++ issues_of descricao)
    end).

Definition msg_quantidade : Issue := "Quantidade deve ser positiva.".
Definition msg_valor_medio : Issue :=
  "Valor médio de aquisição não pode ser negativo.".

Definition createAlocacaoSchema : JsValue -> Parsed CreateAlocacaoInput.t :=
  object_ (fun o =>
    let acaoId :=
      number_ "ID da ação é obrigatório."
        [int Expected_integer; positive Number_gt_0] (get "acaoId" o) in
    let quantidade :=
      coerce_number env Expected_number [positive msg_quantidade]
        (get "quantidade" o) in
    let valor_medio_aquisicao :=
      coerce_number env Expected_number [nonnegative msg_valor_medio]
        (get "valor_medio_aquisicao" o) in
    let data_ultima_compra :=
      coerce_date env Invalid_date (get "data_ultima_compra" o) in
    match acaoId, quantidade, valor_medio_aquisicao, data_ultima_compra with
    | Valid a, Valid q, Valid v, Valid d =>
        Valid {| CreateAlocacaoInput.acaoId := to_Z a;
                 CreateAlocacaoInput.quantidade := q;
                 CreateAlocacaoInput.valor_medio_aquisicao := v;
                 CreateAlocacaoInput.data_ultima_compra := d |}
    | _, _, _, _ =>
        Invalid (issues_of acaoId ++ issues_of quantidade
                 ++ issues_of valor_medio_aquisicao
                 ++ issues_of data_ultima_compra)
    end).

(** The shape names three keys; [acaoId] and [clienteId] are not among them. *)
Definition updateAlocacaoSchema : JsValue -> Parsed UpdateAlocacaoInput.t :=
  object_ (fun o =>
    let quantidade :=
      optional (coerce_number env Expected_number [positive msg_quantidade])
        (get "quantidade" o) in
    let valor_medio_aquisicao :=
      optional
        (coerce_number env Expected_number [nonnegative msg_valor_medio])
        (get "valor_medio_aquisicao" o) in
    let data_ultima_compra :=
      optional (coerce_date env Invalid_date) (get "data_ultima_compra" o) in
    match quantidade, valor_medio_aquisicao, data_ultima_compra with
    | Valid q, Valid v, Valid d =>
        Valid {| UpdateAlocacaoInput.quantidade := q;
                 UpdateAlocacaoInput.valor_medio_aquisicao := v;
                 UpdateAlocacaoInput.data_ultima_compra := d |}
    | _, _, _ =>
        Invalid (issues_of quantidade ++ issues_of valor_medio_aquisicao
                 ++ issues_of data_ultima_compra)
    end).

End AcaoAlocacaoSchemas.

(** [Object.keys(body).length === 0] on a validated body. *)
Definition cliente_no_keys (b : UpdateClienteInput.t) : bool :=
  match UpdateClienteInput.nome_completo b, UpdateClienteInput.cpf_cnpj b,
        UpdateClienteInput.telefone b, UpdateClienteInput.data_nascimento b,
        UpdateClienteInput.email b with
  | None, None, None, None, None => true
  | _, _, _, _, _ => false
  end.

End Schemas.

(** ** The persistence layer: prisma/schema.prisma and the client *)

(** [model Cliente] *)
Module Cliente.
Record t := {
  id : Z;
  nome_completo : Js.JsString;
  cpf_cnpj : Js.JsString;
  telefone : Js.JsString;
  data_nascimento : Js.Date;
  email : Js.JsString
}.
End Cliente.

(** [model Acao]; [valor_atual] as the column holds it. *)
Module Acao.
Record t := {
  id : Z;
  nome_ativo : Js.JsString;
  codigo_ticker : Js.JsString;
  valor_atual : Q;
  tipo_ativo : option Js.JsString;
  descricao : option Js.JsString
}.
End Acao.

(** [model AlocacaoCliente] *)
Module AlocacaoCliente.
Record t := {
  id : Z;
  clienteId : Z;
  acaoId : Z;
  quantidade : Q;
  valor_medio_aquisicao : Q;
  data_ultima_compra : Js.Date
}.
End AlocacaoCliente.

(** The asset fields [select]ed when a customer's allocations are listed. *)
Module AcaoResumo.
Record t := {
  id : Z;
  nome_ativo : Js.JsString;
  codigo_ticker : Js.JsString;
  valor_atual : Q
}.
End AcaoResumo.

Module Prisma.
Import Js.
#[local] Open Scope string_scope.
#[local] Open Scope list_scope.
#[local] Open Scope Z_scope.

(** *** The column types of prisma/schema.prisma

    The data source is PostgreSQL.  What the schema does not fix is left to
    the engine: which strings and which timestamps the client and the
    database take, the case-insensitive pattern match [ILIKE], and whether
    an insert that fails on a value has drawn the id from the sequence before
    it fails. *)
Record Engine := {
  holds_text : JsString -> bool;
  holds_date : Date -> bool;
  ilike : JsString -> JsString -> bool;
  draws_first : bool
}.

(** [Int]: a 32-bit signed integer. *)
Definition Int (i : Z) : bool := (-2147483648 <=? i) && (i <=? 2147483647).

(** A rational in units of [10^-s], rounded half away from zero, as the
    NUMERIC type rounds. *)
Definition units_of (s : nat) (q : Q) : Z :=
  let n := Qnum q * 10 ^ Z.of_nat s in
  let d := Zpos (Qden q) in
  Z.sgn n * ((2 * Z.abs n + d) / (2 * d)).

(** [Decimal @db.Decimal(p, s)]: the number rounded to [s] decimals, when
    the result has at most [p] digits; an infinity has no decimal. *)
Definition Decimal (p s : nat) (n : JsNumber) : option Q :=
  match n with
  | Finite q =>
      let u := units_of s q in
      if Z.abs u <? 10 ^ Z.of_nat p
      then Some (u # Z.to_pos (10 ^ Z.of_nat s))
      else None
  | _ => None
  end.

(** [DateTime @db.Date]: the day of the timestamp, at midnight UTC. *)
Definition day (d : Date) : Date := 86400000 * (d / 86400000).

Definition DbDate (e : Engine) (d : Date) : option Date :=
  if holds_date e d then Some (day d) else None.

Arguments Int : simpl never.
Arguments units_of : simpl never.
Arguments Decimal : simpl never.
Arguments day : simpl never.

(** A value for an optional column or an update: absent, or converted. *)
Definition optionally {A B} (f : A -> option B) (o : option A)
    : option (option B) :=
  match o with
  | None => Some None
  | Some a => match f a with
              | Some b => Some (Some b)
              | None => None
              end
  end.

Definition opt {A} (p : A -> bool) (o : option A) : bool :=
  match o with Some a => p a | None => true end.

(** *** The tables

    [model Cliente], [model Acao] and [model AlocacaoCliente], each with
    [id Int @id @default(autoincrement())]: the rows in the order the tables
    give them, and the next value of each id sequence. *)
Record Store := {
  engine : Engine;
  clientes : list Cliente.t;
  acoes : list Acao.t;
  alocacoes : list AlocacaoCliente.t;
  seq_cliente : Z;
  seq_acao : Z;
  seq_alocacao : Z
}.

Definition empty (e : Engine) : Store :=
  {| engine := e; clientes := []; acoes := []; alocacoes := [];
     seq_cliente := 1; seq_acao := 1; seq_alocacao := 1 |}.

Definition set_clientes (l : list Cliente.t) (s : Store) : Store :=
  {| engine := engine s; clientes := l; acoes := acoes s;
     alocacoes := alocacoes s; seq_cliente := seq_cliente s;
     seq_acao := seq_acao s; seq_alocacao := seq_alocacao s |}.

Definition set_acoes (l : list Acao.t) (s : Store) : Store :=
  {| engine := engine s; clientes := clientes s; acoes := l;
     alocacoes := alocacoes s; seq_cliente := seq_cliente s;
     seq_acao := seq_acao s; seq_alocacao := seq_alocacao s |}.

Definition set_alocacoes (l : list AlocacaoCliente.t) (s : Store) : Store :=
  {| engine := engine s; clientes := clientes s; acoes := acoes s;
     alocacoes := l; seq_cliente := seq_cliente s;
     seq_acao := seq_acao s; seq_alocacao := seq_alocacao s |}.

(** A value is drawn from a sequence.  An insert draws its id before the
    row is checked against the constraints, so a refused insert has drawn
    one too. *)
Definition draw_cliente (s : Store) : Store :=
  {| engine := engine s; clientes := clientes s; acoes := acoes s;
     alocacoes := alocacoes s; seq_cliente := seq_cliente s + 1;
     seq_acao := seq_acao s; seq_alocacao := seq_alocacao s |}.

Definition draw_acao (s : Store) : Store :=
  {| engine := engine s; clientes := clientes s; acoes := acoes s;
     alocacoes := alocacoes s; seq_cliente := seq_cliente s;
     seq_acao := seq_acao s + 1; seq_alocacao := seq_alocacao s |}.

Definition draw_alocacao (s : Store) : Store :=
  {| engine := engine s; clientes := clientes s; acoes := acoes s;
     alocacoes := alocacoes s; seq_cliente := seq_cliente s;
     seq_acao := seq_acao s; seq_alocacao := seq_alocacao s + 1 |}.

(** What a failed call throws: a [PrismaClientKnownRequestError] with its
    [code] and [meta.target], or an error of another kind. *)
Inductive Error :=
| KnownRequestError (code : string) (target : option (list string))
| OtherError.

Inductive Outcome (A : Type) : Type :=
| Returned (a : A)
| Thrown (e : Error).
Arguments Thrown {A} e.

(** Unique constraint failed; foreign key constraint failed; record not
    found. *)
Definition P2002 (fields : list string) : Error :=
  KnownRequestError "P2002" (Some fields).
Definition P2003 : Error := KnownRequestError "P2003" None.
Definition P2025 : Error := KnownRequestError "P2025" None.

(** A call with a value that does not fit its column, or that the engine
    does not take: the statement has no effect. *)
Definition refused {A} (s : Store) : Outcome A * Store := (Thrown OtherError, s).

(** An insert with such a value: no row is added; the sequence of the table
    has moved if the engine draws first. *)
Definition refused_insert {A} (draw : Store -> Store) (s : Store)
    : Outcome A * Store :=
  (Thrown OtherError, if draws_first (engine s) then draw s else s).

(** The row with a primary key. *)
Definition find_cliente (i : Z) (s : Store) : option Cliente.t :=
  find (fun c => Cliente.id c =? i) (clientes s).
Definition find_acao (i : Z) (s : Store) : option Acao.t :=
  find (fun a => Acao.id a =? i) (acoes s).
Definition find_alocacao (i : Z) (s : Store) : option AlocacaoCliente.t :=
  find (fun al => AlocacaoCliente.id al =? i) (alocacoes s).

Definition or_else {A} (o : option A) (d : A) : A :=
  match o with Some a => a | None => d end.

(** *** model Cliente *)

(** [findUnique({ where: { id } })] *)
Definition cliente_findUnique_id (i : Z) (s : Store)
    : Outcome (option Cliente.t) * Store :=
  if Int i then (Returned (find_cliente i s), s) else refused s.

(** [findUnique({ where: { cpf_cnpj } })], on the [@unique] column. *)
Definition cliente_findUnique_cpf_cnpj (cpf : JsString) (s : Store)
    : Outcome (option Cliente.t) * Store :=
  if holds_text (engine s) cpf
  then (Returned (find (fun c => str_eqb (Cliente.cpf_cnpj c) cpf) (clientes s)),
        s)
  else refused s.

(** The pattern of [contains]: the term between two [%], as it is. *)
Definition contains_pattern (term : JsString) : JsString :=
  [37%N] ++ term ++ [37%N].

(** [findFirst({ where: { nome_completo: { contains, mode: 'insensitive' } } })]:
    the first row whose name matches the pattern under [ILIKE]. *)
Definition cliente_findFirst_contains (nome : JsString) (s : Store)
    : Outcome (option Cliente.t) * Store :=
  if holds_text (engine s) nome
  then (Returned (find (fun c => ilike (engine s) (contains_pattern nome)
                                       (Cliente.nome_completo c))
                       (clientes s)),
        s)
  else refused s.

Definition create_cliente_fits (e : Engine) (data : CreateClienteInput.t)
    : bool :=
  holds_text e (CreateClienteInput.nome_completo data)
  && holds_text e (CreateClienteInput.cpf_cnpj data)
  && holds_text e (CreateClienteInput.telefone data)
  && holds_date e (CreateClienteInput.data_nascimento data)
  && holds_text e (CreateClienteInput.email data).

(** [create({ data })].  [cpf_cnpj] and [email] are [@unique]: a value that
    is taken fails with P2002, which names the field; [data_nascimento] is
    [@db.Date]. *)
Definition cliente_create (data : CreateClienteInput.t) (s : Store)
    : Outcome Cliente.t * Store :=
  if create_cliente_fits (engine s) data && Int (seq_cliente s) then
    if existsb (fun c => str_eqb (Cliente.cpf_cnpj c)
                                 (CreateClienteInput.cpf_cnpj data)) (clientes s)
    then (Thrown (P2002 ["cpf_cnpj"]), draw_cliente s)
    else if existsb (fun c => str_eqb (Cliente.email c)
                                      (CreateClienteInput.email data))
                    (clientes s)
    then (Thrown (P2002 ["email"]), draw_cliente s)
    else
      let c := {| Cliente.id := seq_cliente s;
                  Cliente.nome_completo := CreateClienteInput.nome_completo data;
                  Cliente.cpf_cnpj := CreateClienteInput.cpf_cnpj data;
                  Cliente.telefone := CreateClienteInput.telefone data;
                  Cliente.data_nascimento :=
                    day (CreateClienteInput.data_nascimento data);
                  Cliente.email := CreateClienteInput.email data |} in
      (Returned c, set_clientes (clientes s ++ [c]) (draw_cliente s))
  else refused_insert draw_cliente s.

Definition update_cliente_fits (e : Engine) (data : UpdateClienteInput.t)
    : bool :=
  opt (holds_text e) (UpdateClienteInput.nome_completo data)
  && opt (holds_text e) (UpdateClienteInput.cpf_cnpj data)
  && opt (holds_text e) (UpdateClienteInput.telefone data)
  && opt (holds_date e) (UpdateClienteInput.data_nascimento data)
  && opt (holds_text e) (UpdateClienteInput.email data).

(** The row after an update: the fields of [data] replace the stored ones,
    the others stay. *)
Definition cliente_patch (data : UpdateClienteInput.t) (c : Cliente.t)
    : Cliente.t :=
  {| Cliente.id := Cliente.id c;
     Cliente.nome_completo :=
       or_else (UpdateClienteInput.nome_completo data) (Cliente.nome_completo c);
     Cliente.cpf_cnpj :=
       or_else (UpdateClienteInput.cpf_cnpj data) (Cliente.cpf_cnpj c);
     Cliente.telefone :=
       or_else (UpdateClienteInput.telefone data) (Cliente.telefone c);
     Cliente.data_nascimento :=
       or_else (option_map day (UpdateClienteInput.data_nascimento data))
               (Cliente.data_nascimento c);
     Cliente.email := or_else (UpdateClienteInput.email data) (Cliente.email c) |}.

(** [update({ where: { id }, data })]: P2025 when no row has the id. *)
Definition cliente_update (i : Z) (data : UpdateClienteInput.t) (s : Store)
    : Outcome Cliente.t * Store :=
  if Int i && update_cliente_fits (engine s) data then
    match find_cliente i s with
    | None => (Thrown P2025, s)
    | Some c =>
        let c' := cliente_patch data c in
        if existsb (fun o => negb (Cliente.id o =? i)
                             && str_eqb (Cliente.cpf_cnpj o) (Cliente.cpf_cnpj c'))
                   (clientes s)
        then (Thrown (P2002 ["cpf_cnpj"]), s)
        else if existsb (fun o => negb (Cliente.id o =? i)
                                  && str_eqb (Cliente.email o) (Cliente.email c'))
                        (clientes s)
        then (Thrown (P2002 ["email"]), s)
        else
          (Returned c',
           set_clientes (map (fun o => if Cliente.id o =? i
                                       then cliente_patch data o else o)
                             (clientes s)) s)
    end
  else refused s.

(** [delete({ where: { id } })].  The relation of [AlocacaoCliente] to
    [Cliente] is [onDelete: Cascade]: the customer's allocations go with it. *)
Definition cliente_delete (i : Z) (s : Store) : Outcome Cliente.t * Store :=
  if Int i then
    match find_cliente i s with
    | None => (Thrown P2025, s)
    | Some c =>
        (Returned c,
         set_alocacoes
           (filter (fun al => negb (AlocacaoCliente.clienteId al =? i))
                   (alocacoes s))
           (set_clientes
              (filter (fun o => negb (Cliente.id o =? i)) (clientes s)) s))
    end
  else refused s.

(** *** model Acao *)

Definition acao_findUnique_id (i : Z) (s : Store)
    : Outcome (option Acao.t) * Store :=
  if Int i then (Returned (find_acao i s), s) else refused s.

Definition create_acao_fits (e : Engine) (data : CreateAcaoInput.t) : bool :=
  holds_text e (CreateAcaoInput.nome_ativo data)
  && holds_text e (CreateAcaoInput.codigo_ticker data)
  && opt (holds_text e) (CreateAcaoInput.tipo_ativo data)
  && opt (holds_text e) (CreateAcaoInput.descricao data).

(** [create({ data })].  [nome_ativo] and [codigo_ticker] are [@unique];
    [valor_atual] is [@db.Decimal(10, 2)]. *)
Definition acao_create (data : CreateAcaoInput.t) (s : Store)
    : Outcome Acao.t * Store :=
  match Decimal 10 2 (CreateAcaoInput.valor_atual data) with
  | Some valor =>
      if create_acao_fits (engine s) data && Int (seq_acao s) then
        if existsb (fun a => str_eqb (Acao.nome_ativo a)
                                     (CreateAcaoInput.nome_ativo data)) (acoes s)
        then (Thrown (P2002 ["nome_ativo"]), draw_acao s)
        else if existsb (fun a => str_eqb (Acao.codigo_ticker a)
                                          (CreateAcaoInput.codigo_ticker data))
                        (acoes s)
        then (Thrown (P2002 ["codigo_ticker"]), draw_acao s)
        else
          let a := {| Acao.id := seq_acao s;
                      Acao.nome_ativo := CreateAcaoInput.nome_ativo data;
                      Acao.codigo_ticker := CreateAcaoInput.codigo_ticker data;
                      Acao.valor_atual := valor;
                      Acao.tipo_ativo := CreateAcaoInput.tipo_ativo data;
                      Acao.descricao := CreateAcaoInput.descricao data |} in
          (Returned a, set_acoes (acoes s ++ [a]) (draw_acao s))
      else refused_insert draw_acao s
  | None => refused_insert draw_acao s
  end.

Definition update_acao_fits (e : Engine) (data : UpdateAcaoInput.t) : bool :=
  opt (holds_text e) (UpdateAcaoInput.nome_ativo data)
  && opt (holds_text e) (UpdateAcaoInput.codigo_ticker data)
  && opt (holds_text e) (UpdateAcaoInput.tipo_ativo data)
  && opt (opt (holds_text e)) (UpdateAcaoInput.descricao data).

(** The row after an update; [valor] is the price of [data] as the column
    holds it.  A [descricao] of [null] clears the column. *)
Definition acao_patch (data : UpdateAcaoInput.t) (valor : option Q)
    (a : Acao.t) : Acao.t :=
  {| Acao.id := Acao.id a;
     Acao.nome_ativo :=
       or_else (UpdateAcaoInput.nome_ativo data) (Acao.nome_ativo a);
     Acao.codigo_ticker :=
       or_else (UpdateAcaoInput.codigo_ticker data) (Acao.codigo_ticker a);
     Acao.valor_atual := or_else valor (Acao.valor_atual a);
     Acao.tipo_ativo :=
       match UpdateAcaoInput.tipo_ativo data with
       | Some t => Some t
       | None => Acao.tipo_ativo a
       end;
     Acao.descricao :=
       or_else (UpdateAcaoInput.descricao data) (Acao.descricao a) |}.

Definition acao_update (i : Z) (data : UpdateAcaoInput.t) (s : Store)
    : Outcome Acao.t * Store :=
  match optionally (Decimal 10 2) (UpdateAcaoInput.valor_atual data) with
  | Some valor =>
      if Int i && update_acao_fits (engine s) data then
        match find_acao i s with
        | None => (Thrown P2025, s)
        | Some a =>
            let a' := acao_patch data valor a in
            if existsb (fun o => negb (Acao.id o =? i)
                                 && str_eqb (Acao.nome_ativo o)
                                            (Acao.nome_ativo a'))
                       (acoes s)
            then (Thrown (P2002 ["nome_ativo"]), s)
            else if existsb (fun o => negb (Acao.id o =? i)
                                      && str_eqb (Acao.codigo_ticker o)
                                                 (Acao.codigo_ticker a'))
                            (acoes s)
            then (Thrown (P2002 ["codigo_ticker"]), s)
            else
              (Returned a',
               set_acoes (map (fun o => if Acao.id o =? i
                                        then acao_patch data valor o else o)
                              (acoes s)) s)
        end
      else refused s
  | None => refused s
  end.

(** [delete({ where: { id } })].  The relation of [AlocacaoCliente] to
    [Acao] is [onDelete: Restrict]: an asset that an allocation references
    is not deleted, the call fails with P2003. *)
Definition acao_delete (i : Z) (s : Store) : Outcome Acao.t * Store :=
  if Int i then
    match find_acao i s with
    | None => (Thrown P2025, s)
    | Some a =>
        if existsb (fun al => AlocacaoCliente.acaoId al =? i) (alocacoes s)
        then (Thrown P2003, s)
        else
          (Returned a,
           set_acoes (filter (fun o => negb (Acao.id o =? i)) (acoes s)) s)
    end
  else refused s.

(** *** model AlocacaoCliente *)

(** [create({ data: { clienteId, acaoId, ...dadosAlocacao }, include: { acao: true } })].
    [quantidade] is [@db.Decimal(18, 4)], [valor_medio_aquisicao]
    [@db.Decimal(12, 2)], [data_ultima_compra] [@db.Date];
    [@@unique([clienteId, acaoId])]; both relations are required. *)
Definition alocacao_create (clienteId : Z) (data : CreateAlocacaoInput.t)
    (s : Store) : Outcome (AlocacaoCliente.t * Acao.t) * Store :=
  let acaoId := CreateAlocacaoInput.acaoId data in
  match Decimal 18 4 (CreateAlocacaoInput.quantidade data),
        Decimal 12 2 (CreateAlocacaoInput.valor_medio_aquisicao data),
        DbDate (engine s) (CreateAlocacaoInput.data_ultima_compra data) with
  | Some quantidade, Some valor, Some data_compra =>
      if Int clienteId && Int acaoId && Int (seq_alocacao s) then
        if existsb (fun al => (AlocacaoCliente.clienteId al =? clienteId)
                              && (AlocacaoCliente.acaoId al =? acaoId))
                   (alocacoes s)
        then (Thrown (P2002 ["clienteId"; "acaoId"]), draw_alocacao s)
        else
          match find_cliente clienteId s, find_acao acaoId s with
          | Some _, Some a =>
              let al :=
                {| AlocacaoCliente.id := seq_alocacao s;
                   AlocacaoCliente.clienteId := clienteId;
                   AlocacaoCliente.acaoId := acaoId;
                   AlocacaoCliente.quantidade := quantidade;
                   AlocacaoCliente.valor_medio_aquisicao := valor;
                   AlocacaoCliente.data_ultima_compra := data_compra |} in
              (Returned (al, a),
               set_alocacoes (alocacoes s ++ [al]) (draw_alocacao s))
          | _, _ => (Thrown P2003, draw_alocacao s)
          end
      else refused_insert draw_alocacao s
  | _, _, _ => refused_insert draw_alocacao s
  end.

Definition resumo (a : Acao.t) : AcaoResumo.t :=
  {| AcaoResumo.id := Acao.id a;
     AcaoResumo.nome_ativo := Acao.nome_ativo a;
     AcaoResumo.codigo_ticker := Acao.codigo_ticker a;
     AcaoResumo.valor_atual := Acao.valor_atual a |}.

(** Joining each allocation with its asset; the relation is required, and a
    row whose asset is missing makes the query fail. *)
Fixpoint join_acao (s : Store) (rows : list AlocacaoCliente.t)
    : option (list (AlocacaoCliente.t * AcaoResumo.t)) :=
  match rows with
  | [] => Some []
  | al :: rest =>
      match find_acao (AlocacaoCliente.acaoId al) s, join_acao s rest with
      | Some a, Some r => Some ((al, resumo a) :: r)
      | _, _ => None
      end
  end.

(** [findMany({ where: { clienteId }, include: { acao: { select } } })] *)
Definition alocacao_findMany_cliente (clienteId : Z) (s : Store)
    : Outcome (list (AlocacaoCliente.t * AcaoResumo.t)) * Store :=
  if Int clienteId then
    match join_acao s
            (filter (fun al => AlocacaoCliente.clienteId al =? clienteId)
                    (alocacoes s)) with
    | Some rows => (Returned rows, s)
    | None => refused s
    end
  else refused s.

(** The row after an update, from the values as the columns hold them.
    The update data holds no reference: the linkage is copied. *)
Definition alocacao_patch (quantidade valor : option Q)
    (data_compra : option Date) (al : AlocacaoCliente.t) : AlocacaoCliente.t :=
  {| AlocacaoCliente.id := AlocacaoCliente.id al;
     AlocacaoCliente.clienteId := AlocacaoCliente.clienteId al;
     AlocacaoCliente.acaoId := AlocacaoCliente.acaoId al;
     AlocacaoCliente.quantidade :=
       or_else quantidade (AlocacaoCliente.quantidade al);
     AlocacaoCliente.valor_medio_aquisicao :=
       or_else valor (AlocacaoCliente.valor_medio_aquisicao al);
     AlocacaoCliente.data_ultima_compra :=
       or_else data_compra (AlocacaoCliente.data_ultima_compra al) |}.

(** [update({ where: { id }, data, include: { acao: true } })] *)
Definition alocacao_update (i : Z) (data : UpdateAlocacaoInput.t) (s : Store)
    : Outcome (AlocacaoCliente.t * Acao.t) * Store :=
  match optionally (Decimal 18 4) (UpdateAlocacaoInput.quantidade data),
        optionally (Decimal 12 2)
                   (UpdateAlocacaoInput.valor_medio_aquisicao data),
        optionally (DbDate (engine s))
                   (UpdateAlocacaoInput.data_ultima_compra data) with
  | Some quantidade, Some valor, Some data_compra =>
      if Int i then
        match find_alocacao i s with
        | None => (Thrown P2025, s)
        | Some al =>
            let al' := alocacao_patch quantidade valor data_compra al in
            match find_acao (AlocacaoCliente.acaoId al') s with
            | None => refused s
            | Some a =>
                (Returned (al', a),
                 set_alocacoes
                   (map (fun o => if AlocacaoCliente.id o =? i
                                  then alocacao_patch quantidade valor
                                                      data_compra o
                                  else o)
                        (alocacoes s)) s)
            end
        end
      else refused s
  | _, _, _ => refused s
  end.

(** [delete({ where: { id } })] *)
Definition alocacao_delete (i : Z) (s : Store)
    : Outcome AlocacaoCliente.t * Store :=
  if Int i then
    match find_alocacao i s with
    | None => (Thrown P2025, s)
    | Some al =>
        (Returned al,
         set_alocacoes (filter (fun o => negb (AlocacaoCliente.id o =? i))
                               (alocacoes s)) s)
    end
  else refused s.

(** Referential integrity: every allocation references a stored customer
    and a stored asset. *)
Definition integrity (s : Store) : bool :=
  forallb (fun al =>
             existsb (fun c => Cliente.id c =? AlocacaoCliente.clienteId al)
                     (clientes s)
             && existsb (fun a => Acao.id a =? AlocacaoCliente.acaoId al)
                        (acoes s))
          (alocacoes s).

End Prisma.

(** ** Asynchronous handlers: a state and exception monad

    A handler runs against the store and may [await] persistence calls, each
    of which is recorded; a call either returns or throws. *)

Module Async.
Import Prisma.

Definition Call := string.

Record World := { db : Store; calls : list Call }.

Definition t (A : Type) : Type := World -> Outcome A * World.

Definition ret {A} (a : A) : t A := fun w => (Returned a, w).

Definition bind {A B} (m : t A) (k : A -> t B) : t B :=
  fun w =>
    match m w with
    | (Returned a, w') => k a w'
    | (Thrown e, w') => (Thrown e, w')
    end.

(** [try { body } catch (error) { handler }] *)
Definition try_catch {A} (body : t A) (handler : Error -> t A) : t A :=
  fun w =>
    match body w with
    | (Returned a, w') => (Returned a, w')
    | (Thrown e, w') => handler e w'
    end.

(** One persistence call: it is recorded, and leaves the store as the
    persistence layer leaves it, whether it returns or throws. *)
Definition perform {A} (c : Call) (op : Store -> Outcome A * Store) : t A :=
  fun w =>
    (fst (op (db w)), {| db := snd (op (db w)); calls := calls w ++ [c] |}).

(** A call that only reads, and takes any argument. *)
Definition query {A} (c : Call) (f : Store -> A) : t A :=
  perform c (fun s => (Returned (f s), s)).

Definition start (s : Store) : World := {| db := s; calls := [] |}.

End Async.

Declare Scope async_scope.
Delimit Scope async_scope with async.
Notation "x <- m ;; k" := (Async.bind m (fun x => k))
  (at level 61, m at next level, right associativity) : async_scope.
Notation "m ;;; k" := (Async.bind m (fun _ => k))
  (at level 61, right associativity) : async_scope.

(** The client object of the persistence layer. *)
Module prisma.
Import Async.
#[local] Open Scope string_scope.

Module cliente.
Definition create data := perform "cliente.create" (Prisma.cliente_create data).
Definition findMany : Async.t (list Cliente.t) :=
  query "cliente.findMany" Prisma.clientes.
Definition findUnique_id (id : Z) :=
  perform "cliente.findUnique" (Prisma.cliente_findUnique_id id).
Definition findUnique_cpf_cnpj cpf_cnpj :=
  perform "cliente.findUnique" (Prisma.cliente_findUnique_cpf_cnpj cpf_cnpj).
Definition findFirst_contains nome_completo :=
  perform "cliente.findFirst" (Prisma.cliente_findFirst_contains nome_completo).
Definition update id data :=
  perform "cliente.update" (Prisma.cliente_update id data).
Definition delete id := perform "cliente.delete" (Prisma.cliente_delete id).
End cliente.

Module acao.
Definition create data := perform "acao.create" (Prisma.acao_create data).
Definition findMany : Async.t (list Acao.t) := query "acao.findMany" Prisma.acoes.
Definition findUnique_id (id : Z) :=
  perform "acao.findUnique" (Prisma.acao_findUnique_id id).
Definition update id data := perform "acao.update" (Prisma.acao_update id data).
Definition delete id := perform "acao.delete" (Prisma.acao_delete id).
End acao.

Module alocacaoCliente.
Definition create clienteId data :=
  perform "alocacaoCliente.create" (Prisma.alocacao_create clienteId data).
Definition findMany_clienteId clienteId :=
  perform "alocacaoCliente.findMany" (Prisma.alocacao_findMany_cliente clienteId).
Definition update id data :=
  perform "alocacaoCliente.update" (Prisma.alocacao_update id data).
Definition delete id :=
  perform "alocacaoCliente.delete" (Prisma.alocacao_delete id).
End alocacaoCliente.

End prisma.

(** ** Replies *)

Module Reply.
#[local] Open Scope string_scope.

Inductive Body :=
| Record_cliente (c : Cliente.t)
| List_clientes (l : list Cliente.t)
| Record_acao (a : Acao.t)
| List_acoes (l : list Acao.t)
| Record_alocacao (al : AlocacaoCliente.t) (acao : Acao.t)
| List_alocacoes (rows : list (AlocacaoCliente.t * AcaoResumo.t))
| Object_ (props : list (string * string))
| Validation (issues : list Zod.Issue).

Record t := { status : Z; body : Body }.

(** [reply.status(code).send(payload)] *)
Definition send (code : Z) (payload : Body) : t :=
  {| status := code; body := payload |}.

(** [{ message }] *)
Definition message (m : string) : Body := Object_ [("message", m)].

(** [{ message, fields }]; a property whose value is [undefined] is not
    serialized. *)
Definition message_fields (m : string) (fields : option string) : Body :=
  Object_ (("message", m) ::
           match fields with
           | Some f => [("fields", f)]
           | None => []
           end).

Fixpoint assoc (k : string) (props : list (string * string)) : option string :=
  match props with
  | [] => None
  | (k', v) :: r => if String.eqb k k' then Some v else assoc k r
  end.

(** The string property [k] of the body, if it has one. *)
Definition prop (k : string) (b : Body) : option string :=
  match b with
  | Object_ props => assoc k props
  | _ => None
  end.

(** [(error.meta?.target as string[])?.join(', ')] *)
Definition join_target (target : option (list string)) : option string :=
  option_map (String.concat ", ") target.

(** A value inside a template literal. *)
Definition interpolate (v : option string) : string :=
  match v with Some s => s | None => "undefined" end.

End Reply.

(** ** What the framework does around a handler *)

Module Fastify.
Import Zod Async Reply.

(** The request part is validated against the route's schema; a failure is
    answered with 400 and the handler does not run. *)
Definition validate {A} (schema : Js.JsValue -> Parsed A) (input : Js.JsValue)
    (handler : A -> Async.t Reply.t) : Async.t Reply.t :=
  match schema input with
  | Valid a => handler a
  | Invalid issues => ret (send 400 (Validation issues))
  end.

(** [error instanceof Prisma.PrismaClientKnownRequestError && error.code === c] *)
Definition known (error : Prisma.Error) (c : string) : bool :=
  match error with
  | Prisma.KnownRequestError code _ => String.eqb code c
  | Prisma.OtherError => false
  end.

(** [error.meta?.target] *)
Definition meta_target (error : Prisma.Error) : option (list string) :=
  match error with
  | Prisma.KnownRequestError _ target => target
  | Prisma.OtherError => None
  end.

End Fastify.

(** ** server.ts, customer-only revision *)

Module ServerClientes.
Import Async Reply Fastify.
#[local] Open Scope string_scope.
#[local] Open Scope Z_scope.
#[local] Open Scope async_scope.

Definition post_clientes (body : CreateClienteInput.t) : Async.t Reply.t :=
  try_catch
    (novoCliente <- prisma.cliente.create body ;;
     ret (send 201 (Record_cliente novoCliente)))
    (fun error =>
       if known error "P2002" then
         let target := join_target (meta_target error) in
         ret (send 409
                (message_fields
                   ("Erro de conflito: Já existe um cliente com este "
                    ++ interpolate target ++ ".")
                   target))
       else ret (send 500 (message "Erro interno ao criar cliente."))).

Definition get_clientes : Async.t Reply.t :=
  try_catch
    (clientes <- prisma.cliente.findMany ;;
     ret (send 200 (List_clientes clientes)))
    (fun error => ret (send 500 (message "Erro interno ao buscar clientes."))).

Definition get_clientes_id (id : Z) : Async.t Reply.t :=
  try_catch
    (cliente <- prisma.cliente.findUnique_id id ;;
     match cliente with
     | None => ret (send 404 (message "Cliente não encontrado."))
     | Some c => ret (send 200 (Record_cliente c))
     end)
    (fun error => ret (send 500 (message "Erro interno ao buscar cliente."))).

Definition put_clientes_id (id : Z) (dadosAtualizacao : UpdateClienteInput.t)
    : Async.t Reply.t :=
  try_catch
    (if Schemas.cliente_no_keys dadosAtualizacao then
       ret (send 400 (message "Nenhum dado fornecido para atualização."))
     else
       clienteAtualizado <- prisma.cliente.update id dadosAtualizacao ;;
       ret (send 200 (Record_cliente clienteAtualizado)))
    (fun error =>
       if known error "P2025" then
         ret (send 404 (message "Cliente não encontrado para atualização."))
       else if known error "P2002" then
         let target := join_target (meta_target error) in
         ret (send 409
                (message_fields
                   ("Erro de conflito: Já existe um cliente com este "
                    ++ interpolate target ++ ".")
                   target))
       else ret (send 500 (message "Erro interno ao atualizar cliente."))).

Definition delete_clientes_id (id : Z) : Async.t Reply.t :=
  try_catch
    (_ <- prisma.cliente.delete id ;;
     ret (send 200 (message "Cliente deletado com sucesso.")))
    (fun error =>
       if known error "P2025" then
         ret (send 404 (message "Cliente não encontrado para deleção."))
       else ret (send 500 (message "Erro interno ao deletar cliente."))).

Inductive Request :=
| POST_clientes (body : Js.JsValue)
| GET_clientes
| GET_clientes_id (params : Js.JsValue)
| PUT_clientes_id (params body : Js.JsValue)
| DELETE_clientes_id (params : Js.JsValue).

Definition route (env : Zod.Env) (r : Request) : Async.t Reply.t :=
  match r with
  | POST_clientes body =>
      validate (Schemas.createClienteSchema env) body post_clientes
  | GET_clientes => get_clientes
  | GET_clientes_id params =>
      validate (Schemas.clienteIdParamSchema_clientes env) params get_clientes_id
  | PUT_clientes_id params body =>
      validate (Schemas.clienteIdParamSchema_clientes env) params (fun id =>
        validate (Schemas.updateClienteSchema_clientes env) body
                 (put_clientes_id id))
  | DELETE_clientes_id params =>
      validate (Schemas.clienteIdParamSchema_clientes env) params delete_clientes_id
  end.

End ServerClientes.

(** ** server.ts, full route set *)

Module Server.
Import Async Reply Fastify.
#[local] Open Scope string_scope.
#[local] Open Scope Z_scope.
#[local] Open Scope async_scope.

(** *** Customers *)

Definition post_clientes (body : CreateClienteInput.t) : Async.t Reply.t :=
  try_catch
    (novoCliente <- prisma.cliente.create body ;;
     ret (send 201 (Record_cliente novoCliente)))
    (fun error =>
       if known error "P2002" then
         let target := join_target (meta_target error) in
         ret (send 409
                (message ("Conflito: Já existe um cliente com este "
                          ++ interpolate target ++ ".")))
       else ret (send 500 (message "Erro interno ao criar cliente."))).

Definition get_clientes : Async.t Reply.t :=
  try_catch
    (clientes <- prisma.cliente.findMany ;;
     ret (send 200 (List_clientes clientes)))
    (fun error => ret (send 500 (message "Erro interno ao buscar clientes."))).

Definition get_clientes_buscar (query : BuscarClienteQueryInput.t)
    : Async.t Reply.t :=
  let nome_completo := BuscarClienteQueryInput.nome_completo query in
  let cpf_cnpj := BuscarClienteQueryInput.cpf_cnpj query in
  try_catch
    (cliente <-
       (if Js.truthy cpf_cnpj then
          prisma.cliente.findUnique_cpf_cnpj (Prisma.or_else cpf_cnpj [])
        else if Js.truthy nome_completo then
          prisma.cliente.findFirst_contains (Prisma.or_else nome_completo [])
        else ret None) ;;
     match cliente with
     | None => ret (send 404 (message "Cliente não encontrado."))
     | Some c => ret (send 200 (Record_cliente c))
     end)
    (fun error => ret (send 500 (message "Erro interno ao buscar cliente."))).

Definition get_clientes_id (id : Z) : Async.t Reply.t :=
  try_catch
    (cliente <- prisma.cliente.findUnique_id id ;;
     match cliente with
     | None => ret (send 404 (message "Cliente não encontrado."))
     | Some c => ret (send 200 (Record_cliente c))
     end)
    (fun error => ret (send 500 (message "Erro interno ao buscar cliente."))).

Definition put_clientes_id (id : Z) (body : UpdateClienteInput.t)
    : Async.t Reply.t :=
  try_catch
    (clienteAtualizado <- prisma.cliente.update id body ;;
     ret (send 200 (Record_cliente clienteAtualizado)))
    (fun error =>
       if known error "P2025" then
         ret (send 404 (message "Cliente não encontrado para atualização."))
       else if known error "P2002" then
         let target := join_target (meta_target error) in
         ret (send 409
                (message ("Conflito: Já existe um cliente com este "
                          ++ interpolate target ++ ".")))
       else ret (send 500 (message "Erro interno ao atualizar cliente."))).

Definition delete_clientes_id (id : Z) : Async.t Reply.t :=
  try_catch
    (_ <- prisma.cliente.delete id ;;
     ret (send 200 (message "Cliente deletado com sucesso.")))
    (fun error =>
       if known error "P2025" then
         ret (send 404 (message "Cliente não encontrado para deleção."))
       else ret (send 500 (message "Erro interno ao deletar cliente."))).

(** *** Assets *)

Definition post_acoes (body : CreateAcaoInput.t) : Async.t Reply.t :=
  try_catch
    (novaAcao <- prisma.acao.create body ;;
     ret (send 201 (Record_acao novaAcao)))
    (fun error =>
       if known error "P2002" then
         let target := join_target (meta_target error) in
         ret (send 409
                (message ("Conflito: Já existe uma ação com este "
                          ++ interpolate target ++ ".")))
       else ret (send 500 (message "Erro interno ao criar ação."))).

Definition get_acoes : Async.t Reply.t :=
  try_catch
    (acoes <- prisma.acao.findMany ;;
     ret (send 200 (List_acoes acoes)))
    (fun error => ret (send 500 (message "Erro interno ao buscar ações."))).

Definition get_acoes_id (id : Z) : Async.t Reply.t :=
  try_catch
    (acao <- prisma.acao.findUnique_id id ;;
     match acao with
     | None => ret (send 404 (message "Ação não encontrada."))
     | Some a => ret (send 200 (Record_acao a))
     end)
    (fun error => ret (send 500 (message "Erro interno ao buscar ação."))).

Definition put_acoes_id (id : Z) (body : UpdateAcaoInput.t) : Async.t Reply.t :=
  try_catch
    (acaoAtualizada <- prisma.acao.update id body ;;
     ret (send 200 (Record_acao acaoAtualizada)))
    (fun error =>
       if known error "P2025" then
         ret (send 404 (message "Ação não encontrada para atualização."))
       else if known error "P2002" then
         let target := join_target (meta_target error) in
         ret (send 409
                (message ("Conflito: Já existe uma ação com este "
                          ++ interpolate target ++ ".")))
       else ret (send 500 (message "Erro interno ao atualizar ação."))).

Definition delete_acoes_id (id : Z) : Async.t Reply.t :=
  try_catch
    (_ <- prisma.acao.delete id ;;
     ret (send 200 (message "Ação deletada com sucesso.")))
    (fun error =>
       if known error "P2025" then
         ret (send 404 (message "Ação não encontrada para deleção."))
       else if known error "P2003" then
         ret (send 409
                (message "Não é possível deletar a ação pois ela está alocada a um ou mais clientes."))
       else ret (send 500 (message "Erro interno ao deletar ação."))).

(** *** Allocations *)

Definition post_clientes_id_alocacoes (clienteId : Z)
    (body : CreateAlocacaoInput.t) : Async.t Reply.t :=
  let acaoId := CreateAlocacaoInput.acaoId body in
  try_catch
    (clienteExists <- prisma.cliente.findUnique_id clienteId ;;
     match clienteExists with
     | None => ret (send 404 (message "Cliente não encontrado."))
     | Some _ =>
         acaoExists <- prisma.acao.findUnique_id acaoId ;;
         match acaoExists with
         | None => ret (send 404 (message "Ação não encontrada."))
         | Some _ =>
             novaAlocacao <- prisma.alocacaoCliente.create clienteId body ;;
             ret (send 201 (Record_alocacao (fst novaAlocacao)
                                            (snd novaAlocacao)))
         end
     end)
    (fun error =>
       if known error "P2002" then
         ret (send 409
                (message "Este cliente já possui uma alocação para esta ação."))
       else ret (send 500 (message "Erro interno ao criar alocação."))).

Definition get_clientes_id_alocacoes (clienteId : Z) : Async.t Reply.t :=
  try_catch
    (alocacoes <- prisma.alocacaoCliente.findMany_clienteId clienteId ;;
     ret (send 200 (List_alocacoes alocacoes)))
    (fun error =>
       ret (send 500 (message "Erro interno ao buscar alocações do cliente."))).

Definition put_alocacoes_id (id : Z) (body : UpdateAlocacaoInput.t)
    : Async.t Reply.t :=
  try_catch
    (alocacaoAtualizada <- prisma.alocacaoCliente.update id body ;;
     ret (send 200 (Record_alocacao (fst alocacaoAtualizada)
                                    (snd alocacaoAtualizada))))
    (fun error =>
       if known error "P2025" then
         ret (send 404 (message "Alocação não encontrada para atualização."))
       else ret (send 500 (message "Erro interno ao atualizar alocação."))).

Definition delete_alocacoes_id (id : Z) : Async.t Reply.t :=
  try_catch
    (_ <- prisma.alocacaoCliente.delete id ;;
     ret (send 200 (message "Alocação deletada com sucesso.")))
    (fun error =>
       if known error "P2025" then
         ret (send 404 (message "Alocação não encontrada para deleção."))
       else ret (send 500 (message "Erro interno ao deletar alocação."))).

(** *** Routes *)

Inductive Request :=
| POST_clientes (body : Js.JsValue)
| GET_clientes
| GET_clientes_buscar (query : Js.JsValue)
| GET_clientes_id (params : Js.JsValue)
| PUT_clientes_id (params body : Js.JsValue)
| DELETE_clientes_id (params : Js.JsValue)
| POST_acoes (body : Js.JsValue)
| GET_acoes
| GET_acoes_id (params : Js.JsValue)
| PUT_acoes_id (params body : Js.JsValue)
| DELETE_acoes_id (params : Js.JsValue)
| POST_clientes_id_alocacoes (params body : Js.JsValue)
| GET_clientes_id_alocacoes (params : Js.JsValue)
| PUT_alocacoes_id (params body : Js.JsValue)
| DELETE_alocacoes_id (params : Js.JsValue).

Definition route (env : Zod.Env) (r : Request) : Async.t Reply.t :=
  match r with
  | POST_clientes body =>
      validate (Schemas.createClienteSchema env) body post_clientes
  | GET_clientes => get_clientes
  | GET_clientes_buscar query =>
      validate Schemas.buscarClienteQuerySchema query get_clientes_buscar
  | GET_clientes_id params =>
      validate (Schemas.clienteIdParamSchema env) params get_clientes_id
  | PUT_clientes_id params body =>
      validate (Schemas.clienteIdParamSchema env) params (fun id =>
        validate (Schemas.updateClienteSchema env) body (put_clientes_id id))
  | DELETE_clientes_id params =>
      validate (Schemas.clienteIdParamSchema env) params delete_clientes_id
  | POST_acoes body =>
      validate (Schemas.createAcaoSchema env) body post_acoes
  | GET_acoes => get_acoes
  | GET_acoes_id params =>
      validate (Schemas.acaoIdParamSchema env) params get_acoes_id
  | PUT_acoes_id params body =>
      validate (Schemas.acaoIdParamSchema env) params (fun id =>
        validate (Schemas.updateAcaoSchema env) body (put_acoes_id id))
  | DELETE_acoes_id params =>
      validate (Schemas.acaoIdParamSchema env) params delete_acoes_id
  | POST_clientes_id_alocacoes params body =>
      validate (Schemas.clienteIdParamSchema env) params (fun id =>
        validate (Schemas.createAlocacaoSchema env) body
                 (post_clientes_id_alocacoes id))
  | GET_clientes_id_alocacoes params =>
      validate (Schemas.clienteIdParamSchema env) params
               get_clientes_id_alocacoes
  | PUT_alocacoes_id params body =>
      validate (Schemas.alocacaoIdParamSchema env) params (fun id =>
        validate (Schemas.updateAlocacaoSchema env) body (put_alocacoes_id id))
  | DELETE_alocacoes_id params =>
      validate (Schemas.alocacaoIdParamSchema env) params delete_alocacoes_id
  end.

End Server.

(** ** The routes that the full route set registers

    The full route set registers fourteen routes.  It has no
    GET /clientes/:id: that route is one of the customer-only revision. *)

Module Routes.
Import Async Reply Fastify.

Inductive Request :=
| POST_clientes (body : Js.JsValue)
| GET_clientes
| GET_clientes_buscar (query : Js.JsValue)
| PUT_clientes_id (params body : Js.JsValue)
| DELETE_clientes_id (params : Js.JsValue)
| POST_acoes (body : Js.JsValue)
| GET_acoes
| GET_acoes_id (params : Js.JsValue)
| PUT_acoes_id (params body : Js.JsValue)
| DELETE_acoes_id (params : Js.JsValue)
| POST_clientes_id_alocacoes (params body : Js.JsValue)
| GET_clientes_id_alocacoes (params : Js.JsValue)
| PUT_alocacoes_id (params body : Js.JsValue)
| DELETE_alocacoes_id (params : Js.JsValue).

Definition route (env : Zod.Env) (r : Request) : Async.t Reply.t :=
  match r with
  | POST_clientes body =>
      validate (Schemas.createClienteSchema env) body Server.post_clientes
  | GET_clientes => Server.get_clientes
  | GET_clientes_buscar query =>
      validate Schemas.buscarClienteQuerySchema query Server.get_clientes_buscar
  | PUT_clientes_id params body =>
      validate (Schemas.clienteIdParamSchema env) params (fun id =>
        validate (Schemas.updateClienteSchema env) body
                 (Server.put_clientes_id id))
  | DELETE_clientes_id params =>
      validate (Schemas.clienteIdParamSchema env) params
               Server.delete_clientes_id
  | POST_acoes body =>
      validate (Schemas.createAcaoSchema env) body Server.post_acoes
  | GET_acoes => Server.get_acoes
  | GET_acoes_id params =>
      validate (Schemas.acaoIdParamSchema env) params Server.get_acoes_id
  | PUT_acoes_id params body =>
      validate (Schemas.acaoIdParamSchema env) params (fun id =>
        validate (Schemas.updateAcaoSchema env) body (Server.put_acoes_id id))
  | DELETE_acoes_id params =>
      validate (Schemas.acaoIdParamSchema env) params Server.delete_acoes_id
  | POST_clientes_id_alocacoes params body =>
      validate (Schemas.clienteIdParamSchema env) params (fun id =>
        validate (Schemas.createAlocacaoSchema env) body
                 (Server.post_clientes_id_alocacoes id))
  | GET_clientes_id_alocacoes params =>
      validate (Schemas.clienteIdParamSchema env) params
               Server.get_clientes_id_alocacoes
  | PUT_alocacoes_id params body =>
      validate (Schemas.alocacaoIdParamSchema env) params (fun id =>
        validate (Schemas.updateAlocacaoSchema env) body
                 (Server.put_alocacoes_id id))
  | DELETE_alocacoes_id params =>
      validate (Schemas.alocacaoIdParamSchema env) params
               Server.delete_alocacoes_id
  end.

(** The same request, where the routes are told apart with one more. *)
Definition full (r : Request) : Server.Request :=
  match r with
  | POST_clientes body => Server.POST_clientes body
  | GET_clientes => Server.GET_clientes
  | GET_clientes_buscar query => Server.GET_clientes_buscar query
  | PUT_clientes_id params body => Server.PUT_clientes_id params body
  | DELETE_clientes_id params => Server.DELETE_clientes_id params
  | POST_acoes body => Server.POST_acoes body
  | GET_acoes => Server.GET_acoes
  | GET_acoes_id params => Server.GET_acoes_id params
  | PUT_acoes_id params body => Server.PUT_acoes_id params body
  | DELETE_acoes_id params => Server.DELETE_acoes_id params
  | POST_clientes_id_alocacoes params body =>
      Server.POST_clientes_id_alocacoes params body
  | GET_clientes_id_alocacoes params => Server.GET_clientes_id_alocacoes params
  | PUT_alocacoes_id params body => Server.PUT_alocacoes_id params body
  | DELETE_alocacoes_id params => Server.DELETE_alocacoes_id params
  end.

End Routes.

(** ** A runtime and a database engine for examples

    The runtime reads less than the JavaScript runtime does: numbers written
    as digits, dates given as whole timestamps, and an e-mail test that looks
    for the at sign.  The engine takes the strings without a NUL and the
    dates of the years 1 to 9999, and matches patterns as [ILIKE] does,
    folding the letters A-Z.  That is enough to run the
    routes on concrete requests; the theorems below hold for every runtime
    and every engine. *)

Module Runtime.
Import Js.

Fixpoint decimal (acc : Z) (s : JsString) : option Z :=
  match s with
  | [] => Some acc
  | c :: r =>
      if Regex.is_digit c then decimal (10 * acc + Z.of_N (c - 48)) r
      else None
  end.

Definition env : Zod.Env :=
  {| Zod.Number := fun v =>
       match v with
       | JNum n => n
       | JNull => Finite (0 # 1)
       | JBool b => Finite (if b then 1 # 1 else 0 # 1)
       | JStr s => match decimal 0 s with
                   | Some z => Finite (inject_Z z)
                   | None => NaN
                   end
       | _ => NaN
       end;
     Zod.to_Date := fun v =>
       match v with
       | JNum (Finite q) =>
           if Zod.is_int (Finite q) then Some (Zod.to_Z (Finite q)) else None
       | _ => None
       end;
     Zod.is_email := existsb (N.eqb 64) |}.

Definition to_lower (c : CodeUnit) : CodeUnit :=
  if (65 <=? c)%N && (c <=? 90)%N then (c + 32)%N else c.

(** [%] stands for any run of code units, [_] for any one, and a backslash
    makes the code unit after it stand for itself. *)
Fixpoint like (p s : JsString) : bool :=
  match p with
  | [] => match s with [] => true | _ :: _ => false end
  | c :: p' =>
      if (c =? 37)%N then
        (fix run (s : JsString) : bool :=
           like p' s || match s with [] => false | _ :: s' => run s' end) s
      else if (c =? 92)%N then
        match p', s with
        | e :: p'', d :: s' => (to_lower e =? to_lower d)%N && like p'' s'
        | _, _ => false
        end
      else
        match s with
        | [] => false
        | d :: s' =>
            ((c =? 95)%N || (to_lower c =? to_lower d)%N) && like p' s'
        end
  end.

Definition engine : Prisma.Engine :=
  {| Prisma.holds_text := forallb (fun c => negb (c =? 0)%N);
     Prisma.holds_date := fun d =>
       ((-62135596800000 <=? d) && (d <=? 253402300799999))%Z;
     Prisma.ilike := like;
     Prisma.draws_first := false |}.

End Runtime.

(** ** Sample data *)

Module Sample.
Import Js Prisma.
#[local] Open Scope string_scope.
#[local] Open Scope Z_scope.

Definition ana : Cliente.t :=
  {| Cliente.id := 1;
     Cliente.nome_completo := units "Ana Souza";
     Cliente.cpf_cnpj := units "12345678901";
     Cliente.telefone := units "11999990000";
     Cliente.data_nascimento := 631152000000;
     Cliente.email := units "ana@example.com" |}.

Definition petr4 : Acao.t :=
  {| Acao.id := 1;
     Acao.nome_ativo := units "Petrobras PN";
     Acao.codigo_ticker := units "PETR4";
     Acao.valor_atual := 3000 # 100;
     Acao.tipo_ativo := None;
     Acao.descricao := None |}.

Definition carteira : AlocacaoCliente.t :=
  {| AlocacaoCliente.id := 1;
     AlocacaoCliente.clienteId := 1;
     AlocacaoCliente.acaoId := 1;
     AlocacaoCliente.quantidade := 1000000 # 10000;
     AlocacaoCliente.valor_medio_aquisicao := 2800 # 100;
     AlocacaoCliente.data_ultima_compra := 1704844800000 |}.

(** One customer and one asset, no allocation. *)
Definition sem_alocacao : Store :=
  {| engine := Runtime.engine;
     clientes := [ana]; acoes := [petr4]; alocacoes := [];
     seq_cliente := 2; seq_acao := 2; seq_alocacao := 1 |}.

(** The customer holds the asset. *)
Definition com_alocacao : Store :=
  {| engine := Runtime.engine;
     clientes := [ana]; acoes := [petr4]; alocacoes := [carteira];
     seq_cliente := 2; seq_acao := 2; seq_alocacao := 2 |}.


Definition por_nome : BuscarClienteQueryInput.t :=
  {| BuscarClienteQueryInput.nome_completo := Some (units "souza");
     BuscarClienteQueryInput.cpf_cnpj := None |}.


(** The request bodies that create the customer, the asset and the
    allocation above. *)
Definition ana_json : JsValue :=
  JObj [("nome_completo", JStr (units "Ana Souza"));
        ("cpf_cnpj", JStr (units "12345678901"));
        ("telefone", JStr (units "11999990000"));
        ("data_nascimento", JNum (631152000000 # 1));
        ("email", JStr (units "ana@example.com"))].

Definition petr4_json : JsValue :=
  JObj [("nome_ativo", JStr (units "Petrobras PN"));
        ("codigo_ticker", JStr (units "PETR4"));
        ("valor_atual", JNum (30 # 1))].

(** A second customer with the tax identifier of the first. *)
Definition outra_ana : JsValue :=
  JObj [("nome_completo", JStr (units "Ana Lima"));
        ("cpf_cnpj", JStr (units "12345678901"));
        ("telefone", JStr (units "11888880000"));
        ("data_nascimento", JNum (662688000000 # 1));
        ("email", JStr (units "lima@example.com"))].

(** A second customer with the e-mail address of the first. *)
Definition outro_email : JsValue :=
  JObj [("nome_completo", JStr (units "Ana Lima"));
        ("cpf_cnpj", JStr (units "98765432100"));
        ("telefone", JStr (units "11888880000"));
        ("data_nascimento", JNum (662688000000 # 1));
        ("email", JStr (units "ana@example.com"))].

Definition compra_de (acaoId : Z) : CreateAlocacaoInput.t :=
  {| CreateAlocacaoInput.acaoId := acaoId;
     CreateAlocacaoInput.quantidade := 100 # 1;
     CreateAlocacaoInput.valor_medio_aquisicao := 28 # 1;
     CreateAlocacaoInput.data_ultima_compra := 1704844800000 |}.

Definition compra : CreateAlocacaoInput.t := compra_de 1.

(** The body of that request, and one with a quantity of fifteen digits
    before the point. *)
Definition compra_json : JsValue :=
  JObj [("acaoId", JNum (1 # 1)); ("quantidade", JNum (100 # 1));
        ("valor_medio_aquisicao", JNum (28 # 1));
        ("data_ultima_compra", JNum (1704844800000 # 1))].

Definition compra_grande : JsValue :=
  JObj [("acaoId", JNum (1 # 1)); ("quantidade", JNum (100000000000000 # 1));
        ("valor_medio_aquisicao", JNum (28 # 1));
        ("data_ultima_compra", JNum (1704844800000 # 1))].

(** An id that the id schemas accept and that no [Int] column holds. *)
Definition id_2147483648 : JsValue := JObj [("id", JStr (units "2147483648"))].

(** A request with a path parameter, and one the id schema refuses. *)
Definition id_1 : JsValue := JObj [("id", JStr (units "1"))].
Definition id_abc : JsValue := JObj [("id", JStr (units "abc"))].

(** Validated bodies for a second customer: with the tax identifier of the
    first, with its e-mail address, with neither. *)
Definition cliente_com (cpf email : string) : CreateClienteInput.t :=
  {| CreateClienteInput.nome_completo := units "Bia Lima";
     CreateClienteInput.cpf_cnpj := units cpf;
     CreateClienteInput.telefone := units "11888880000";
     CreateClienteInput.data_nascimento := 662688000000;
     CreateClienteInput.email := units email |}.

Definition mesmo_cpf := cliente_com "12345678901" "bia@example.com".
Definition mesmo_email := cliente_com "98765432100" "ana@example.com".
Definition bia_body := cliente_com "98765432100" "bia@example.com".

(** The same customer, born at noon of that day. *)
Definition nascida_em (d : Date) : CreateClienteInput.t :=
  {| CreateClienteInput.nome_completo := units "Bia Lima";
     CreateClienteInput.cpf_cnpj := units "98765432100";
     CreateClienteInput.telefone := units "11888880000";
     CreateClienteInput.data_nascimento := d;
     CreateClienteInput.email := units "bia@example.com" |}.

(** A name with the code unit 0, which a text column does not hold. *)
Definition com_nul : CreateClienteInput.t :=
  {| CreateClienteInput.nome_completo := [66; 105; 97; 0]%N;
     CreateClienteInput.cpf_cnpj := units "98765432100";
     CreateClienteInput.telefone := units "11888880000";
     CreateClienteInput.data_nascimento := 662688000000;
     CreateClienteInput.email := units "bia@example.com" |}.

(** The validated body of the first customer. *)
Definition ana_body : CreateClienteInput.t :=
  {| CreateClienteInput.nome_completo := units "Ana Souza";
     CreateClienteInput.cpf_cnpj := units "12345678901";
     CreateClienteInput.telefone := units "11999990000";
     CreateClienteInput.data_nascimento := 631152000000;
     CreateClienteInput.email := units "ana@example.com" |}.

Definition bia : Cliente.t :=
  {| Cliente.id := 2;
     Cliente.nome_completo := units "Bia Lima";
     Cliente.cpf_cnpj := units "98765432100";
     Cliente.telefone := units "11888880000";
     Cliente.data_nascimento := 662688000000;
     Cliente.email := units "bia@example.com" |}.

(** Validated bodies for a second asset. *)
Definition acao_com (nome ticker : string) : CreateAcaoInput.t :=
  {| CreateAcaoInput.nome_ativo := units nome;
     CreateAcaoInput.codigo_ticker := units ticker;
     CreateAcaoInput.valor_atual := 60 # 1;
     CreateAcaoInput.tipo_ativo := None;
     CreateAcaoInput.descricao := Some (units "Mineradora") |}.

(** The validated body of the first asset. *)
Definition petr4_body : CreateAcaoInput.t :=
  {| CreateAcaoInput.nome_ativo := units "Petrobras PN";
     CreateAcaoInput.codigo_ticker := units "PETR4";
     CreateAcaoInput.valor_atual := 30 # 1;
     CreateAcaoInput.tipo_ativo := None;
     CreateAcaoInput.descricao := None |}.

(** The same asset at another price. *)
Definition acao_por (valor : JsNumber) : CreateAcaoInput.t :=
  {| CreateAcaoInput.nome_ativo := units "Vale ON";
     CreateAcaoInput.codigo_ticker := units "VALE3";
     CreateAcaoInput.valor_atual := valor;
     CreateAcaoInput.tipo_ativo := None;
     CreateAcaoInput.descricao := Some (units "Mineradora") |}.

Definition vale3 : Acao.t :=
  {| Acao.id := 2;
     Acao.nome_ativo := units "Vale ON";
     Acao.codigo_ticker := units "VALE3";
     Acao.valor_atual := 6000 # 100;
     Acao.tipo_ativo := None;
     Acao.descricao := Some (units "Mineradora") |}.

(** Two customers and two assets; the first customer holds the first
    asset. *)
Definition duas_acoes : Store :=
  {| engine := Runtime.engine;
     clientes := [ana; bia]; acoes := [petr4; vale3]; alocacoes := [carteira];
     seq_cliente := 3; seq_acao := 3; seq_alocacao := 2 |}.

(** The store after the allocation is deleted: the sequence has moved. *)
Definition sem_alocacao_2 : Store :=
  {| engine := Runtime.engine;
     clientes := [ana]; acoes := [petr4]; alocacoes := [];
     seq_cliente := 2; seq_acao := 2; seq_alocacao := 2 |}.

(** Updates of a customer: a new phone number; the tax identifier of the
    second customer. *)
Definition novo_telefone : UpdateClienteInput.t :=
  {| UpdateClienteInput.nome_completo := None;
     UpdateClienteInput.cpf_cnpj := None;
     UpdateClienteInput.telefone := Some (units "11777770000");
     UpdateClienteInput.data_nascimento := None;
     UpdateClienteInput.email := None |}.

Definition cpf_da_bia : UpdateClienteInput.t :=
  {| UpdateClienteInput.nome_completo := None;
     UpdateClienteInput.cpf_cnpj := Some (units "98765432100");
     UpdateClienteInput.telefone := None;
     UpdateClienteInput.data_nascimento := None;
     UpdateClienteInput.email := None |}.

(** A body with keys that no customer schema names. *)
Definition so_outras_chaves : JsObject :=
  [("id", JNum (9 # 1)); ("nome", JStr (units "Ana"))].

(** An update body that clears the description of an asset. *)
Definition limpa_descricao : JsObject := [("descricao", JNull)].

Definition sem_descricao : UpdateAcaoInput.t :=
  {| UpdateAcaoInput.nome_ativo := None;
     UpdateAcaoInput.codigo_ticker := None;
     UpdateAcaoInput.valor_atual := None;
     UpdateAcaoInput.tipo_ativo := None;
     UpdateAcaoInput.descricao := Some None |}.

Definition vale3_sem_descricao : Acao.t :=
  {| Acao.id := 2;
     Acao.nome_ativo := units "Vale ON";
     Acao.codigo_ticker := units "VALE3";
     Acao.valor_atual := 6000 # 100;
     Acao.tipo_ativo := None;
     Acao.descricao := None |}.

End Sample.

(** ** Vocabulary of the statements *)

Module Spec.
Import Js.
#[local] Open Scope string_scope.
#[local] Open Scope list_scope.

(** A string of decimal digits. *)
Definition digits (s : JsString) : Prop := Forall (fun c => (48 <= c <= 57)%N) s.

(** A query or body value that is a string with at least one code unit. *)
Definition non_empty_string (v : JsValue) : bool :=
  match v with
  | JStr (_ :: _) => true
  | _ => false
  end.

(** A value that is not there, or is the empty string. *)
Definition absent_or_empty (v : JsValue) : bool :=
  match v with
  | JUndefined => true
  | JStr [] => true
  | _ => false
  end.

(** Exactly one of the two search fields holds a non-empty string, the
    other being absent or empty. *)
Definition one_search_term (q : JsObject) : bool :=
  let n := get "nome_completo" q in
  let c := get "cpf_cnpj" q in
  (non_empty_string n && absent_or_empty c)
  || (absent_or_empty n && non_empty_string c).



(** A table holds a record with the given id. *)
Definition has_cliente (cs : list Cliente.t) (i : Z) : Prop :=
  exists c, In c cs /\ Cliente.id c = i.
Definition has_acao (l : list Acao.t) (i : Z) : Prop :=
  exists a, In a l /\ Acao.id a = i.

(** What identifies an allocation and what it links. *)
Definition linkage (al : AlocacaoCliente.t) : Z * Z * Z :=
  (AlocacaoCliente.id al, AlocacaoCliente.clienteId al,
   AlocacaoCliente.acaoId al).

(** A handler that keeps referential integrity. *)
Definition preserves {A} (m : Async.t A) : Prop :=
  forall w, Prisma.integrity (Async.db w) = true ->
            Prisma.integrity (Async.db (snd (m w))) = true.

(** An object without the key [k]. *)
Definition without (k : string) (o : JsObject) : JsObject :=
  filter (fun kv => negb (String.eqb k (fst kv))) o.

(** The update bodies with no key. *)
Definition no_cliente_data : UpdateClienteInput.t :=
  {| UpdateClienteInput.nome_completo := None;
     UpdateClienteInput.cpf_cnpj := None;
     UpdateClienteInput.telefone := None;
     UpdateClienteInput.data_nascimento := None;
     UpdateClienteInput.email := None |}.

Definition no_acao_data : UpdateAcaoInput.t :=
  {| UpdateAcaoInput.nome_ativo := None;
     UpdateAcaoInput.codigo_ticker := None;
     UpdateAcaoInput.valor_atual := None;
     UpdateAcaoInput.tipo_ativo := None;
     UpdateAcaoInput.descricao := None |}.

Definition no_alocacao_data : UpdateAlocacaoInput.t :=
  {| UpdateAlocacaoInput.quantidade := None;
     UpdateAlocacaoInput.valor_medio_aquisicao := None;
     UpdateAlocacaoInput.data_ultima_compra := None |}.

(** A string of the capital letters A-Z and the digits. *)
Definition capitals_or_digits (s : JsString) : Prop :=
  Forall (fun c => (65 <= c <= 90)%N \/ (48 <= c <= 57)%N) s.

(** An optional string field: absent, or the string supplied. *)
Definition optional_string (v : JsValue) (o : option JsString) : Prop :=
  (v = JUndefined /\ o = None) \/ (exists t, v = JStr t /\ o = Some t).

(** The constraints of a tax identifier and of a phone number. *)
Definition cpf_cnpj_ok (s : JsString) : Prop :=
  (length s = 11%nat \/ length s = 14%nat) /\ digits s.
Definition telefone_ok (s : JsString) : Prop :=
  (10 <= length s <= 15)%nat /\ digits s.
Definition ticker_ok (s : JsString) : Prop :=
  (3 <= length s <= 10)%nat /\ capitals_or_digits s.

(** An optional field: absent, or a value that the field's schema
    accepts. *)
Definition optional_field {A} (v : JsValue) (o : option A)
    (P : JsValue -> A -> Prop) : Prop :=
  (v = JUndefined /\ o = None)
  \/ (v <> JUndefined /\ exists a, o = Some a /\ P v a).

(** A string with a constraint. *)
Definition string_with (P : JsString -> Prop) (v : JsValue) (s : JsString)
    : Prop :=
  v = JStr s /\ P s.

(** A number greater than 0, and one that is not negative: a rational, or
    [Infinity]. *)
Definition greater_than_0 (n : JsNumber) : Prop :=
  match n with
  | Finite q => (0 < q)%Q
  | PlusInfinity => True
  | _ => False
  end.

Definition not_negative (n : JsNumber) : Prop :=
  match n with
  | Finite q => (0 <= q)%Q
  | PlusInfinity => True
  | _ => False
  end.

(** What the runtime makes a number with a constraint. *)
Definition number_with (env : Zod.Env) (P : JsNumber -> Prop) (v : JsValue)
    (n : JsNumber) : Prop :=
  Zod.Number env v = n /\ P n.

(** What the runtime makes a date. *)
Definition date_of (env : Zod.Env) (v : JsValue) (d : Date) : Prop :=
  Zod.to_Date env v = Some d.

(** A description on update: absent, [null], or a string. *)
Definition nullable_string (v : JsValue) (d : option (option JsString)) : Prop :=
  (v = JUndefined /\ d = None)
  \/ (v = JNull /\ d = Some None)
  \/ (exists t, v = JStr t /\ d = Some (Some t)).

(** An amount of a [Decimal(p, s)] column that is not negative: so many
    units of [10^-s], fewer than [10^p]. *)
Definition amount (p s : nat) (q : Q) : Prop :=
  exists u, q = (u # Z.to_pos (10 ^ Z.of_nat s))
            /\ (0 <= u < 10 ^ Z.of_nat p)%Z.

(** A date without a time of day. *)
Definition midnight (d : Date) : Prop := (d mod 86400000 = 0)%Z.

(** Stored records, by what the schemas and the column types leave of
    them. *)
Definition cliente_ok (env : Zod.Env) (c : Cliente.t) : Prop :=
  (3 <= length (Cliente.nome_completo c))%nat
  /\ cpf_cnpj_ok (Cliente.cpf_cnpj c)
  /\ telefone_ok (Cliente.telefone c)
  /\ midnight (Cliente.data_nascimento c)
  /\ Zod.is_email env (Cliente.email c) = true.

Definition acao_ok (a : Acao.t) : Prop :=
  (3 <= length (Acao.nome_ativo a))%nat
  /\ ticker_ok (Acao.codigo_ticker a)
  /\ amount 10 2 (Acao.valor_atual a).

Definition alocacao_ok (al : AlocacaoCliente.t) : Prop :=
  amount 18 4 (AlocacaoCliente.quantidade al)
  /\ amount 12 2 (AlocacaoCliente.valor_medio_aquisicao al)
  /\ midnight (AlocacaoCliente.data_ultima_compra al).

Definition validated (env : Zod.Env) (s : Prisma.Store) : Prop :=
  Forall (cliente_ok env) (Prisma.clientes s)
  /\ Forall acao_ok (Prisma.acoes s)
  /\ Forall alocacao_ok (Prisma.alocacoes s).

(** Every id in a table is below the table's sequence. *)
Definition ids_below (s : Prisma.Store) : Prop :=
  Forall (fun c => (Cliente.id c < Prisma.seq_cliente s)%Z) (Prisma.clientes s)
  /\ Forall (fun a => (Acao.id a < Prisma.seq_acao s)%Z) (Prisma.acoes s)
  /\ Forall (fun al => (AlocacaoCliente.id al < Prisma.seq_alocacao s)%Z)
            (Prisma.alocacoes s).

(** The three tables hold the same rows; the sequences may differ. *)
Definition same_tables (s s' : Prisma.Store) : Prop :=
  Prisma.clientes s' = Prisma.clientes s
  /\ Prisma.acoes s' = Prisma.acoes s
  /\ Prisma.alocacoes s' = Prisma.alocacoes s.

(** A handler that keeps a property of the store. *)
Definition keeps {A} (P : Prisma.Store -> Prop) (m : Async.t A) : Prop :=
  forall w, P (Async.db w) -> P (Async.db (snd (m w))).

(** Serving requests one after the other. *)
Definition serve (env : Zod.Env) (rs : list Routes.Request) (w : Async.World)
    : Async.World :=
  fold_left (fun w r => snd (Routes.route env r w)) rs w.

Definition serve_clientes (env : Zod.Env) (rs : list ServerClientes.Request)
    (w : Async.World) : Async.World :=
  fold_left (fun w r => snd (ServerClientes.route env r w)) rs w.

(** The kinds of request. *)
Definition is_get (r : Routes.Request) : bool :=
  match r with
  | Routes.GET_clientes | Routes.GET_clientes_buscar _
  | Routes.GET_acoes | Routes.GET_acoes_id _
  | Routes.GET_clientes_id_alocacoes _ => true
  | _ => false
  end.

Definition is_post (r : Routes.Request) : bool :=
  match r with
  | Routes.POST_clientes _ | Routes.POST_acoes _
  | Routes.POST_clientes_id_alocacoes _ _ => true
  | _ => false
  end.

(** The requests whose handler has a 409 branch. *)
Definition may_conflict (r : Routes.Request) : bool :=
  match r with
  | Routes.POST_clientes _ | Routes.PUT_clientes_id _ _
  | Routes.POST_acoes _ | Routes.PUT_acoes_id _ _
  | Routes.DELETE_acoes_id _ | Routes.POST_clientes_id_alocacoes _ _ => true
  | _ => false
  end.

(** Validated bodies, by what their fields satisfy. *)
Definition create_cliente_ok (env : Zod.Env) (c : CreateClienteInput.t) : Prop :=
  (3 <= length (CreateClienteInput.nome_completo c))%nat
  /\ cpf_cnpj_ok (CreateClienteInput.cpf_cnpj c)
  /\ telefone_ok (CreateClienteInput.telefone c)
  /\ Zod.is_email env (CreateClienteInput.email c) = true.

Definition update_cliente_ok (env : Zod.Env) (d : UpdateClienteInput.t) : Prop :=
  (forall t, UpdateClienteInput.nome_completo d = Some t -> (3 <= length t)%nat)
  /\ (forall t, UpdateClienteInput.cpf_cnpj d = Some t -> cpf_cnpj_ok t)
  /\ (forall t, UpdateClienteInput.telefone d = Some t -> telefone_ok t)
  /\ (forall t, UpdateClienteInput.email d = Some t ->
                Zod.is_email env t = true).

Definition create_acao_ok (c : CreateAcaoInput.t) : Prop :=
  (3 <= length (CreateAcaoInput.nome_ativo c))%nat
  /\ ticker_ok (CreateAcaoInput.codigo_ticker c)
  /\ greater_than_0 (CreateAcaoInput.valor_atual c).

Definition update_acao_ok (d : UpdateAcaoInput.t) : Prop :=
  (forall t, UpdateAcaoInput.nome_ativo d = Some t -> (3 <= length t)%nat)
  /\ (forall t, UpdateAcaoInput.codigo_ticker d = Some t -> ticker_ok t)
  /\ (forall n, UpdateAcaoInput.valor_atual d = Some n -> greater_than_0 n).

Definition create_alocacao_ok (c : CreateAlocacaoInput.t) : Prop :=
  greater_than_0 (CreateAlocacaoInput.quantidade c)
  /\ not_negative (CreateAlocacaoInput.valor_medio_aquisicao c).

Definition update_alocacao_ok (d : UpdateAlocacaoInput.t) : Prop :=
  (forall n, UpdateAlocacaoInput.quantidade d = Some n -> greater_than_0 n)
  /\ (forall n, UpdateAlocacaoInput.valor_medio_aquisicao d = Some n ->
                not_negative n).

(** A unique field of a customer is taken: [f] names the field, and one of
    the rows [others] has the value that the written row has in it. *)
Definition unique_field_taken (f : string) (cpf_cnpj email : JsString)
    (others : list Cliente.t) : Prop :=
  (f = "cpf_cnpj" /\ exists o, In o others /\ Cliente.cpf_cnpj o = cpf_cnpj)
  \/ (f = "email" /\ exists o, In o others /\ Cliente.email o = email).

(** The unique field that a request to the customer-only revision finds
    taken: on create among all customers, on update among the others. *)
Definition conflict_of (env : Zod.Env) (r : ServerClientes.Request)
    (s : Prisma.Store) (f : string) : Prop :=
  match r with
  | ServerClientes.POST_clientes body =>
      exists data,
        Schemas.createClienteSchema env body = Zod.Valid data
        /\ unique_field_taken f (CreateClienteInput.cpf_cnpj data)
             (CreateClienteInput.email data) (Prisma.clientes s)
  | ServerClientes.PUT_clientes_id params body =>
      exists id data c,
        Schemas.clienteIdParamSchema_clientes env params = Zod.Valid id
        /\ Schemas.updateClienteSchema_clientes env body = Zod.Valid data
        /\ Prisma.find_cliente id s = Some c
        /\ unique_field_taken f
             (Cliente.cpf_cnpj (Prisma.cliente_patch data c))
             (Cliente.email (Prisma.cliente_patch data c))
             (filter (fun o => negb (Cliente.id o =? id)%Z) (Prisma.clientes s))
  | _ => False
  end.

(** The ids and values of a request fit the columns they are meant for,
    the engine takes its texts and dates, and the sequence of the table it
    would add to has an id left. *)
Definition fits_columns (env : Zod.Env) (s : Prisma.Store)
    (r : Routes.Request) : Prop :=
  let e := Prisma.engine s in
  match r with
  | Routes.POST_clientes body =>
      forall d, Schemas.createClienteSchema env body = Zod.Valid d ->
        Prisma.create_cliente_fits e d = true
        /\ Prisma.Int (Prisma.seq_cliente s) = true
  | Routes.GET_clientes | Routes.GET_acoes => True
  | Routes.GET_clientes_buscar query =>
      forall d, Schemas.buscarClienteQuerySchema query = Zod.Valid d ->
        Prisma.opt (Prisma.holds_text e) (BuscarClienteQueryInput.cpf_cnpj d)
        = true
        /\ Prisma.opt (Prisma.holds_text e)
                      (BuscarClienteQueryInput.nome_completo d) = true
  | Routes.PUT_clientes_id params body =>
      forall i d, Schemas.clienteIdParamSchema env params = Zod.Valid i ->
        Schemas.updateClienteSchema env body = Zod.Valid d ->
        Prisma.Int i = true /\ Prisma.update_cliente_fits e d = true
  | Routes.DELETE_clientes_id params
  | Routes.GET_clientes_id_alocacoes params =>
      forall i, Schemas.clienteIdParamSchema env params = Zod.Valid i ->
        Prisma.Int i = true
  | Routes.POST_acoes body =>
      forall d, Schemas.createAcaoSchema env body = Zod.Valid d ->
        Prisma.Decimal 10 2 (CreateAcaoInput.valor_atual d) <> None
        /\ Prisma.create_acao_fits e d = true
        /\ Prisma.Int (Prisma.seq_acao s) = true
  | Routes.GET_acoes_id params | Routes.DELETE_acoes_id params =>
      forall i, Schemas.acaoIdParamSchema env params = Zod.Valid i ->
        Prisma.Int i = true
  | Routes.PUT_acoes_id params body =>
      forall i d, Schemas.acaoIdParamSchema env params = Zod.Valid i ->
        Schemas.updateAcaoSchema env body = Zod.Valid d ->
        Prisma.Int i = true
        /\ Prisma.optionally (Prisma.Decimal 10 2)
                             (UpdateAcaoInput.valor_atual d) <> None
        /\ Prisma.update_acao_fits e d = true
  | Routes.POST_clientes_id_alocacoes params body =>
      forall i d, Schemas.clienteIdParamSchema env params = Zod.Valid i ->
        Schemas.createAlocacaoSchema env body = Zod.Valid d ->
        Prisma.Int i = true
        /\ Prisma.Int (CreateAlocacaoInput.acaoId d) = true
        /\ Prisma.Decimal 18 4 (CreateAlocacaoInput.quantidade d) <> None
        /\ Prisma.Decimal 12 2 (CreateAlocacaoInput.valor_medio_aquisicao d)
           <> None
        /\ Prisma.holds_date e (CreateAlocacaoInput.data_ultima_compra d)
           = true
        /\ Prisma.Int (Prisma.seq_alocacao s) = true
  | Routes.PUT_alocacoes_id params body =>
      forall i d, Schemas.alocacaoIdParamSchema env params = Zod.Valid i ->
        Schemas.updateAlocacaoSchema env body = Zod.Valid d ->
        Prisma.Int i = true
        /\ Prisma.optionally (Prisma.Decimal 18 4)
                             (UpdateAlocacaoInput.quantidade d) <> None
        /\ Prisma.optionally (Prisma.Decimal 12 2)
                             (UpdateAlocacaoInput.valor_medio_aquisicao d)
           <> None
        /\ Prisma.opt (Prisma.holds_date e)
                      (UpdateAlocacaoInput.data_ultima_compra d) = true
  | Routes.DELETE_alocacoes_id params =>
      forall i, Schemas.alocacaoIdParamSchema env params = Zod.Valid i ->
        Prisma.Int i = true
  end.

(** The status of what a handler returned, if it returned. *)
Definition status_of (o : Prisma.Outcome Reply.t) : option Z :=
  match o with
  | Prisma.Returned r => Some (Reply.status r)
  | Prisma.Thrown _ => None
  end.

(** A request of the customer-only revision, as a request of the full
    route set, which has no route for GET /clientes/:id. *)
Definition as_full (r : ServerClientes.Request) : option Routes.Request :=
  match r with
  | ServerClientes.POST_clientes body => Some (Routes.POST_clientes body)
  | ServerClientes.GET_clientes => Some Routes.GET_clientes
  | ServerClientes.GET_clientes_id _ => None
  | ServerClientes.PUT_clientes_id params body =>
      Some (Routes.PUT_clientes_id params body)
  | ServerClientes.DELETE_clientes_id params =>
      Some (Routes.DELETE_clientes_id params)
  end.

(** An update whose params and body are valid and whose validated body has
    no key. *)
Definition is_empty_update (env : Zod.Env) (r : ServerClientes.Request) : bool :=
  match r with
  | ServerClientes.PUT_clientes_id params body =>
      match Schemas.clienteIdParamSchema_clientes env params,
            Schemas.updateClienteSchema_clientes env body with
      | Zod.Valid _, Zod.Valid d => Schemas.cliente_no_keys d
      | _, _ => false
      end
  | _ => false
  end.

End Spec.

(** * Properties *)

Unset Implicit Arguments.

(** ** Regular expressions *)

Module RegexFacts.
Import Js Regex.

Lemma nullable_lang r : nullable r = true <-> lang r [].
Proof.
  split.
  - induction r; simpl; intros H; try discriminate.
    + constructor.
    + apply andb_true_iff in H as [H1 H2].
      change (@nil CodeUnit) with (@nil CodeUnit ++ []). constructor; auto.
    + apply orb_true_iff in H as [H | H]; [apply LAltL | apply LAltR]; auto.
    + constructor.
  - intros H. remember (@nil CodeUnit) as s eqn:Es.
    induction H; simpl; auto; try discriminate.
    + apply app_eq_nil in Es as [-> ->]. rewrite IHlang1, IHlang2; auto.
    + rewrite IHlang; auto.
    + rewrite IHlang, orb_true_r; auto.
Qed.

Lemma star_cons r c s :
  lang (Star r) (c :: s) ->
  exists s1 s2, s = s1 ++ s2 /\ lang r (c :: s1) /\ lang (Star r) s2.
Proof.
  intros H. remember (Star r) as r' eqn:Er. remember (c :: s) as w eqn:Ew.
  revert c s Ew. induction H; intros c0 s0 Ew; try discriminate.
  injection Er as ->.
  destruct s1 as [| a s1'].
  - simpl in Ew. apply IHlang2; auto.
  - simpl in Ew. injection Ew as -> <-. exists s1', s2. auto.
Qed.

Lemma deriv_lang r : forall c s, lang (deriv c r) s <-> lang r (c :: s).
Proof.
  induction r; intros c s; simpl.
  - split; intros H; inversion H.
  - split; intros H; inversion H.
  - destruct (p c) eqn:Ep; split; intros H.
    + inversion H; subst. constructor; auto.
    + inversion H; subst. constructor.
    + inversion H.
    + inversion H; subst. congruence.
  - assert (Hcat : lang (Cat (deriv c r1) r2) s <->
                   exists s1 s2, s = s1 ++ s2 /\ lang r1 (c :: s1) /\ lang r2 s2).
    { split.
      - intros H; inversion H; subst. exists s1, s2. rewrite <- IHr1. auto.
      - intros (s1 & s2 & -> & H1 & H2). constructor; auto. apply IHr1; auto. }
    assert (Hfull : lang (Cat r1 r2) (c :: s) <->
                    (exists s1 s2, s = s1 ++ s2 /\ lang r1 (c :: s1) /\ lang r2 s2)
                    \/ (lang r1 [] /\ lang r2 (c :: s))).
    { split.
      - intros H. inversion H as [| | ? ? s1 s2 H1 H2 E1 E2 | | | |]; subst.
        destruct s1 as [| a s1'].
        + simpl in E2; subst. right; auto.
        + simpl in E2. injection E2 as -> <-. left. exists s1', s2; auto.
      - intros [(s1 & s2 & -> & H1 & H2) | [H1 H2]].
        + change (c :: s1 ++ s2) with ((c :: s1) ++ s2). constructor; auto.
        + change (c :: s) with ([] ++ c :: s). constructor; auto. }
    rewrite Hfull. destruct (nullable r1) eqn:En.
    + split.
      * intros H; inversion H; subst.
        -- left. apply Hcat; auto.
        -- right. split; [apply nullable_lang; auto | apply IHr2; auto].
      * intros [H | [_ H]].
        -- apply LAltL, Hcat; auto.
        -- apply LAltR, IHr2; auto.
    + rewrite Hcat. split; auto.
      intros [H | [H _]]; auto.
      apply nullable_lang in H. congruence.
  - split; intros H; inversion H; subst.
    + apply LAltL, IHr1; auto.
    + apply LAltR, IHr2; auto.
    + apply LAltL, IHr1; auto.
    + apply LAltR, IHr2; auto.
  - split.
    + intros H; inversion H; subst.
      change (c :: s1 ++ s2) with ((c :: s1) ++ s2).
      constructor; auto. apply IHr; auto.
    + intros H. apply star_cons in H as (s1 & s2 & -> & H1 & H2).
      constructor; auto. apply IHr; auto.
Qed.

(** The matcher decides the language. *)
Lemma test_lang : forall s r, test r s = true <-> lang r s.
Proof.
  induction s as [| c s IH]; intros r; simpl.
  - apply nullable_lang.
  - rewrite IH. apply deriv_lang.
Qed.

Lemma lang_rep_class p : forall n s,
  lang (Rep n (Class p)) s <-> length s = n /\ forallb p s = true.
Proof.
  induction n as [| n IH]; intros s; simpl.
  - split.
    + intros H; inversion H; auto.
    + intros [H _]. destruct s; [constructor | discriminate].
  - split.
    + intros H; inversion H as [| | ? ? s1 s2 H1 H2 | | | |]; subst.
      inversion H1; subst. apply IH in H2 as [Hl Hf]. simpl.
      rewrite Hl, Hf, andb_true_r. auto.
    + intros [Hl Hf]. destruct s as [| c s]; [discriminate |].
      simpl in *. apply andb_true_iff in Hf as [Hc Hf].
      change (c :: s) with ([c] ++ s). constructor.
      * constructor; auto.
      * apply IH. split; [lia | auto].
Qed.

Lemma test_rep_class p n s :
  test (Rep n (Class p)) s = Nat.eqb (length s) n && forallb p s.
Proof.
  apply eq_true_iff_eq. rewrite test_lang, lang_rep_class, andb_true_iff, Nat.eqb_eq.
  reflexivity.
Qed.

Lemma test_alt r1 r2 s : test (Alt r1 r2) s = test r1 s || test r2 s.
Proof.
  apply eq_true_iff_eq. rewrite orb_true_iff, !test_lang.
  split.
  - intros H; inversion H; auto.
  - intros [H | H]; [apply LAltL | apply LAltR]; auto.
Qed.

End RegexFacts.

(** ** Schemas *)

Module SchemaFacts.
Import Js Regex Zod Schemas RegexFacts Spec.
#[local] Open Scope string_scope.
#[local] Open Scope list_scope.

Lemma run_checks_valid {A} (cks : list (Check A)) (a : A) :
  is_valid (run_checks cks a) = forallb (fun ck => holds ck a) cks.
Proof.
  unfold run_checks.
  induction cks as [| ck cks IH]; simpl; auto.
  destruct (holds ck a); simpl; auto.
Qed.

Lemma run_checks_value {A} (cks : list (Check A)) (a b : A) :
  run_checks cks a = Valid b -> a = b.
Proof.
  unfold run_checks.
  destruct (map _ _); intros H; [injection H; auto | discriminate].
Qed.

Lemma is_digit_range c : is_digit c = true <-> (48 <= c <= 57)%N.
Proof.
  unfold is_digit. rewrite andb_true_iff, !N.leb_le. reflexivity.
Qed.

Lemma forallb_digits s : forallb is_digit s = true <-> digits s.
Proof.
  unfold digits. rewrite forallb_forall, Forall_forall.
  split; intros H c Hc; apply is_digit_range; auto.
Qed.

(** The three constraints of the tax identifier together. *)
Lemma cpf_cnpj_checks (m1 m2 m3 : Issue) (s : JsString) :
  is_valid (run_checks [min 11 m1; max 18 m2; regex cpf_cnpj_regex m3] s) = true
  <-> (length s = 11%nat \/ length s = 14%nat) /\ digits s.
Proof.
  rewrite run_checks_valid. cbn [forallb holds min max regex].
  unfold cpf_cnpj_regex, digit. rewrite test_alt, !test_rep_class.
  rewrite <- forallb_digits.
  rewrite !andb_true_iff, orb_true_iff, !andb_true_iff, !Nat.leb_le, !Nat.eqb_eq.
  split.
  - intros (_ & _ & [[H1 H2] | [H1 H2]] & _); auto.
  - intros [[H | H] Hd]; rewrite H; repeat split; auto; lia.
Qed.

Lemma optional_valid {A} (p : JsValue -> Parsed A) (v : JsValue) :
  v <> JUndefined -> is_valid (optional p v) = is_valid (p v).
Proof.
  intros Hv. destruct v; try congruence; simpl; destruct (p _); auto.
Qed.

Lemma string_valid req cks v :
  is_valid (string_ req cks v) = true ->
  exists s, v = JStr s /\ is_valid (run_checks cks s) = true.
Proof.
  destruct v; simpl; try discriminate. intros H. eauto.
Qed.

(** An accepted customer has a tax identifier of 11 or 14 digits. *)
Lemma createClienteSchema_cpf_cnpj env o c :
  createClienteSchema env (JObj o) = Valid c ->
  get "cpf_cnpj" o = JStr (CreateClienteInput.cpf_cnpj c)
  /\ (length (CreateClienteInput.cpf_cnpj c) = 11%nat
      \/ length (CreateClienteInput.cpf_cnpj c) = 14%nat)
  /\ digits (CreateClienteInput.cpf_cnpj c).
Proof.
  unfold createClienteSchema, object_.
  destruct (string_ _ _ (get "nome_completo" o)); [| discriminate].
  destruct (create_cpf_cnpj (get "cpf_cnpj" o)) as [s |] eqn:Ec;
    [| destruct (string_ _ _ (get "telefone" o)); discriminate].
  destruct (string_ _ _ (get "telefone" o)); [| discriminate].
  destruct (coerce_date _ _ _); [| discriminate].
  destruct (string_ _ _ (get "email" o)); [| discriminate].
  intros H; injection H as <-. simpl.
  unfold create_cpf_cnpj in Ec.
  assert (Hv : is_valid (string_ "CPF/CNPJ é obrigatório."
                 [min 11 msg_cpf_len; max 18 msg_cpf_len;
                  regex cpf_cnpj_regex msg_cpf_formato]
                 (get "cpf_cnpj" o)) = true) by (rewrite Ec; reflexivity).
  apply string_valid in Hv as (s' & Es & Hv).
  rewrite Es in Ec. simpl in Ec. apply run_checks_value in Ec as <-.
  apply cpf_cnpj_checks in Hv. tauto.
Qed.

(** C6: the customer create and update schemas accept a string as tax
    identifier exactly when it consists of 11 digits or of 14 digits; the
    length bounds 11 and 18 add nothing to the pattern.  This holds for the
    field of [createClienteSchema] and for the field of [updateClienteSchema]
    in both revisions of the file. *)
Theorem cpf_cnpj_accepted (s : JsString) :
  (is_valid (create_cpf_cnpj (JStr s)) = true
   <-> (length s = 11%nat \/ length s = 14%nat) /\ digits s)
  /\ (is_valid (update_cpf_cnpj (JStr s)) = true
      <-> (length s = 11%nat \/ length s = 14%nat) /\ digits s)
  /\ (is_valid (update_cpf_cnpj_clientes (JStr s)) = true
      <-> (length s = 11%nat \/ length s = 14%nat) /\ digits s).
Proof.
  unfold create_cpf_cnpj, update_cpf_cnpj, update_cpf_cnpj_clientes.
  rewrite !optional_valid by discriminate.
  cbn [string_]. rewrite !cpf_cnpj_checks. tauto.
Qed.

Example cpf_11 : is_valid (create_cpf_cnpj (JStr (units "12345678901"))) = true.
Proof. reflexivity. Qed.

Example cnpj_14 :
  is_valid (create_cpf_cnpj (JStr (units "12345678000199"))) = true.
Proof. reflexivity. Qed.

Example cpf_12 : is_valid (create_cpf_cnpj (JStr (units "123456789012"))) = false.
Proof. reflexivity. Qed.

Example cpf_pontuado :
  create_cpf_cnpj (JStr (units "123.456.789-01")) = Invalid [msg_cpf_formato].
Proof. reflexivity. Qed.



(** The search schema on an object, by the two field values. *)
Lemma buscar_valid (q : JsObject) :
  is_valid (buscarClienteQuerySchema (JObj q)) = one_search_term q.
Proof.
  unfold buscarClienteQuerySchema, object_, one_search_term.
  destruct (get "nome_completo" q) as [| | | | [| n0 n] | |];
    destruct (get "cpf_cnpj" q) as [| | | | [| c0 c] | |]; reflexivity.
Qed.

Lemma buscar_issues (q : JsObject) (issues : list Issue) :
  buscarClienteQuerySchema (JObj q) = Invalid issues -> issues <> [].
Proof.
  unfold buscarClienteQuerySchema, object_.
  destruct (get "nome_completo" q) as [| | | | [| n0 n] | |];
    destruct (get "cpf_cnpj" q) as [| | | | [| c0 c] | |]; simpl;
    intros H; try discriminate; injection H as <-; discriminate.
Qed.

End SchemaFacts.

(** ** The persistence layer *)

Module PrismaFacts.
Import Js Prisma Spec.
#[local] Open Scope list_scope.
#[local] Open Scope Z_scope.

Lemma str_eqb_eq : forall s t, str_eqb s t = true <-> s = t.
Proof.
  induction s as [| a s IH]; destruct t as [| b t]; simpl;
    try (split; [discriminate | congruence]).
  - split; auto.
  - unfold code_eqb. rewrite andb_true_iff, N.eqb_eq, IH.
    split; [intros [-> ->]; auto | intros H; injection H; auto].
Qed.

Lemma find_cliente_some i s c :
  find_cliente i s = Some c -> In c (clientes s) /\ Cliente.id c = i.
Proof.
  unfold find_cliente. intros H. apply find_some in H as [H1 H2].
  apply Z.eqb_eq in H2. auto.
Qed.

Lemma find_acao_some i s a :
  find_acao i s = Some a -> In a (acoes s) /\ Acao.id a = i.
Proof.
  unfold find_acao. intros H. apply find_some in H as [H1 H2].
  apply Z.eqb_eq in H2. auto.
Qed.

Lemma find_alocacao_some i s al :
  find_alocacao i s = Some al ->
  In al (alocacoes s) /\ AlocacaoCliente.id al = i.
Proof.
  unfold find_alocacao. intros H. apply find_some in H as [H1 H2].
  apply Z.eqb_eq in H2. auto.
Qed.

Lemma find_cliente_none i s :
  find_cliente i s = None -> forall c, In c (clientes s) -> Cliente.id c <> i.
Proof.
  unfold find_cliente. intros H c Hc E.
  apply (find_none _ _ H) in Hc. apply Z.eqb_neq in Hc. auto.
Qed.

Lemma find_acao_none i s :
  find_acao i s = None -> forall a, In a (acoes s) -> Acao.id a <> i.
Proof.
  unfold find_acao. intros H a Ha E.
  apply (find_none _ _ H) in Ha. apply Z.eqb_neq in Ha. auto.
Qed.

Lemma integrity_spec s :
  integrity s = true <->
  forall al, In al (alocacoes s) ->
    has_cliente (clientes s) (AlocacaoCliente.clienteId al)
    /\ has_acao (acoes s) (AlocacaoCliente.acaoId al).
Proof.
  unfold integrity, has_cliente, has_acao. rewrite forallb_forall.
  split; intros H al Hal; specialize (H al Hal).
  - apply andb_true_iff in H as [H1 H2].
    apply existsb_exists in H1 as (c & Hc & E1).
    apply existsb_exists in H2 as (a & Ha & E2).
    apply Z.eqb_eq in E1, E2. split; eauto.
  - destruct H as [(c & Hc & E1) (a & Ha & E2)].
    apply andb_true_iff. split; apply existsb_exists.
    + exists c. rewrite Z.eqb_eq. auto.
    + exists a. rewrite Z.eqb_eq. auto.
Qed.

Lemma integrity_empty e : integrity (empty e) = true.
Proof. reflexivity. Qed.

(** Drawing from a sequence does not touch the tables. *)
Lemma integrity_draw s :
  integrity (draw_cliente s) = integrity s
  /\ integrity (draw_acao s) = integrity s
  /\ integrity (draw_alocacao s) = integrity s.
Proof. repeat split. Qed.

Lemma has_cliente_map cs i data k :
  has_cliente cs k ->
  has_cliente (map (fun o => if Cliente.id o =? i
                             then cliente_patch data o else o) cs) k.
Proof.
  intros (c & Hc & E).
  exists (if Cliente.id c =? i then cliente_patch data c else c). split.
  - apply in_map_iff. exists c. auto.
  - destruct (Cliente.id c =? i); auto.
Qed.

Lemma has_acao_map l i data valor k :
  has_acao l k ->
  has_acao (map (fun o => if Acao.id o =? i
                          then acao_patch data valor o else o) l) k.
Proof.
  intros (a & Ha & E).
  exists (if Acao.id a =? i then acao_patch data valor a else a). split.
  - apply in_map_iff. exists a. auto.
  - destruct (Acao.id a =? i); auto.
Qed.

(** Splitting on the test of the goal. *)
Ltac case_if E :=
  match goal with
  | |- context [if ?b then _ else _] => destruct b eqn:E
  end.

(** Splitting a persistence call on the tests it makes. *)
Ltac cases :=
  repeat match goal with
         | |- context [if ?b then _ else _] => destruct b eqn:?
         | |- context [match ?x with Some _ => _ | None => _ end] =>
             destruct x eqn:?
         end.

(** An insert that is refused for a value leaves the rows. *)
Ltac refusals H :=
  try (unfold refused_insert; cbn [snd]; destruct (draws_first _); exact H).

(** Every call leaves a store that keeps its references, whether it returns
    or throws. *)

Lemma cliente_create_integrity data s :
  integrity s = true -> integrity (snd (cliente_create data s)) = true.
Proof.
  unfold cliente_create. intros H. cases; cbn [snd]; auto; refusals H.
  revert H. rewrite !integrity_spec. cbn. intros H al Hal.
  destruct (H al Hal) as [(c & Hc & Ec) Ha]. split; auto.
  exists c. split; auto. apply in_or_app; auto.
Qed.

Lemma cliente_update_integrity i data s :
  integrity s = true -> integrity (snd (cliente_update i data s)) = true.
Proof.
  unfold cliente_update, refused. intros H. cases; cbn [snd]; auto.
  revert H. rewrite !integrity_spec. cbn. intros H al Hal.
  destruct (H al Hal) as [Hc Ha]. split; auto.
  apply has_cliente_map; auto.
Qed.

Lemma cliente_delete_integrity i s :
  integrity s = true -> integrity (snd (cliente_delete i s)) = true.
Proof.
  unfold cliente_delete, refused. intros H. cases; cbn [snd]; auto.
  revert H. rewrite !integrity_spec. cbn. intros H al Hal.
  apply filter_In in Hal as [Hal Hne].
  destruct (H al Hal) as [(c & Hc & Ec) Ha]. split; auto.
  exists c. split; auto. apply filter_In. split; auto.
  rewrite Ec. exact Hne.
Qed.

Lemma acao_create_integrity data s :
  integrity s = true -> integrity (snd (acao_create data s)) = true.
Proof.
  unfold acao_create. intros H. cases; cbn [snd]; auto; refusals H.
  revert H. rewrite !integrity_spec. cbn. intros H al Hal.
  destruct (H al Hal) as [Hc (a & Ha & Ea)]. split; auto.
  exists a. split; auto. apply in_or_app; auto.
Qed.

Lemma acao_update_integrity i data s :
  integrity s = true -> integrity (snd (acao_update i data s)) = true.
Proof.
  unfold acao_update, refused. intros H. cases; cbn [snd]; auto.
  revert H. rewrite !integrity_spec. cbn. intros H al Hal.
  destruct (H al Hal) as [Hc Ha]. split; auto.
  apply has_acao_map; auto.
Qed.

Lemma acao_delete_integrity i s :
  integrity s = true -> integrity (snd (acao_delete i s)) = true.
Proof.
  unfold acao_delete, refused. intros H.
  destruct (Int i); cbn [snd]; auto.
  destruct (find_acao i s) as [a0 |]; cbn [snd]; auto.
  destruct (existsb _ _) eqn:Ex; cbn [snd]; auto.
  revert H. rewrite !integrity_spec. cbn. intros H al Hal.
  destruct (H al Hal) as [Hc (a & Ha & Ea)]. split; auto.
  exists a. split; auto. apply filter_In. split; auto.
  rewrite Ea. apply negb_true_iff.
  destruct (AlocacaoCliente.acaoId al =? i) eqn:Ei; auto.
  assert (Hx : existsb (fun al => AlocacaoCliente.acaoId al =? i) (alocacoes s)
               = true) by (apply existsb_exists; eauto).
  congruence.
Qed.

Lemma alocacao_create_integrity k data s :
  integrity s = true -> integrity (snd (alocacao_create k data s)) = true.
Proof.
  unfold alocacao_create. intros H.
  destruct (Decimal 18 4 _); cbn [snd]; auto; refusals H.
  destruct (Decimal 12 2 _); cbn [snd]; auto; refusals H.
  destruct (DbDate _ _); cbn [snd]; auto; refusals H.
  destruct (_ && _); cbn [snd]; auto; refusals H.
  destruct (existsb _ _); cbn [snd]; auto.
  destruct (find_cliente k s) as [c |] eqn:Ec; cbn [snd]; auto.
  destruct (find_acao _ s) as [a |] eqn:Ea; cbn [snd]; auto.
  revert H. rewrite !integrity_spec. cbn. intros H al Hal.
  apply in_app_or in Hal as [Hal | [<- | []]]; auto.
  cbn. split.
  - exists c. apply find_cliente_some; auto.
  - exists a. apply find_acao_some; auto.
Qed.

Lemma alocacao_update_integrity i data s :
  integrity s = true -> integrity (snd (alocacao_update i data s)) = true.
Proof.
  unfold alocacao_update, refused. intros H. cases; cbn [snd]; auto.
  revert H. rewrite !integrity_spec. cbn. intros H al Hal.
  apply in_map_iff in Hal as (x & Ex & Hx).
  destruct (AlocacaoCliente.id x =? i); subst al; cbn; auto.
Qed.

Lemma alocacao_delete_integrity i s :
  integrity s = true -> integrity (snd (alocacao_delete i s)) = true.
Proof.
  unfold alocacao_delete, refused. intros H. cases; cbn [snd]; auto.
  revert H. rewrite !integrity_spec. cbn. intros H al Hal.
  apply filter_In in Hal as [Hal _]. auto.
Qed.

(** The calls that only read leave the store as it is. *)
Lemma reads_same s :
  (forall i, snd (cliente_findUnique_id i s) = s)
  /\ (forall cpf, snd (cliente_findUnique_cpf_cnpj cpf s) = s)
  /\ (forall nome, snd (cliente_findFirst_contains nome s) = s)
  /\ (forall i, snd (acao_findUnique_id i s) = s)
  /\ (forall k, snd (alocacao_findMany_cliente k s) = s).
Proof.
  unfold cliente_findUnique_id, cliente_findUnique_cpf_cnpj,
    cliente_findFirst_contains, acao_findUnique_id, alocacao_findMany_cliente,
    refused.
  repeat split; intros; cases; reflexivity.
Qed.

(** What the customer calls throw: a unique field that is taken is named
    by the error. *)

Lemma cliente_create_thrown data s code target :
  fst (cliente_create data s) = Thrown (KnownRequestError code target) ->
  code = "P2002"%string
  /\ ((target = Some ["cpf_cnpj"%string]
       /\ exists c, In c (clientes s)
                    /\ Cliente.cpf_cnpj c = CreateClienteInput.cpf_cnpj data)
      \/ (target = Some ["email"%string]
          /\ exists c, In c (clientes s)
                       /\ Cliente.email c = CreateClienteInput.email data)).
Proof.
  unfold cliente_create, refused_insert.
  case_if E0; [| discriminate].
  case_if E1.
  - cbn. unfold P2002. intros H. injection H as <- <-. split; auto.
    left. split; auto.
    apply existsb_exists in E1 as (c & Hc & E). apply str_eqb_eq in E. eauto.
  - case_if E2; [| cbn; discriminate].
    cbn. unfold P2002. intros H. injection H as <- <-. split; auto.
    right. split; auto.
    apply existsb_exists in E2 as (c & Hc & E). apply str_eqb_eq in E. eauto.
Qed.

Lemma cliente_update_thrown i data s code target :
  fst (cliente_update i data s) = Thrown (KnownRequestError code target) ->
  (code = "P2025"%string /\ target = None)
  \/ (code = "P2002"%string
      /\ exists c, find_cliente i s = Some c
         /\ ((target = Some ["cpf_cnpj"%string]
              /\ exists o, In o (filter (fun o => negb (Cliente.id o =? i))
                                        (clientes s))
                           /\ Cliente.cpf_cnpj o
                              = Cliente.cpf_cnpj (cliente_patch data c))
             \/ (target = Some ["email"%string]
                 /\ exists o, In o (filter (fun o => negb (Cliente.id o =? i))
                                           (clientes s))
                              /\ Cliente.email o
                                 = Cliente.email (cliente_patch data c)))).
Proof.
  unfold cliente_update, refused.
  case_if E0; [| discriminate].
  destruct (find_cliente i s) as [c |].
  2: { cbn. unfold P2025. intros H. injection H as <- <-. auto. }
  right. revert H. case_if E1.
  - cbn. unfold P2002. intros H. injection H as <- <-. split; auto.
    exists c. split; auto. left. split; auto.
    apply existsb_exists in E1 as (o & Ho & E).
    apply andb_true_iff in E as [En E]. apply str_eqb_eq in E.
    exists o. split; auto. apply filter_In. auto.
  - case_if E2; [| cbn; discriminate].
    cbn. unfold P2002. intros H. injection H as <- <-. split; auto.
    exists c. split; auto. right. split; auto.
    apply existsb_exists in E2 as (o & Ho & E).
    apply andb_true_iff in E as [En E]. apply str_eqb_eq in E.
    exists o. split; auto. apply filter_In. auto.
Qed.

Lemma cliente_delete_thrown i s e :
  fst (cliente_delete i s) = Thrown e -> e = P2025 \/ e = OtherError.
Proof.
  unfold cliente_delete, refused. cases; cbn; intros H;
    first [discriminate | injection H; auto].
Qed.

Lemma acao_delete_thrown i s e :
  fst (acao_delete i s) = Thrown e -> e = P2025 \/ e = P2003 \/ e = OtherError.
Proof.
  unfold acao_delete, refused. cases; cbn; intros H;
    first [discriminate | injection H; auto].
Qed.

End PrismaFacts.

(** ** Handlers *)

Module AsyncFacts.
Import Prisma Async Spec.

Lemma perform_run {A} c (op : Store -> Outcome A * Store) w o s' :
  op (db w) = (o, s') ->
  perform c op w = (o, {| db := s'; calls := calls w ++ [c] |}).
Proof. unfold perform. intros ->. reflexivity. Qed.

Lemma query_run {A} c (f : Store -> A) w :
  query c f w = (Returned (f (db w)), {| db := db w; calls := calls w ++ [c] |}).
Proof. reflexivity. Qed.

Lemma preserves_ret {A} (a : A) : preserves (ret a).
Proof. intros w H. exact H. Qed.

Lemma preserves_bind {A B} (m : Async.t A) (k : A -> Async.t B) :
  preserves m -> (forall a, preserves (k a)) -> preserves (bind m k).
Proof.
  intros Hm Hk w H. unfold bind. specialize (Hm w H).
  destruct (m w) as [[a | e] w']; simpl in *; auto. apply Hk; auto.
Qed.

Lemma preserves_try_catch {A} (m : Async.t A) (h : Error -> Async.t A) :
  preserves m -> (forall e, preserves (h e)) -> preserves (try_catch m h).
Proof.
  intros Hm Hh w H. unfold try_catch. specialize (Hm w H).
  destruct (m w) as [[a | e] w']; simpl in *; auto. apply Hh; auto.
Qed.

Lemma preserves_perform {A} c (op : Store -> Outcome A * Store) :
  (forall s, integrity s = true -> integrity (snd (op s)) = true) ->
  preserves (perform c op).
Proof. intros Hop w H. unfold perform. cbn. auto. Qed.

Lemma preserves_query {A} c (f : Store -> A) : preserves (query c f).
Proof. intros w H. exact H. Qed.

Lemma preserves_if {A} (b : bool) (m1 m2 : Async.t A) :
  preserves m1 -> preserves m2 -> preserves (if b then m1 else m2).
Proof. destruct b; auto. Qed.

Lemma preserves_validate {A} (schema : Js.JsValue -> Zod.Parsed A) v h :
  (forall a, preserves (h a)) -> preserves (Fastify.validate schema v h).
Proof.
  intros Hh. unfold Fastify.validate. destruct (schema v); auto.
  apply preserves_ret.
Qed.

End AsyncFacts.

(** ** Handlers *)

Module HandlerFacts.
Import Js Prisma Async Reply Fastify Spec PrismaFacts AsyncFacts.
#[local] Open Scope string_scope.
#[local] Open Scope list_scope.
#[local] Open Scope Z_scope.

Ltac run := unfold try_catch, bind, ret, query, perform; cbn.

Lemma no_pair_existsb k j l :
  (forall al, In al l ->
     ~ (AlocacaoCliente.clienteId al = k /\ AlocacaoCliente.acaoId al = j)) ->
  existsb (fun al => (AlocacaoCliente.clienteId al =? k)
                     && (AlocacaoCliente.acaoId al =? j)) l = false.
Proof.
  intros H. destruct (existsb _ l) eqn:E; auto.
  apply existsb_exists in E as (al & Hal & E).
  apply andb_true_iff in E as [E1 E2]. apply Z.eqb_eq in E1, E2.
  exfalso. apply (H al Hal). auto.
Qed.

Lemma pair_existsb k j l al :
  In al l -> AlocacaoCliente.clienteId al = k -> AlocacaoCliente.acaoId al = j ->
  existsb (fun al => (AlocacaoCliente.clienteId al =? k)
                     && (AlocacaoCliente.acaoId al =? j)) l = true.
Proof.
  intros Hal E1 E2. apply existsb_exists. exists al. split; auto.
  rewrite E1, E2, !Z.eqb_refl. reflexivity.
Qed.

(** C1, as the code has it: POST /clientes/:id/alocacoes with a validated
    body.  With a customer id that fits the 32-bit id column, the handler
    looks the customer up and answers 404 when there is none; then, with an
    asset id that fits, it looks the asset up and answers 404 when there is
    none; in both cases nothing is inserted and no insert is attempted.  When
    both exist and quantity, price and date fit their columns, the answer is
    409 if the customer already holds an allocation of the asset, with the
    tables as they were; otherwise the allocation is inserted, with the
    quantity rounded to four decimals, the price to two and the date without
    its time of day, and the answer is 201 with that record and the
    referenced asset.  An id that does not fit its column is answered with
    500 at the lookup that fails, and a value that does not fit with 500 at
    the insert; nothing is inserted, and in the second case the id sequence
    has moved if the engine draws first. *)
Theorem create_allocation (clienteId : Z) (body : CreateAlocacaoInput.t)
    (w : World) :
  let acaoId := CreateAlocacaoInput.acaoId body in
  let s := db w in
  let looked_up := (calls w ++ ["cliente.findUnique"]) ++ ["acao.findUnique"] in
  (Int clienteId = true -> find_cliente clienteId s = None ->
   Server.post_clientes_id_alocacoes clienteId body w
   = (Returned (send 404 (message "Cliente não encontrado.")),
      {| db := s; calls := calls w ++ ["cliente.findUnique"] |}))
  /\ (forall c, Int clienteId = true -> find_cliente clienteId s = Some c ->
      Int acaoId = true -> find_acao acaoId s = None ->
      Server.post_clientes_id_alocacoes clienteId body w
      = (Returned (send 404 (message "Ação não encontrada.")),
         {| db := s; calls := looked_up |}))
  /\ (forall c a quantidade valor,
      Int clienteId = true -> find_cliente clienteId s = Some c ->
      Int acaoId = true -> find_acao acaoId s = Some a ->
      Decimal 18 4 (CreateAlocacaoInput.quantidade body) = Some quantidade ->
      Decimal 12 2 (CreateAlocacaoInput.valor_medio_aquisicao body)
      = Some valor ->
      holds_date (engine s) (CreateAlocacaoInput.data_ultima_compra body)
      = true ->
      Int (seq_alocacao s) = true ->
      ((exists al, In al (alocacoes s)
                   /\ AlocacaoCliente.clienteId al = clienteId
                   /\ AlocacaoCliente.acaoId al = acaoId) ->
       Server.post_clientes_id_alocacoes clienteId body w
       = (Returned (send 409
            (message "Este cliente já possui uma alocação para esta ação.")),
          {| db := draw_alocacao s;
             calls := looked_up ++ ["alocacaoCliente.create"] |}))
      /\ ((forall al, In al (alocacoes s) ->
             ~ (AlocacaoCliente.clienteId al = clienteId
                /\ AlocacaoCliente.acaoId al = acaoId)) ->
          let nova :=
            {| AlocacaoCliente.id := seq_alocacao s;
               AlocacaoCliente.clienteId := clienteId;
               AlocacaoCliente.acaoId := acaoId;
               AlocacaoCliente.quantidade := quantidade;
               AlocacaoCliente.valor_medio_aquisicao := valor;
               AlocacaoCliente.data_ultima_compra :=
                 day (CreateAlocacaoInput.data_ultima_compra body) |} in
          Acao.id a = acaoId
          /\ In a (acoes s)
          /\ Server.post_clientes_id_alocacoes clienteId body w
             = (Returned (send 201 (Record_alocacao nova a)),
                {| db := set_alocacoes (alocacoes s ++ [nova])
                                       (draw_alocacao s);
                   calls := looked_up ++ ["alocacaoCliente.create"] |})))
  /\ (Int clienteId = false ->
      Server.post_clientes_id_alocacoes clienteId body w
      = (Returned (send 500 (message "Erro interno ao criar alocação.")),
         {| db := s; calls := calls w ++ ["cliente.findUnique"] |}))
  /\ (forall c, Int clienteId = true -> find_cliente clienteId s = Some c ->
      Int acaoId = false ->
      Server.post_clientes_id_alocacoes clienteId body w
      = (Returned (send 500 (message "Erro interno ao criar alocação.")),
         {| db := s; calls := looked_up |}))
  /\ (forall c a, Int clienteId = true -> find_cliente clienteId s = Some c ->
      Int acaoId = true -> find_acao acaoId s = Some a ->
      Decimal 18 4 (CreateAlocacaoInput.quantidade body) = None
      \/ Decimal 12 2 (CreateAlocacaoInput.valor_medio_aquisicao body) = None
      \/ holds_date (engine s) (CreateAlocacaoInput.data_ultima_compra body)
         = false ->
      Server.post_clientes_id_alocacoes clienteId body w
      = (Returned (send 500 (message "Erro interno ao criar alocação.")),
         {| db := if draws_first (engine s) then draw_alocacao s else s;
            calls := looked_up ++ ["alocacaoCliente.create"] |})).
Proof.
  intros acaoId s looked_up. subst acaoId s looked_up.
  unfold Server.post_clientes_id_alocacoes, prisma.cliente.findUnique_id,
    prisma.acao.findUnique_id, prisma.alocacaoCliente.create,
    cliente_findUnique_id, acao_findUnique_id.
  split; [| split; [| split; [| split; [| split]]]].
  - intros Hk Hc. run. rewrite Hk. cbn. rewrite Hc. reflexivity.
  - intros c Hk Hc Hj Ha. run. rewrite Hk. cbn. rewrite Hc. cbn.
    rewrite Hj. cbn. rewrite Ha. reflexivity.
  - intros c a quantidade valor Hk Hc Hj Ha Hq Hv Hd Hseq.
    assert (Hrun : forall o s',
      alocacao_create clienteId body (db w) = (o, s') ->
      match o with
      | Returned r =>
          (Returned (send 201 (Record_alocacao (fst r) (snd r))) : Outcome Reply.t)
      | Thrown e =>
          if known e "P2002"
          then Returned (send 409
                 (message "Este cliente já possui uma alocação para esta ação."))
          else Returned (send 500 (message "Erro interno ao criar alocação."))
      end
      = fst (Server.post_clientes_id_alocacoes clienteId body w)
      /\ snd (Server.post_clientes_id_alocacoes clienteId body w)
         = {| db := s';
              calls := ((calls w ++ ["cliente.findUnique"])
                        ++ ["acao.findUnique"])
                       ++ ["alocacaoCliente.create"] |}).
    { intros o s' E.
      unfold Server.post_clientes_id_alocacoes, prisma.cliente.findUnique_id,
        prisma.acao.findUnique_id, prisma.alocacaoCliente.create,
        cliente_findUnique_id, acao_findUnique_id.
      run. rewrite Hk. cbn. rewrite Hc. cbn. rewrite Hj. cbn. rewrite Ha. cbn.
      rewrite E. cbn. destruct o as [r | e]; cbn; auto.
      destruct (known e "P2002"); auto. }
    split.
    + intros (al & Hal & E1 & E2).
      specialize (Hrun (Thrown (P2002 ["clienteId"; "acaoId"]))
                       (draw_alocacao (db w))).
      destruct Hrun as [H1 H2].
      { unfold alocacao_create. rewrite Hq, Hv. unfold DbDate. rewrite Hd.
        rewrite Hk, Hj, Hseq. cbn [andb].
        rewrite (@pair_existsb _ _ _ _ Hal E1 E2). reflexivity. }
      cbn in H1.
      unfold Server.post_clientes_id_alocacoes, prisma.cliente.findUnique_id,
        prisma.acao.findUnique_id, prisma.alocacaoCliente.create,
        cliente_findUnique_id, acao_findUnique_id in H1, H2.
      apply injective_projections; cbn [fst snd]; auto.
    + intros Hno. cbv zeta.
      destruct (find_acao_some _ _ _ Ha) as [Hin Hid].
      repeat split; auto.
      match goal with
      | |- _ = (Returned (send 201 (Record_alocacao ?nova _)), _) =>
          specialize (Hrun (Returned (nova, a))
                           (set_alocacoes (alocacoes (db w) ++ [nova])
                                          (draw_alocacao (db w))))
      end.
      destruct Hrun as [H1 H2].
      { unfold alocacao_create. rewrite Hq, Hv. unfold DbDate. rewrite Hd.
        rewrite Hk, Hj, Hseq. cbn [andb].
        rewrite (@no_pair_existsb _ _ _ Hno), Hc, Ha. reflexivity. }
      cbn in H1.
      unfold Server.post_clientes_id_alocacoes, prisma.cliente.findUnique_id,
        prisma.acao.findUnique_id, prisma.alocacaoCliente.create,
        cliente_findUnique_id, acao_findUnique_id in H1, H2.
      apply injective_projections; cbn [fst snd]; auto.
  - intros Hk. run. rewrite Hk. reflexivity.
  - intros c Hk Hc Hj. run. rewrite Hk. cbn. rewrite Hc. cbn. rewrite Hj.
    reflexivity.
  - intros c a Hk Hc Hj Ha Hbad. run. rewrite Hk. cbn. rewrite Hc. cbn.
    rewrite Hj. cbn. rewrite Ha. cbn.
    assert (E : alocacao_create clienteId body (db w)
                = refused_insert draw_alocacao (db w)).
    { unfold alocacao_create, DbDate.
      destruct Hbad as [H | [H | H]]; rewrite H;
        repeat match goal with
               | |- context [match ?x with Some _ => _ | None => _ end] =>
                   destruct x
               end; reflexivity. }
    rewrite E. reflexivity.
Qed.

Lemma create_allocation_witness :
  Server.post_clientes_id_alocacoes 7 Sample.compra (start Sample.sem_alocacao)
  = (Returned (send 404 (message "Cliente não encontrado.")),
     {| db := Sample.sem_alocacao; calls := ["cliente.findUnique"] |})
  /\ Server.post_clientes_id_alocacoes 1 (Sample.compra_de 9)
       (start Sample.sem_alocacao)
     = (Returned (send 404 (message "Ação não encontrada.")),
        {| db := Sample.sem_alocacao;
           calls := ["cliente.findUnique"; "acao.findUnique"] |})
  /\ Server.post_clientes_id_alocacoes 1 Sample.compra
       (start Sample.com_alocacao)
     = (Returned (send 409
          (message "Este cliente já possui uma alocação para esta ação.")),
        {| db := draw_alocacao Sample.com_alocacao;
           calls := ["cliente.findUnique"; "acao.findUnique";
                     "alocacaoCliente.create"] |})
  /\ Server.post_clientes_id_alocacoes 1 Sample.compra
       (start Sample.sem_alocacao)
     = (Returned (send 201 (Record_alocacao Sample.carteira Sample.petr4)),
        {| db := Sample.com_alocacao;
           calls := ["cliente.findUnique"; "acao.findUnique";
                     "alocacaoCliente.create"] |})
  /\ Server.post_clientes_id_alocacoes 2147483648 Sample.compra
       (start Sample.sem_alocacao)
     = (Returned (send 500 (message "Erro interno ao criar alocação.")),
        {| db := Sample.sem_alocacao; calls := ["cliente.findUnique"] |}).
Proof.
  split; [| split; [| split; [| split]]].
  - apply (proj1 (create_allocation 7 Sample.compra (start Sample.sem_alocacao)));
      reflexivity.
  - apply (proj1 (proj2 (create_allocation 1 (Sample.compra_de 9)
                           (start Sample.sem_alocacao))) Sample.ana);
      reflexivity.
  - apply (proj1 (proj1 (proj2 (proj2 (create_allocation 1 Sample.compra
                                          (start Sample.com_alocacao))))
                    Sample.ana Sample.petr4 (1000000 # 10000) (2800 # 100)
                    eq_refl eq_refl eq_refl eq_refl eq_refl eq_refl eq_refl
                    eq_refl)).
    exists Sample.carteira. cbn. auto.
  - apply (proj2 (proj1 (proj2 (proj2 (create_allocation 1 Sample.compra
                                          (start Sample.sem_alocacao))))
                    Sample.ana Sample.petr4 (1000000 # 10000) (2800 # 100)
                    eq_refl eq_refl eq_refl eq_refl eq_refl eq_refl eq_refl
                    eq_refl)).
    intros al [].
  - apply (proj1 (proj2 (proj2 (proj2 (create_allocation 2147483648
                                          Sample.compra
                                          (start Sample.sem_alocacao))))));
      reflexivity.
Defined.

(** C1 fails as stated: the id 2147483648 passes the id schema and no
    customer has it, yet the request is answered with 500, not 404, since the
    lookup itself fails; and a request for a customer and an asset that exist,
    with a quantity of fifteen digits before the point, is answered with 500
    and nothing is inserted. *)
Lemma create_allocation_beyond_the_columns :
  Schemas.clienteIdParamSchema Runtime.env Sample.id_2147483648
  = Zod.Valid 2147483648
  /\ find_cliente 2147483648 Sample.sem_alocacao = None
  /\ Routes.route Runtime.env
       (Routes.POST_clientes_id_alocacoes Sample.id_2147483648
                                          Sample.compra_json)
       (start Sample.sem_alocacao)
     = (Returned (send 500 (message "Erro interno ao criar alocação.")),
        {| db := Sample.sem_alocacao; calls := ["cliente.findUnique"] |})
  /\ fst (Routes.route Runtime.env
            (Routes.POST_clientes_id_alocacoes Sample.id_1 Sample.compra_grande)
            (start Sample.sem_alocacao))
     = Returned (send 500 (message "Erro interno ao criar alocação."))
  /\ alocacoes
       (db (snd (Routes.route Runtime.env
                   (Routes.POST_clientes_id_alocacoes Sample.id_1
                                                      Sample.compra_grande)
                   (start Sample.sem_alocacao))))
     = [].
Proof. repeat split. Qed.

Lemma no_ref_existsb i l :
  (forall al, In al l -> AlocacaoCliente.acaoId al <> i) ->
  existsb (fun al => AlocacaoCliente.acaoId al =? i) l = false.
Proof.
  intros H. destruct (existsb _ l) eqn:E; auto.
  apply existsb_exists in E as (al & Hal & E). apply Z.eqb_eq in E.
  exfalso. apply (H al Hal E).
Qed.

Lemma ref_existsb i l al :
  In al l -> AlocacaoCliente.acaoId al = i ->
  existsb (fun al => AlocacaoCliente.acaoId al =? i) l = true.
Proof.
  intros Hal E. apply existsb_exists. exists al. split; auto.
  rewrite E. apply Z.eqb_refl.
Qed.

(** C7, as the code has it: DELETE /acoes/:id with a valid id.  With an id
    that fits the 32-bit id column: when there is no such asset the answer is
    404; when an allocation references the asset the answer is 409, with a
    message that says why the asset cannot be deleted, and the store, the
    asset and its allocations with it, is as before; otherwise the asset is
    removed, nothing else changes, and the answer is 200 with a confirmation
    message.  An id that does not fit is answered with 500. *)
Theorem delete_asset (id : Z) (w : World) :
  let s := db w in
  (Int id = true -> find_acao id s = None ->
   Server.delete_acoes_id id w
   = (Returned (send 404 (message "Ação não encontrada para deleção.")),
      {| db := s; calls := calls w ++ ["acao.delete"] |}))
  /\ (forall a al, Int id = true -> find_acao id s = Some a ->
      In al (alocacoes s) -> AlocacaoCliente.acaoId al = id ->
      Server.delete_acoes_id id w
      = (Returned (send 409
           (message "Não é possível deletar a ação pois ela está alocada a um ou mais clientes.")),
         {| db := s; calls := calls w ++ ["acao.delete"] |}))
  /\ (forall a, Int id = true -> find_acao id s = Some a ->
      (forall al, In al (alocacoes s) -> AlocacaoCliente.acaoId al <> id) ->
      exists s',
        Server.delete_acoes_id id w
        = (Returned (send 200 (message "Ação deletada com sucesso.")),
           {| db := s'; calls := calls w ++ ["acao.delete"] |})
        /\ find_acao id s' = None
        /\ (forall o, In o (acoes s') <-> In o (acoes s) /\ Acao.id o <> id)
        /\ clientes s' = clientes s
        /\ alocacoes s' = alocacoes s)
  /\ (Int id = false ->
      Server.delete_acoes_id id w
      = (Returned (send 500 (message "Erro interno ao deletar ação.")),
         {| db := s; calls := calls w ++ ["acao.delete"] |})).
Proof.
  intros s. subst s.
  unfold Server.delete_acoes_id, prisma.acao.delete, acao_delete.
  split; [| split; [| split]].
  - intros Hi Hn. run. rewrite Hi, Hn. reflexivity.
  - intros a al Hi Ha Hal E. run.
    rewrite Hi, Ha, (@ref_existsb _ _ _ Hal E). reflexivity.
  - intros a Hi Ha Hno. eexists. split; [| split; [| split; [| split]]].
    + run. rewrite Hi, Ha, (@no_ref_existsb _ _ Hno). reflexivity.
    + unfold find_acao. cbn.
      destruct (find _ (filter _ _)) as [o |] eqn:Ef; auto.
      apply find_some in Ef as [Hin Heq]. apply filter_In in Hin as [_ Hne].
      rewrite Heq in Hne. discriminate.
    + intros o. cbn. rewrite filter_In, negb_true_iff, Z.eqb_neq. reflexivity.
    + reflexivity.
    + reflexivity.
  - intros Hi. run. rewrite Hi. reflexivity.
Qed.

Lemma delete_asset_witness :
  Server.delete_acoes_id 5 (start Sample.com_alocacao)
  = (Returned (send 404 (message "Ação não encontrada para deleção.")),
     {| db := Sample.com_alocacao; calls := ["acao.delete"] |})
  /\ Server.delete_acoes_id 1 (start Sample.com_alocacao)
     = (Returned (send 409
          (message "Não é possível deletar a ação pois ela está alocada a um ou mais clientes.")),
        {| db := Sample.com_alocacao; calls := ["acao.delete"] |})
  /\ (exists s',
       Server.delete_acoes_id 1 (start Sample.sem_alocacao)
       = (Returned (send 200 (message "Ação deletada com sucesso.")),
          {| db := s'; calls := ["acao.delete"] |})
       /\ find_acao 1 s' = None
       /\ (forall o, In o (acoes s')
                     <-> In o (acoes Sample.sem_alocacao) /\ Acao.id o <> 1)
       /\ clientes s' = clientes Sample.sem_alocacao
       /\ alocacoes s' = alocacoes Sample.sem_alocacao)
  /\ Server.delete_acoes_id 2147483648 (start Sample.com_alocacao)
     = (Returned (send 500 (message "Erro interno ao deletar ação.")),
        {| db := Sample.com_alocacao; calls := ["acao.delete"] |}).
Proof.
  split; [| split; [| split]].
  - apply (proj1 (delete_asset 5 (start Sample.com_alocacao))); reflexivity.
  - apply (proj1 (proj2 (delete_asset 1 (start Sample.com_alocacao)))
             Sample.petr4 Sample.carteira); try reflexivity.
    cbn. auto.
  - apply (proj1 (proj2 (proj2 (delete_asset 1 (start Sample.sem_alocacao))))
             Sample.petr4); try reflexivity.
    intros al [].
  - apply (proj2 (proj2 (proj2 (delete_asset 2147483648
                                   (start Sample.com_alocacao)))));
      reflexivity.
Defined.

(** C7 fails as stated: the id 2147483648 passes the id schema and no
    asset has it, yet DELETE /acoes/2147483648 is answered with 500, not
    404. *)
Lemma delete_asset_beyond_the_column :
  Schemas.acaoIdParamSchema Runtime.env Sample.id_2147483648
  = Zod.Valid 2147483648
  /\ find_acao 2147483648 Sample.com_alocacao = None
  /\ Routes.route Runtime.env (Routes.DELETE_acoes_id Sample.id_2147483648)
       (start Sample.com_alocacao)
     = (Returned (send 500 (message "Erro interno ao deletar ação.")),
        {| db := Sample.com_alocacao; calls := ["acao.delete"] |}).
Proof. repeat split. Qed.

Lemma find_acao_exists s i :
  has_acao (acoes s) i -> exists a, find_acao i s = Some a.
Proof.
  intros (a & Ha & E). destruct (find_acao i s) as [a' |] eqn:Ef; eauto.
  exfalso. apply (find_acao_none i s Ef a Ha E).
Qed.

Lemma join_acao_rows s : forall l,
  (forall al, In al l -> has_acao (acoes s) (AlocacaoCliente.acaoId al)) ->
  exists rows,
    join_acao s l = Some rows
    /\ map fst rows = l
    /\ forall al r, In (al, r) rows ->
         exists a, find_acao (AlocacaoCliente.acaoId al) s = Some a
                   /\ r = resumo a.
Proof.
  induction l as [| al l IH]; intros H.
  - exists []. repeat split; auto. intros al r [].
  - destruct IH as (rows & Ej & Em & Hr).
    { intros x Hx. apply H. right; auto. }
    destruct (@find_acao_exists s (AlocacaoCliente.acaoId al)) as [a Ea].
    { apply H. left; auto. }
    exists ((al, resumo a) :: rows). cbn. rewrite Ea, Ej, Em.
    repeat split; auto.
    intros al' r [E | Hin]; [injection E as <- <-; eauto | eauto].
Qed.

Lemma get_without k k' o :
  String.eqb k' k = false -> get k (without k' o) = get k o.
Proof.
  intros Hk. induction o as [| [k0 v] o IH]; cbn; auto.
  destruct (String.eqb k' k0) eqn:E0; cbn.
  - apply String.eqb_eq in E0. subst k0.
    rewrite String.eqb_sym, Hk. exact IH.
  - destruct (String.eqb k k0); auto.
Qed.

Lemma Forall2_map_self {A} (P : A -> A -> Prop) (f : A -> A) (l : list A) :
  (forall x, In x l -> P x (f x)) -> Forall2 P l (map f l).
Proof.
  induction l as [| x l IH]; intros H; cbn; constructor.
  - apply H. left; auto.
  - apply IH. intros y Hy. apply H. right; auto.
Qed.

Lemma Forall2_self {A} (P : A -> A -> Prop) (l : list A) :
  (forall x, P x x) -> Forall2 P l l.
Proof. intros H. induction l; constructor; auto. Qed.

Lemma Forall2_linkage (P : AlocacaoCliente.t -> AlocacaoCliente.t -> Prop) l l' :
  (forall old new, P old new -> linkage new = linkage old) ->
  Forall2 P l l' -> map linkage l' = map linkage l.
Proof.
  intros HP H. induction H; cbn; auto. rewrite IHForall2. f_equal. auto.
Qed.

(** What the update call of an allocation does to the tables, whether it
    returns or throws. *)
Lemma alocacao_update_frame (id : Z) (data : UpdateAlocacaoInput.t) (s : Store) :
  let s' := snd (alocacao_update id data s) in
  Forall2 (fun old new => linkage new = linkage old
                          /\ (AlocacaoCliente.id old <> id -> new = old))
          (alocacoes s) (alocacoes s')
  /\ clientes s' = clientes s
  /\ acoes s' = acoes s.
Proof.
  unfold alocacao_update, refused. cases; cbn;
    (split; [| split; reflexivity]);
    try (apply Forall2_self; auto).
  apply Forall2_map_self. intros x Hx.
  destruct (AlocacaoCliente.id x =? id) eqn:Ex.
  - apply Z.eqb_eq in Ex. split; [reflexivity | congruence].
  - auto.
Qed.

(** What PUT /alocacoes/:id does to the store, on validated input. *)
Lemma put_alocacoes_frame (id : Z) (data : UpdateAlocacaoInput.t) (w : World) :
  let w' := snd (Server.put_alocacoes_id id data w) in
  Forall2 (fun old new => linkage new = linkage old
                          /\ (AlocacaoCliente.id old <> id -> new = old))
          (alocacoes (db w)) (alocacoes (db w'))
  /\ clientes (db w') = clientes (db w)
  /\ acoes (db w') = acoes (db w).
Proof.
  pose proof (alocacao_update_frame id data (db w)) as H. cbv zeta in H.
  assert (E : db (snd (Server.put_alocacoes_id id data w))
              = snd (alocacao_update id data (db w))).
  { unfold Server.put_alocacoes_id, prisma.alocacaoCliente.update. run.
    destruct (fst (alocacao_update id data (db w))) as [r | e]; cbn; auto.
    destruct (known e "P2025"); reflexivity. }
  cbv zeta. rewrite E. exact H.
Qed.

(** C9: PUT /alocacoes/:id changes nothing but the quantity, the average
    acquisition price and the date of last purchase of the allocation with
    that id.  The schema reads three keys only, so a body parses as it would
    without its [acaoId] and [clienteId] keys; the handler leaves the id, the
    customer reference and the asset reference of every allocation as they
    were, leaves every other allocation whole, and leaves customers and
    assets alone; and so does the route for any params and body. *)
Theorem update_allocation_keeps_linkage :
  (forall env o,
     Schemas.updateAlocacaoSchema env (JObj o)
     = Schemas.updateAlocacaoSchema env
         (JObj (without "acaoId" (without "clienteId" o))))
  /\ (forall id data w,
      let w' := snd (Server.put_alocacoes_id id data w) in
      Forall2 (fun old new =>
                 AlocacaoCliente.id new = AlocacaoCliente.id old
                 /\ AlocacaoCliente.clienteId new = AlocacaoCliente.clienteId old
                 /\ AlocacaoCliente.acaoId new = AlocacaoCliente.acaoId old
                 /\ (AlocacaoCliente.id old <> id -> new = old))
              (alocacoes (db w)) (alocacoes (db w'))
      /\ clientes (db w') = clientes (db w)
      /\ acoes (db w') = acoes (db w))
  /\ (forall env params body w,
      let w' := snd (Server.route env (Server.PUT_alocacoes_id params body) w) in
      map linkage (alocacoes (db w')) = map linkage (alocacoes (db w))
      /\ clientes (db w') = clientes (db w)
      /\ acoes (db w') = acoes (db w)).
Proof.
  split; [| split].
  - intros env o. unfold Schemas.updateAlocacaoSchema, Zod.object_.
    rewrite !get_without by reflexivity. reflexivity.
  - intros id data w. destruct (put_alocacoes_frame id data w) as (H & Hc & Ha).
    cbv zeta. repeat split; auto.
    eapply Forall2_impl; [| exact H].
    intros old new [Hl Hne]. unfold linkage in Hl. injection Hl as -> -> ->.
    auto.
  - intros env params body w. cbn. unfold validate.
    destruct (Schemas.alocacaoIdParamSchema env params) as [id |]; cbn; auto.
    destruct (Schemas.updateAlocacaoSchema env body) as [data |]; cbn; auto.
    destruct (put_alocacoes_frame id data w) as (H & Hc & Ha).
    repeat split; auto.
    apply Forall2_linkage with (2 := H). intros old new [Hl _]. exact Hl.
Qed.

Example update_allocation_ignores_references :
  Schemas.updateAlocacaoSchema Runtime.env
    (JObj [("acaoId", JNum (9 # 1)); ("clienteId", JNum (9 # 1));
           ("quantidade", JStr (units "150"))])
  = Zod.Valid {| UpdateAlocacaoInput.quantidade := Some (Finite (150 # 1));
                 UpdateAlocacaoInput.valor_medio_aquisicao := None;
                 UpdateAlocacaoInput.data_ultima_compra := None |}
  /\ map linkage
       (alocacoes
          (db (snd (Server.route Runtime.env
                      (Server.PUT_alocacoes_id
                         (JObj [("id", JStr (units "1"))])
                         (JObj [("acaoId", JNum (9 # 1));
                                ("clienteId", JNum (9 # 1));
                                ("quantidade", JStr (units "150"))]))
                      (start Sample.com_alocacao)))))
     = [(1, 1, 1)].
Proof. split; reflexivity. Qed.

(** The guard of the customer-only revision: an update with no key is
    answered with 400, and no persistence call is made. *)
Lemma guarded_empty_update (id : Z) (data : UpdateClienteInput.t) (w : World) :
  Schemas.cliente_no_keys data = true ->
  ServerClientes.put_clientes_id id data w
  = (Returned (send 400 (message "Nenhum dado fornecido para atualização.")),
     w).
Proof.
  intros H. unfold ServerClientes.put_clientes_id. run. rewrite H. reflexivity.
Qed.

Lemma empty_bodies_validate (env : Zod.Env) :
  Schemas.updateClienteSchema env (JObj []) = Zod.Valid no_cliente_data
  /\ Schemas.updateAcaoSchema env (JObj []) = Zod.Valid no_acao_data
  /\ Schemas.updateAlocacaoSchema env (JObj []) = Zod.Valid no_alocacao_data.
Proof. repeat split. Qed.

(** C2, on the full route set: an update whose validated body is the empty
    object is not answered with 400.  PUT /acoes/1, PUT /clientes/1 and
    PUT /alocacoes/1 with the body [{}] each make the persistence update
    call and answer 200 with the stored record; the customer-only revision
    of PUT /clientes/:id answers the same request with 400 and makes no
    call. *)
Theorem empty_update_reaches_persistence :
  Server.route Runtime.env
    (Server.PUT_acoes_id (JObj [("id", JStr (units "1"))]) (JObj []))
    (start Sample.com_alocacao)
  = (Returned (send 200 (Record_acao Sample.petr4)),
     {| db := Sample.com_alocacao; calls := ["acao.update"] |})
  /\ Server.route Runtime.env
       (Server.PUT_clientes_id (JObj [("id", JStr (units "1"))]) (JObj []))
       (start Sample.com_alocacao)
     = (Returned (send 200 (Record_cliente Sample.ana)),
        {| db := Sample.com_alocacao; calls := ["cliente.update"] |})
  /\ Server.route Runtime.env
       (Server.PUT_alocacoes_id (JObj [("id", JStr (units "1"))]) (JObj []))
       (start Sample.com_alocacao)
     = (Returned (send 200 (Record_alocacao Sample.carteira Sample.petr4)),
        {| db := Sample.com_alocacao; calls := ["alocacaoCliente.update"] |})
  /\ ServerClientes.route Runtime.env
       (ServerClientes.PUT_clientes_id (JObj [("id", JStr (units "1"))])
                                       (JObj []))
       (start Sample.com_alocacao)
     = (Returned (send 400 (message "Nenhum dado fornecido para atualização.")),
        start Sample.com_alocacao).
Proof. repeat split. Qed.

(** Unfolding the handlers and the calls of the client. *)
Ltac unfold_handlers :=
  unfold Server.post_clientes, Server.get_clientes, Server.get_clientes_buscar,
    Server.get_clientes_id, Server.put_clientes_id, Server.delete_clientes_id,
    Server.post_acoes, Server.get_acoes, Server.get_acoes_id,
    Server.put_acoes_id, Server.delete_acoes_id,
    Server.post_clientes_id_alocacoes, Server.get_clientes_id_alocacoes,
    Server.put_alocacoes_id, Server.delete_alocacoes_id,
    ServerClientes.post_clientes, ServerClientes.get_clientes,
    ServerClientes.get_clientes_id, ServerClientes.put_clientes_id,
    ServerClientes.delete_clientes_id,
    prisma.cliente.create, prisma.cliente.findMany,
    prisma.cliente.findUnique_id, prisma.cliente.findUnique_cpf_cnpj,
    prisma.cliente.findFirst_contains, prisma.cliente.update,
    prisma.cliente.delete, prisma.acao.create, prisma.acao.findMany,
    prisma.acao.findUnique_id, prisma.acao.update, prisma.acao.delete,
    prisma.alocacaoCliente.create, prisma.alocacaoCliente.findMany_clienteId,
    prisma.alocacaoCliente.update, prisma.alocacaoCliente.delete.

(** Splitting on what the schemas of a route make of the request. *)
Ltac validated_or_not :=
  unfold validate;
  repeat match goal with
         | |- context [match ?schema ?v with
                       | Zod.Valid _ => _
                       | Zod.Invalid _ => _
                       end] =>
             let E := fresh "Ev" in destruct (schema v) eqn:E
         end.

(** Splitting on what a persistence call did. *)
Ltac outcome :=
  match goal with
  | |- context [fst ?call] =>
      lazymatch type of call with
      | (Outcome _ * Store)%type =>
          let E := fresh "E" in
          destruct call as [[? | [? ? |]] ?] eqn:E; cbn [fst snd]
      end
  end.

Ltac branch :=
  match goal with
  | |- context [if ?b then _ else _] => destruct b
  | |- context [match ?x with Some _ => _ | None => _ end] => destruct x
  end.

(** Every path of a route. *)
Ltac paths := unfold_handlers; run; repeat (first [outcome | branch]; cbn).

(** The reply is one that is not a conflict, or one with a message. *)
Ltac settle :=
  cbn; intros Hrun H409;
  injection Hrun as <- <-; cbn in H409 |- *;
  first [discriminate H409 | eexists; reflexivity].

Lemma conflict_message_full env r w reply w' :
  Routes.route env r w = (Returned reply, w') ->
  status reply = 409 ->
  exists m, prop "message" (body reply) = Some m.
Proof.
  destruct r; cbn [Routes.route]; validated_or_not; paths; settle.
Qed.

Lemma conflict_post_clientes data w reply w' :
  ServerClientes.post_clientes data w = (Returned reply, w') ->
  status reply = 409 ->
  exists f,
    body reply
    = message_fields
        ("Erro de conflito: Já existe um cliente com este " ++ f ++ ".")
        (Some f)
    /\ unique_field_taken f (CreateClienteInput.cpf_cnpj data)
         (CreateClienteInput.email data) (clientes (db w)).
Proof.
  unfold ServerClientes.post_clientes, prisma.cliente.create. run.
  destruct (cliente_create data (db w)) as [[c | [code target |]] s'] eqn:E;
    cbn [fst snd]; cbn.
  - intros Hrun H409. injection Hrun as <- <-. discriminate H409.
  - assert (Ht : fst (cliente_create data (db w))
                 = Thrown (KnownRequestError code target))
      by (rewrite E; reflexivity).
    apply cliente_create_thrown in Ht as [-> [[-> Hc] | [-> Hc]]]; cbn;
      intros Hrun H409; injection Hrun as <- <-; cbn.
    + exists "cpf_cnpj". split; [reflexivity | left; auto].
    + exists "email". split; [reflexivity | right; auto].
  - intros Hrun H409. injection Hrun as <- <-. discriminate H409.
Qed.

Lemma conflict_put_clientes id data w reply w' :
  ServerClientes.put_clientes_id id data w = (Returned reply, w') ->
  status reply = 409 ->
  exists f c,
    find_cliente id (db w) = Some c
    /\ body reply
       = message_fields
           ("Erro de conflito: Já existe um cliente com este " ++ f ++ ".")
           (Some f)
    /\ unique_field_taken f (Cliente.cpf_cnpj (cliente_patch data c))
         (Cliente.email (cliente_patch data c))
         (filter (fun o => negb (Cliente.id o =? id)) (clientes (db w))).
Proof.
  unfold ServerClientes.put_clientes_id, prisma.cliente.update. run.
  destruct (Schemas.cliente_no_keys data); cbn.
  { intros Hrun H409. injection Hrun as <- <-. discriminate H409. }
  destruct (cliente_update id data (db w)) as [[c | [code target |]] s'] eqn:E;
    cbn [fst snd]; cbn.
  - intros Hrun H409. injection Hrun as <- <-. discriminate H409.
  - assert (Ht : fst (cliente_update id data (db w))
                 = Thrown (KnownRequestError code target))
      by (rewrite E; reflexivity).
    apply cliente_update_thrown in Ht
      as [[-> ->] | [-> (c & Hc & [[-> Ho] | [-> Ho]])]]; cbn;
      intros Hrun H409; injection Hrun as <- <-; cbn in H409 |- *.
    + discriminate H409.
    + exists "cpf_cnpj", c. repeat split; auto. left; auto.
    + exists "email", c. repeat split; auto. right; auto.
  - intros Hrun H409. injection Hrun as <- <-. discriminate H409.
Qed.

Lemma conflict_fields_clientes env r w reply w' :
  ServerClientes.route env r w = (Returned reply, w') ->
  status reply = 409 ->
  exists f,
    body reply
    = message_fields
        ("Erro de conflito: Já existe um cliente com este " ++ f ++ ".")
        (Some f)
    /\ conflict_of env r (db w) f.
Proof.
  destruct r; cbn [ServerClientes.route conflict_of]; validated_or_not;
    try (paths; cbn; intros Hrun H409; injection Hrun as <- <-;
         discriminate H409).
  - intros Hrun H409.
    destruct (conflict_post_clientes _ _ _ _ Hrun H409) as (f & Hb & Ht).
    exists f. split; eauto.
  - intros Hrun H409.
    destruct (conflict_put_clientes _ _ _ _ _ Hrun H409) as (f & c & Hc & Hb & Ht).
    exists f. split; auto. eexists _, _, c. eauto.
Qed.

Lemma conflict_delete_acoes id w reply w' :
  Server.delete_acoes_id id w = (Returned reply, w') ->
  status reply = 409 ->
  body reply
  = message "Não é possível deletar a ação pois ela está alocada a um ou mais clientes."
  /\ prop "fields" (body reply) = None.
Proof.
  paths; cbn; intros Hrun H409; injection Hrun as <- <-; cbn in H409 |- *;
    first [discriminate H409 | split; reflexivity].
Qed.

Lemma conflict_post_alocacoes clienteId data w reply w' :
  Server.post_clientes_id_alocacoes clienteId data w = (Returned reply, w') ->
  status reply = 409 ->
  body reply = message "Este cliente já possui uma alocação para esta ação."
  /\ prop "fields" (body reply) = None.
Proof.
  paths; cbn; intros Hrun H409; injection Hrun as <- <-; cbn in H409 |- *;
    first [discriminate H409 | split; reflexivity].
Qed.

(** C3, as the code has it: a 409 answer always carries a [message]
    string.  In the customer-only revision it also carries [fields], the name
    of the unique field that is taken: [cpf_cnpj] when another customer has
    the tax identifier, [email] when another has the e-mail address, and the
    message names the same field.  The 409 of DELETE /acoes/:id, for an asset
    that allocations reference, and the 409 of POST /clientes/:id/alocacoes,
    for a pair that exists, carry a fixed message and no [fields]. *)
Theorem conflict_bodies env w w' reply :
  status reply = 409 ->
  (forall r, Routes.route env r w = (Returned reply, w') ->
     exists m, prop "message" (body reply) = Some m)
  /\ (forall r, ServerClientes.route env r w = (Returned reply, w') ->
      exists f,
        body reply
        = message_fields
            ("Erro de conflito: Já existe um cliente com este " ++ f ++ ".")
            (Some f)
        /\ conflict_of env r (db w) f)
  /\ (forall id, Server.delete_acoes_id id w = (Returned reply, w') ->
      body reply
      = message "Não é possível deletar a ação pois ela está alocada a um ou mais clientes."
      /\ prop "fields" (body reply) = None)
  /\ (forall clienteId data,
      Server.post_clientes_id_alocacoes clienteId data w = (Returned reply, w') ->
      body reply = message "Este cliente já possui uma alocação para esta ação."
      /\ prop "fields" (body reply) = None).
Proof.
  intros H409. split; [| split; [| split]].
  - intros r Hrun. eapply conflict_message_full; eauto.
  - intros r Hrun. eapply conflict_fields_clientes; eauto.
  - intros id Hrun. eapply conflict_delete_acoes; eauto.
  - intros clienteId data Hrun. eapply conflict_post_alocacoes; eauto.
Qed.

Lemma conflict_bodies_witness :
  (exists m,
     prop "message"
       (body (send 409
          (message "Conflito: Já existe um cliente com este cpf_cnpj.")))
     = Some m)
  /\ (exists f,
        body (send 409
                (message_fields
                   "Erro de conflito: Já existe um cliente com este email."
                   (Some "email")))
        = message_fields
            ("Erro de conflito: Já existe um cliente com este " ++ f ++ ".")
            (Some f)
        /\ conflict_of Runtime.env
             (ServerClientes.POST_clientes Sample.outro_email)
             Sample.com_alocacao f)
  /\ prop "fields"
       (body (send 409
          (message "Não é possível deletar a ação pois ela está alocada a um ou mais clientes.")))
     = None
  /\ prop "fields"
       (body (send 409
          (message "Este cliente já possui uma alocação para esta ação.")))
     = None.
Proof.
  split; [| split; [| split]].
  - apply (proj1 (conflict_bodies Runtime.env (start Sample.com_alocacao)
                    {| db := draw_cliente Sample.com_alocacao;
                       calls := ["cliente.create"] |}
                    (send 409
                       (message "Conflito: Já existe um cliente com este cpf_cnpj."))
                    eq_refl)
             (Routes.POST_clientes Sample.outra_ana)).
    reflexivity.
  - apply (proj1 (proj2 (conflict_bodies Runtime.env (start Sample.com_alocacao)
                    {| db := draw_cliente Sample.com_alocacao;
                       calls := ["cliente.create"] |}
                    (send 409
                       (message_fields
                          "Erro de conflito: Já existe um cliente com este email."
                          (Some "email")))
                    eq_refl))
             (ServerClientes.POST_clientes Sample.outro_email)).
    reflexivity.
  - apply (proj1 (proj2 (proj2 (conflict_bodies Runtime.env
                    (start Sample.com_alocacao)
                    {| db := Sample.com_alocacao; calls := ["acao.delete"] |}
                    (send 409
                       (message "Não é possível deletar a ação pois ela está alocada a um ou mais clientes."))
                    eq_refl)))
             1).
    reflexivity.
  - apply (proj2 (proj2 (proj2 (conflict_bodies Runtime.env
                    (start Sample.com_alocacao)
                    {| db := draw_alocacao Sample.com_alocacao;
                       calls := ["cliente.findUnique"; "acao.findUnique";
                                 "alocacaoCliente.create"] |}
                    (send 409
                       (message "Este cliente já possui uma alocação para esta ação."))
                    eq_refl)))
             1 Sample.compra).
    reflexivity.
Defined.

(** The customer-only revision names the field that is taken: the e-mail
    address when it is the e-mail address. *)
Example conflict_names_email :
  ServerClientes.route Runtime.env
    (ServerClientes.POST_clientes Sample.outro_email)
    (start Sample.com_alocacao)
  = (Returned (send 409
       (message_fields "Erro de conflito: Já existe um cliente com este email."
                       (Some "email"))),
     {| db := draw_cliente Sample.com_alocacao; calls := ["cliente.create"] |}).
Proof. reflexivity. Qed.

(** C3 fails as stated: DELETE /acoes/1, for an asset that an allocation
    references, is answered with 409 and a body that has a message and no
    [fields]. *)
Lemma conflict_without_fields :
  Server.route Runtime.env
    (Server.DELETE_acoes_id (JObj [("id", JStr (units "1"))]))
    (start Sample.com_alocacao)
  = (Returned (send 409
       (message "Não é possível deletar a ação pois ela está alocada a um ou mais clientes.")),
     {| db := Sample.com_alocacao; calls := ["acao.delete"] |})
  /\ prop "fields"
       (message "Não é possível deletar a ação pois ela está alocada a um ou mais clientes.")
     = None.
Proof. split; reflexivity. Qed.

End HandlerFacts.

(** ** Customer search *)

Module SearchFacts.
Import Js Prisma Async Reply Fastify Spec PrismaFacts SchemaFacts.
#[local] Open Scope string_scope.
#[local] Open Scope list_scope.
#[local] Open Scope Z_scope.






(** C4, as the code has it: the search query passes validation exactly
    when one of [nome_completo] and [cpf_cnpj] is a non-empty string and the
    other is absent or the empty string.  A query that fails is answered
    with 400 and the issues found, and no persistence call is made; the issue
    names the fault when no field holds a search term, and when both do. *)
Theorem search_validation env (q : JsObject) (w : World) :
  Zod.is_valid (Schemas.buscarClienteQuerySchema (JObj q)) = one_search_term q
  /\ (forall issues,
        Schemas.buscarClienteQuerySchema (JObj q) = Zod.Invalid issues ->
        issues <> []
        /\ Server.route env (Server.GET_clientes_buscar (JObj q)) w
           = (Returned (send 400 (Validation issues)), w))
  /\ (absent_or_empty (get "nome_completo" q)
       && absent_or_empty (get "cpf_cnpj" q) = true ->
      Schemas.buscarClienteQuerySchema (JObj q)
      = Zod.Invalid [Schemas.msg_buscar_nenhum])
  /\ (non_empty_string (get "nome_completo" q)
       && non_empty_string (get "cpf_cnpj" q) = true ->
      Schemas.buscarClienteQuerySchema (JObj q)
      = Zod.Invalid [Schemas.msg_buscar_ambos]).
Proof.
  split; [apply buscar_valid | split; [| split]].
  - intros issues H. split; [eapply buscar_issues; eauto |].
    cbn [Server.route]. unfold validate. rewrite H. reflexivity.
  - unfold Schemas.buscarClienteQuerySchema, Zod.object_.
    destruct (get "nome_completo" q) as [| | | | [| n0 n] | |];
      destruct (get "cpf_cnpj" q) as [| | | | [| c0 c] | |];
      cbn; intros H; try discriminate; reflexivity.
  - unfold Schemas.buscarClienteQuerySchema, Zod.object_.
    destruct (get "nome_completo" q) as [| | | | [| n0 n] | |];
      destruct (get "cpf_cnpj" q) as [| | | | [| c0 c] | |];
      cbn; intros H; try discriminate; reflexivity.
Qed.

Lemma search_validation_witness :
  (Server.route Runtime.env (Server.GET_clientes_buscar (JObj []))
     (start Sample.sem_alocacao)
   = (Returned (send 400 (Validation [Schemas.msg_buscar_nenhum])),
      start Sample.sem_alocacao))
  /\ Schemas.buscarClienteQuerySchema (JObj [("cpf_cnpj", JStr [])])
     = Zod.Invalid [Schemas.msg_buscar_nenhum]
  /\ Schemas.buscarClienteQuerySchema
       (JObj [("nome_completo", JStr (units "ana"));
              ("cpf_cnpj", JStr (units "12345678901"))])
     = Zod.Invalid [Schemas.msg_buscar_ambos].
Proof.
  split; [| split].
  - apply (proj1 (proj2 (search_validation Runtime.env []
                           (start Sample.sem_alocacao)))
             [Schemas.msg_buscar_nenhum]).
    reflexivity.
  - apply (proj1 (proj2 (proj2 (search_validation Runtime.env
                                   [("cpf_cnpj", JStr [])]
                                   (start Sample.sem_alocacao))))).
    reflexivity.
  - apply (proj2 (proj2 (proj2 (search_validation Runtime.env
                                   [("nome_completo", JStr (units "ana"));
                                    ("cpf_cnpj", JStr (units "12345678901"))]
                                   (start Sample.sem_alocacao))))).
    reflexivity.
Defined.

(** C4 fails as stated: a query that supplies both fields, [nome_completo]
    as the empty string, passes validation; the handler runs, a persistence
    call is made and the answer is not 400.  A query that supplies exactly
    one field, as the empty string, fails validation. *)
Lemma search_both_supplied_accepted :
  let q := [("nome_completo", JStr []);
            ("cpf_cnpj", JStr (units "12345678901"))] in
  has "nome_completo" q = true
  /\ has "cpf_cnpj" q = true
  /\ Zod.is_valid (Schemas.buscarClienteQuerySchema (JObj q)) = true
  /\ Server.route Runtime.env (Server.GET_clientes_buscar (JObj q))
       (start Sample.sem_alocacao)
     = (Returned (send 200 (Record_cliente Sample.ana)),
        {| db := Sample.sem_alocacao; calls := ["cliente.findUnique"] |})
  /\ has "cpf_cnpj" [("nome_completo", JStr [])] = false
  /\ Zod.is_valid
       (Schemas.buscarClienteQuerySchema (JObj [("nome_completo", JStr [])]))
     = false.
Proof. repeat split. Qed.



Example search_by_name_ignores_case :
  Server.get_clientes_buscar Sample.por_nome (start Sample.sem_alocacao)
  = (Returned (send 200 (Record_cliente Sample.ana)),
     {| db := Sample.sem_alocacao; calls := ["cliente.findFirst"] |}).
Proof. reflexivity. Qed.


End SearchFacts.

(** ** Every route answers, and keeps the references of the store *)

Module RouteFacts.
Import Js Prisma Async Reply Fastify Spec PrismaFacts AsyncFacts HandlerFacts.
#[local] Open Scope string_scope.
#[local] Open Scope list_scope.
#[local] Open Scope Z_scope.

Lemma reads_integrity s :
  integrity s = true ->
  (forall i, integrity (snd (cliente_findUnique_id i s)) = true)
  /\ (forall cpf, integrity (snd (cliente_findUnique_cpf_cnpj cpf s)) = true)
  /\ (forall nome, integrity (snd (cliente_findFirst_contains nome s)) = true)
  /\ (forall i, integrity (snd (acao_findUnique_id i s)) = true)
  /\ (forall k, integrity (snd (alocacao_findMany_cliente k s)) = true).
Proof.
  intros H. destruct (reads_same s) as (H1 & H2 & H3 & H4 & H5).
  repeat split; intros; rewrite ?H1, ?H2, ?H3, ?H4, ?H5; exact H.
Qed.

Lemma cliente_findUnique_id_integrity i s :
  integrity s = true -> integrity (snd (cliente_findUnique_id i s)) = true.
Proof. intros H. apply (reads_integrity s H). Qed.

Lemma cliente_findUnique_cpf_cnpj_integrity cpf s :
  integrity s = true -> integrity (snd (cliente_findUnique_cpf_cnpj cpf s)) = true.
Proof. intros H. apply (reads_integrity s H). Qed.

Lemma cliente_findFirst_contains_integrity nome s :
  integrity s = true -> integrity (snd (cliente_findFirst_contains nome s)) = true.
Proof. intros H. apply (reads_integrity s H). Qed.

Lemma acao_findUnique_id_integrity i s :
  integrity s = true -> integrity (snd (acao_findUnique_id i s)) = true.
Proof. intros H. apply (reads_integrity s H). Qed.

Lemma alocacao_findMany_integrity k s :
  integrity s = true -> integrity (snd (alocacao_findMany_cliente k s)) = true.
Proof. intros H. apply (reads_integrity s H). Qed.

Create HintDb integrity.

#[local] Hint Resolve cliente_create_integrity cliente_update_integrity
  cliente_delete_integrity acao_create_integrity acao_update_integrity
  acao_delete_integrity alocacao_create_integrity alocacao_update_integrity
  alocacao_delete_integrity alocacao_findMany_integrity
  cliente_findUnique_id_integrity cliente_findUnique_cpf_cnpj_integrity
  cliente_findFirst_contains_integrity acao_findUnique_id_integrity : integrity.

Ltac keep :=
  repeat first
    [ apply preserves_ret
    | apply preserves_query
    | apply preserves_try_catch
    | apply preserves_bind
    | apply preserves_validate
    | apply preserves_if
    | apply preserves_perform; eauto with integrity
    | match goal with
      | |- forall _, _ => intro
      | |- preserves (match ?x with Some _ => _ | None => _ end) => destruct x
      end ].

(** Referential integrity is an invariant of the full route set. *)
Lemma route_integrity env r : preserves (Routes.route env r).
Proof.
  destruct r; cbn [Routes.route]; unfold_handlers; cbv zeta; keep.
Qed.

(** And of the customer-only revision. *)
Lemma route_integrity_clientes env r : preserves (ServerClientes.route env r).
Proof.
  destruct r; cbn [ServerClientes.route]; unfold_handlers; cbv zeta; keep.
Qed.

(** A route never lets an error escape: it answers. *)
Lemma route_returns env r w :
  exists reply w', Routes.route env r w = (Returned reply, w').
Proof.
  destruct r; cbn [Routes.route]; validated_or_not; paths;
    eexists; eexists; reflexivity.
Qed.

Lemma route_returns_clientes env r w :
  exists reply w', ServerClientes.route env r w = (Returned reply, w').
Proof.
  destruct r; cbn [ServerClientes.route]; validated_or_not; paths;
    eexists; eexists; reflexivity.
Qed.

(** Running requests one after the other. *)
Lemma serve_integrity env : forall rs w,
  integrity (db w) = true -> integrity (db (serve env rs w)) = true.
Proof.
  unfold serve.
  induction rs as [| r rs IH]; intros w H; cbn; auto.
  apply IH. apply route_integrity. exact H.
Qed.

End RouteFacts.

(** ** Listing the allocations of a customer *)

Module ListingFacts.
Import Js Prisma Async Reply Fastify Spec PrismaFacts AsyncFacts HandlerFacts
  RouteFacts.
#[local] Open Scope string_scope.
#[local] Open Scope list_scope.
#[local] Open Scope Z_scope.

(** On a store that keeps its references, the query joins every allocation
    of the customer with its asset. *)
Lemma findMany_rows clienteId s :
  integrity s = true ->
  exists rows,
    join_acao s (filter (fun al => AlocacaoCliente.clienteId al =? clienteId)
                        (alocacoes s)) = Some rows
    /\ map fst rows
       = filter (fun al => AlocacaoCliente.clienteId al =? clienteId)
                (alocacoes s)
    /\ (forall al r, In (al, r) rows ->
        exists a, find_acao (AlocacaoCliente.acaoId al) s = Some a
                  /\ r = resumo a).
Proof.
  intros Hi. pose proof (proj1 (integrity_spec s) Hi) as Hs.
  apply join_acao_rows.
  intros al Hal. apply filter_In in Hal as [Hal _]. apply Hs; auto.
Qed.

Lemma no_cliente_no_rows clienteId s :
  integrity s = true -> find_cliente clienteId s = None ->
  filter (fun al => AlocacaoCliente.clienteId al =? clienteId) (alocacoes s)
  = [].
Proof.
  intros Hi Hn. pose proof (proj1 (integrity_spec s) Hi) as Hs.
  destruct (filter _ _) as [| al l] eqn:Ef; auto. exfalso.
  assert (Hal : In al (filter
            (fun al => AlocacaoCliente.clienteId al =? clienteId)
            (alocacoes s))) by (rewrite Ef; left; auto).
  apply filter_In in Hal as [Hal Hk]. apply Z.eqb_eq in Hk.
  destruct (Hs al Hal) as [(c & Hc & Ec) _].
  apply (find_cliente_none _ _ Hn c Hc). congruence.
Qed.

(** C8: GET /clientes/:id/alocacoes with a valid id, after any requests
    that the server has answered since the store was empty.  Where the id is
    one that the [Int] column [cliente_id] holds, the answer is 200 with the
    allocations of that customer, in some order, each with the id, name,
    ticker and current price of its asset; the one persistence call is the
    allocation query: whether the customer exists is not looked up, and for a
    customer that does not exist the answer is 200 with the empty list.
    Where the id is larger than the column holds, the query fails and the
    answer is 500. *)
Theorem list_allocations env e (rs : list Routes.Request) (clienteId : Z) :
  let w := serve env rs (start (empty e)) in
  (Int clienteId = true ->
   exists rows,
     Server.get_clientes_id_alocacoes clienteId w
     = (Returned (send 200 (List_alocacoes rows)),
        {| db := db w; calls := calls w ++ ["alocacaoCliente.findMany"] |})
     /\ Permutation (map fst rows)
          (filter (fun al => AlocacaoCliente.clienteId al =? clienteId)
                  (alocacoes (db w)))
     /\ (forall al r, In (al, r) rows ->
         exists a, In a (acoes (db w))
                   /\ Acao.id a = AlocacaoCliente.acaoId al
                   /\ AcaoResumo.id r = Acao.id a
                   /\ AcaoResumo.nome_ativo r = Acao.nome_ativo a
                   /\ AcaoResumo.codigo_ticker r = Acao.codigo_ticker a
                   /\ AcaoResumo.valor_atual r = Acao.valor_atual a)
     /\ (find_cliente clienteId (db w) = None -> rows = []))
  /\ (Int clienteId = false ->
      Server.get_clientes_id_alocacoes clienteId w
      = (Returned (send 500
                     (message "Erro interno ao buscar alocações do cliente.")),
         {| db := db w; calls := calls w ++ ["alocacaoCliente.findMany"] |})).
Proof.
  intros w.
  assert (Hi : integrity (db w) = true)
    by (apply serve_integrity; reflexivity).
  split; intros Hk.
  - destruct (findMany_rows clienteId (db w) Hi) as (rows & Ej & Em & Hr).
    exists rows. split; [| split; [| split]].
    + unfold Server.get_clientes_id_alocacoes,
        prisma.alocacaoCliente.findMany_clienteId. run.
      unfold alocacao_findMany_cliente. rewrite Hk, Ej. reflexivity.
    + rewrite Em. apply Permutation_refl.
    + intros al r Hin. destruct (Hr al r Hin) as (a & Ea & ->).
      apply find_acao_some in Ea as [Ha Hid]. exists a. repeat split; auto.
    + intros Hn. rewrite (no_cliente_no_rows _ _ Hi Hn) in Em.
      destruct rows; [auto | discriminate].
  - unfold Server.get_clientes_id_alocacoes,
      prisma.alocacaoCliente.findMany_clienteId. run.
    unfold alocacao_findMany_cliente. rewrite Hk. reflexivity.
Qed.

(** Three requests that leave the sample store: a customer, an asset, and an
    allocation of the one to the other. *)
Example requests_build_the_sample :
  db (serve Runtime.env
        [Routes.POST_clientes Sample.ana_json;
         Routes.POST_acoes Sample.petr4_json;
         Routes.POST_clientes_id_alocacoes Sample.id_1 Sample.compra_json]
        (start (empty Runtime.engine)))
  = Sample.com_alocacao.
Proof. reflexivity. Qed.

Lemma list_allocations_witness :
  let w := serve Runtime.env
             [Routes.POST_clientes Sample.ana_json;
              Routes.POST_acoes Sample.petr4_json;
              Routes.POST_clientes_id_alocacoes Sample.id_1 Sample.compra_json]
             (start (empty Runtime.engine)) in
  Int 1 = true
  /\ exists rows,
       Server.get_clientes_id_alocacoes 1 w
       = (Returned (send 200 (List_alocacoes rows)),
          {| db := db w; calls := calls w ++ ["alocacaoCliente.findMany"] |})
       /\ Permutation (map fst rows)
            (filter (fun al => AlocacaoCliente.clienteId al =? 1)
                    (alocacoes (db w)))
       /\ (forall al r, In (al, r) rows ->
           exists a, In a (acoes (db w))
                     /\ Acao.id a = AlocacaoCliente.acaoId al
                     /\ AcaoResumo.id r = Acao.id a
                     /\ AcaoResumo.nome_ativo r = Acao.nome_ativo a
                     /\ AcaoResumo.codigo_ticker r = Acao.codigo_ticker a
                     /\ AcaoResumo.valor_atual r = Acao.valor_atual a)
       /\ (find_cliente 1 (db w) = None -> rows = []).
Proof.
  intros w. split; [reflexivity |].
  apply (proj1 (list_allocations Runtime.env Runtime.engine
                  [Routes.POST_clientes Sample.ana_json;
                   Routes.POST_acoes Sample.petr4_json;
                   Routes.POST_clientes_id_alocacoes Sample.id_1
                                                     Sample.compra_json]
                  1)).
  reflexivity.
Defined.

Example ana_allocations_listed :
  Routes.route Runtime.env (Routes.GET_clientes_id_alocacoes Sample.id_1)
    (start Sample.com_alocacao)
  = (Returned (send 200
       (List_alocacoes [(Sample.carteira, resumo Sample.petr4)])),
     {| db := Sample.com_alocacao; calls := ["alocacaoCliente.findMany"] |}).
Proof. reflexivity. Qed.

Example unknown_customer_lists_nothing :
  find_cliente 7 Sample.com_alocacao = None
  /\ Server.get_clientes_id_alocacoes 7 (start Sample.com_alocacao)
     = (Returned (send 200 (List_alocacoes [])),
        {| db := Sample.com_alocacao; calls := ["alocacaoCliente.findMany"] |}).
Proof. split; reflexivity. Qed.

(** C8 fails as stated: the id 2147483648 is one that the id schema accepts,
    and the request is answered with 500, not with 200 and a list. *)
Lemma list_allocations_beyond_the_column :
  Schemas.clienteIdParamSchema Runtime.env Sample.id_2147483648
  = Zod.Valid 2147483648
  /\ Routes.route Runtime.env
       (Routes.GET_clientes_id_alocacoes Sample.id_2147483648)
       (start Sample.com_alocacao)
     = (Returned (send 500
                    (message "Erro interno ao buscar alocações do cliente.")),
        {| db := Sample.com_alocacao; calls := ["alocacaoCliente.findMany"] |}).
Proof. split; reflexivity. Qed.

End ListingFacts.

(** ** What the schemas accept *)

Module FieldFacts.
Import Js Regex Zod Schemas RegexFacts Spec SchemaFacts.
#[local] Open Scope string_scope.
#[local] Open Scope list_scope.

Lemma lang_star_class p s :
  lang (Star (Class p)) s <-> forallb p s = true.
Proof.
  split.
  - intros H. remember (Star (Class p)) as r eqn:Er.
    induction H; try discriminate; auto.
    injection Er as ->. inversion H; subst. cbn.
    rewrite IHlang2 by reflexivity.
    match goal with Hp : p _ = true |- _ => rewrite Hp end. reflexivity.
  - induction s as [| c s IH]; cbn; intros H.
    + constructor.
    + apply andb_true_iff in H as [Hc Hs].
      change (c :: s) with ([c] ++ s). constructor; auto. constructor; auto.
Qed.

Lemma test_plus_class p s :
  test (Plus (Class p)) s = true <-> s <> [] /\ forallb p s = true.
Proof.
  rewrite test_lang. unfold Plus. split.
  - intros H. inversion H as [| | ? ? s1 s2 H1 H2 | | | |]; subst.
    inversion H1; subst. apply lang_star_class in H2. cbn.
    match goal with Hp : p _ = true |- _ => rewrite Hp end.
    rewrite H2. split; [discriminate | reflexivity].
  - intros [Hne Hf]. destruct s as [| c s]; [congruence |].
    cbn in Hf. apply andb_true_iff in Hf as [Hc Hs].
    change (c :: s) with ([c] ++ s). constructor.
    + constructor; auto.
    + apply lang_star_class; auto.
Qed.

Lemma forallb_capitals_or_digits s :
  forallb is_upper_or_digit s = true <-> capitals_or_digits s.
Proof.
  unfold capitals_or_digits. rewrite forallb_forall, Forall_forall.
  unfold is_upper_or_digit, is_digit.
  split; intros H c Hc; specialize (H c Hc).
  - apply orb_true_iff in H as [H | H]; apply andb_true_iff in H as [H1 H2];
      apply N.leb_le in H1, H2; auto.
  - apply orb_true_iff.
    destruct H as [[H1 H2] | [H1 H2]]; [left | right];
      apply andb_true_iff; split; apply N.leb_le; auto.
Qed.

Lemma telefone_checks m1 m2 m3 s :
  is_valid (run_checks [min 10 m1; max 15 m2; regex telefone_regex m3] s) = true
  <-> telefone_ok s.
Proof.
  rewrite run_checks_valid. cbn [forallb holds min max regex].
  unfold telefone_ok, telefone_regex, digit.
  rewrite !andb_true_iff, test_plus_class, forallb_digits, !Nat.leb_le.
  split.
  - tauto.
  - intros [[H1 H2] Hd]. repeat split; auto.
    destruct s; [cbn in H1; lia | discriminate].
Qed.

Lemma ticker_checks m1 m2 m3 s :
  is_valid (run_checks [min 3 m1; max 10 m2; regex ticker_regex m3] s) = true
  <-> ticker_ok s.
Proof.
  rewrite run_checks_valid. cbn [forallb holds min max regex].
  unfold ticker_ok, ticker_regex.
  rewrite !andb_true_iff, test_plus_class, forallb_capitals_or_digits,
    !Nat.leb_le.
  split.
  - tauto.
  - intros [[H1 H2] Hd]. repeat split; auto.
    destruct s; [cbn in H1; lia | discriminate].
Qed.

Lemma min_check n m s :
  is_valid (run_checks [min n m] s) = true <-> (n <= length s)%nat.
Proof.
  rewrite run_checks_valid. cbn. rewrite andb_true_r, Nat.leb_le. reflexivity.
Qed.

Lemma run_checks_accepts {A} (cks : list (Check A)) (a b : A) :
  run_checks cks a = Valid b <-> a = b /\ is_valid (run_checks cks a) = true.
Proof.
  split.
  - intros H. split; [eapply run_checks_value; eauto | rewrite H; reflexivity].
  - intros [<- H]. unfold run_checks in *.
    destruct (map _ _); [reflexivity | discriminate].
Qed.

Lemma string_accepts req cks v s :
  string_ req cks v = Valid s
  <-> v = JStr s /\ is_valid (run_checks cks s) = true.
Proof.
  destruct v; cbn; try (split; [discriminate | intros [H _]; discriminate]).
  rewrite run_checks_accepts. split.
  - intros [-> H]. auto.
  - intros [E H]. injection E as ->. auto.
Qed.

Lemma optional_string_accepts req cks v o :
  optional (string_ req cks) v = Valid o
  <-> (v = JUndefined /\ o = None)
      \/ (exists s, v = JStr s /\ o = Some s
                    /\ is_valid (run_checks cks s) = true).
Proof.
  destruct v as [| | | | t | |]; cbn;
    try (split; [discriminate
                | intros [[H _] | (t & H & _)]; discriminate]).
  - split.
    + intros H; injection H as <-. auto.
    + intros [[_ ->] | (t & H & _)]; [reflexivity | discriminate].
  - destruct (run_checks cks t) as [t' |] eqn:E.
    + apply run_checks_accepts in E as [<- Hv]. split.
      * intros H; injection H as <-. right. eauto.
      * intros [[H _] | (u & H & -> & _)]; [discriminate |].
        injection H as ->. reflexivity.
    + split; [discriminate |].
      intros [[H _] | (u & H & _ & Hv)]; [discriminate |].
      injection H as <-. rewrite E in Hv. discriminate.
Qed.

Lemma coerce_date_accepts env m v d :
  coerce_date env m v = Valid d <-> to_Date env v = Some d.
Proof.
  unfold coerce_date. destruct (to_Date env v); split; intros H;
    try discriminate; injection H as ->; reflexivity.
Qed.

Lemma coerce_number_accepts env m cks v n :
  coerce_number env m cks v = Valid n
  <-> Number env v = n /\ n <> NaN /\ is_valid (run_checks cks n) = true.
Proof.
  unfold coerce_number.
  destruct (Number env v) as [q | | |]; try rewrite run_checks_accepts;
    try (split; [intros [<- H]; repeat split; auto; discriminate
                | intros (<- & _ & H); auto]).
  split; [discriminate | intros (<- & H & _); congruence].
Qed.

(** Settles a schema of several fields once each field is split into its
    two results. *)
Ltac fields :=
  cbn; split; intros H;
  [ first [ discriminate H
          | injection H; intros; subst; cbn; repeat split; reflexivity ]
  | decompose record H; try discriminate; f_equal; congruence ].

Lemma createClienteSchema_fields env o c :
  createClienteSchema env (JObj o) = Valid c
  <-> string_ "Nome completo é obrigatório." [min 3 msg_nome_len]
        (get "nome_completo" o)
      = Valid (CreateClienteInput.nome_completo c)
      /\ create_cpf_cnpj (get "cpf_cnpj" o)
         = Valid (CreateClienteInput.cpf_cnpj c)
      /\ string_ "Telefone é obrigatório."
           [min 10 msg_tel_len; max 15 msg_tel_len;
            regex telefone_regex msg_tel_formato]
           (get "telefone" o)
         = Valid (CreateClienteInput.telefone c)
      /\ coerce_date env Invalid_date (get "data_nascimento" o)
         = Valid (CreateClienteInput.data_nascimento c)
      /\ string_ "Email é obrigatório." [email env "Formato de email inválido."]
           (get "email" o)
         = Valid (CreateClienteInput.email c).
Proof.
  unfold createClienteSchema, object_.
  destruct (string_ _ _ (get "nome_completo" o));
    destruct (create_cpf_cnpj (get "cpf_cnpj" o));
    destruct (string_ _ _ (get "telefone" o));
    destruct (coerce_date _ _ _);
    destruct (string_ _ _ (get "email" o));
    destruct c; fields.
Qed.

(** X1: [createClienteSchema] accepts exactly the objects whose
    [nome_completo] is a string of at least 3 code units, whose [cpf_cnpj] is
    a string of 11 or of 14 digits, whose [telefone] is a string of 10 to 15
    digits, whose [data_nascimento] the runtime makes a date and whose
    [email] is a string that passes the e-mail test; the result carries the
    strings as supplied and the date.  Other keys of the object play no
    part. *)
Theorem createClienteSchema_accepts env (o : JsObject) (c : CreateClienteInput.t) :
  createClienteSchema env (JObj o) = Valid c
  <-> (get "nome_completo" o = JStr (CreateClienteInput.nome_completo c)
       /\ (3 <= length (CreateClienteInput.nome_completo c))%nat)
      /\ (get "cpf_cnpj" o = JStr (CreateClienteInput.cpf_cnpj c)
          /\ cpf_cnpj_ok (CreateClienteInput.cpf_cnpj c))
      /\ (get "telefone" o = JStr (CreateClienteInput.telefone c)
          /\ telefone_ok (CreateClienteInput.telefone c))
      /\ to_Date env (get "data_nascimento" o)
         = Some (CreateClienteInput.data_nascimento c)
      /\ (get "email" o = JStr (CreateClienteInput.email c)
          /\ is_email env (CreateClienteInput.email c) = true).
Proof.
  rewrite createClienteSchema_fields. unfold create_cpf_cnpj, cpf_cnpj_ok.
  rewrite !string_accepts, coerce_date_accepts, min_check, cpf_cnpj_checks,
    telefone_checks, run_checks_valid.
  cbn [forallb holds email]. rewrite andb_true_r. reflexivity.
Qed.

Lemma is_int_spec q :
  is_int (Finite q) = true <-> (q == inject_Z (to_Z (Finite q)))%Q.
Proof.
  unfold is_int, to_Z, Qeq. destruct q as [a d]. cbn.
  rewrite Z.eqb_eq, Z.mul_1_r. split; intros H.
  - rewrite Z.mul_comm. apply Z.div_exact; [discriminate | exact H].
  - apply Z.div_exact; [discriminate |]. rewrite Z.mul_comm. exact H.
Qed.

Lemma whole_to_Z q i : (q == inject_Z i)%Q -> to_Z (Finite q) = i.
Proof.
  unfold to_Z, Qeq. destruct q as [a d]. cbn. rewrite Z.mul_1_r.
  intros ->. apply Z.div_mul. discriminate.
Qed.

Lemma positive_spec n : gt_0 n = true <-> greater_than_0 n.
Proof.
  destruct n as [q | | |]; cbn; try (split; [discriminate | tauto]);
    try tauto.
  unfold Qlt. cbn. rewrite Z.mul_1_r, Z.ltb_lt. reflexivity.
Qed.

Lemma nonnegative_spec n : ge_0 n = true <-> not_negative n.
Proof.
  destruct n as [q | | |]; cbn; try (split; [discriminate | tauto]);
    try tauto.
  unfold Qle. cbn. rewrite Z.mul_1_r, Z.leb_le. reflexivity.
Qed.

Lemma greater_than_0_number n : greater_than_0 n -> n <> NaN.
Proof. destruct n; cbn; intros H; [discriminate .. | contradiction]. Qed.

Lemma not_negative_number n : not_negative n -> n <> NaN.
Proof. destruct n; cbn; intros H; [discriminate .. | contradiction]. Qed.

Lemma positive_whole q i : (q == inject_Z i)%Q -> ((0 < q)%Q <-> (0 < i)%Z).
Proof.
  intros E. rewrite E. unfold Qlt. cbn. rewrite Z.mul_1_r. reflexivity.
Qed.

(** A positive whole number: the two constraints of an id. *)
Lemma int_positive_checks m1 m2 n :
  is_valid (run_checks [int m1; positive m2] n) = true
  <-> exists q, n = Finite q /\ (q == inject_Z (to_Z n))%Q /\ (0 < to_Z n)%Z.
Proof.
  rewrite run_checks_valid. cbn [forallb holds int positive].
  rewrite andb_true_r, andb_true_iff.
  destruct n as [q | | |];
    try (split; [intros [H _]; discriminate | intros (q & H & _); discriminate]).
  rewrite is_int_spec, positive_spec. cbn [greater_than_0]. split.
  - intros [H1 H2]. exists q. repeat split; auto.
    apply (positive_whole _ _ H1); exact H2.
  - intros (q' & E & H1 & H2). injection E as <-. split; auto.
    apply (positive_whole _ _ H1); exact H2.
Qed.

Lemma positive_check m n :
  is_valid (run_checks [positive m] n) = true <-> greater_than_0 n.
Proof.
  rewrite run_checks_valid. cbn. rewrite andb_true_r. apply positive_spec.
Qed.

Lemma nonnegative_check m n :
  is_valid (run_checks [nonnegative m] n) = true <-> not_negative n.
Proof.
  rewrite run_checks_valid. cbn. rewrite andb_true_r. apply nonnegative_spec.
Qed.

Lemma number_accepts req cks v n :
  number_ req cks v = Valid n
  <-> v = JNum n /\ n <> NaN /\ is_valid (run_checks cks n) = true.
Proof.
  destruct v as [| | | m | | |]; cbn;
    try (split; [discriminate | intros [H _]; discriminate]).
  destruct m as [q | | |]; try rewrite run_checks_accepts;
    try (split; [intros [<- H]; repeat split; auto; discriminate
                | intros (E & _ & H); injection E as <-; auto]).
  split; [discriminate | intros (E & H & _); injection E as <-; congruence].
Qed.

(** What a number schema with one constraint accepts. *)
Lemma coerce_positive env m1 m2 v n :
  coerce_number env m1 [positive m2] v = Valid n
  <-> Number env v = n /\ greater_than_0 n.
Proof.
  rewrite coerce_number_accepts, positive_check. split.
  - tauto.
  - intros [E H]. repeat split; auto. apply greater_than_0_number; auto.
Qed.

Lemma coerce_nonnegative env m1 m2 v n :
  coerce_number env m1 [nonnegative m2] v = Valid n
  <-> Number env v = n /\ not_negative n.
Proof.
  rewrite coerce_number_accepts, nonnegative_check. split.
  - tauto.
  - intros [E H]. repeat split; auto. apply not_negative_number; auto.
Qed.

(** X2: an id parameter is accepted exactly when the runtime makes the
    [id] of the params a positive whole number, and that number is the id
    the handler gets.  This holds for the three id schemas of the full route
    set and for the one of the customer-only revision. *)
Theorem idParamSchema_accepts env msg (o : JsObject) (i : Z) :
  idParamSchema env msg (JObj o) = Valid i
  <-> exists q, Number env (get "id" o) = Finite q
                /\ (q == inject_Z i)%Q /\ (0 < i)%Z.
Proof.
  unfold idParamSchema, object_.
  destruct (coerce_number _ _ _ (get "id" o)) as [n | l] eqn:E.
  - apply coerce_number_accepts in E as (En & _ & Hv).
    apply int_positive_checks in Hv as (q & -> & Hq & Hp). split.
    + intros H; injection H as <-. eauto.
    + intros (q' & En' & Hq' & _). f_equal. rewrite En in En'.
      injection En' as <-. apply whole_to_Z. exact Hq'.
  - split; [discriminate |]. intros (q & En & Hq & Hp). exfalso.
    assert (Hv : coerce_number env Expected_number
                   [int Expected_integer; positive msg] (get "id" o)
                 = Valid (Finite q)).
    { apply coerce_number_accepts. repeat split; auto; [discriminate |].
      apply int_positive_checks. exists q. rewrite (whole_to_Z _ _ Hq). auto. }
    congruence.
Qed.

Lemma createAlocacaoSchema_fields env o c :
  createAlocacaoSchema env (JObj o) = Valid c
  <-> (exists q, number_ "ID da ação é obrigatório."
                   [int Expected_integer; positive Number_gt_0]
                   (get "acaoId" o) = Valid q
                 /\ CreateAlocacaoInput.acaoId c = to_Z q)
      /\ coerce_number env Expected_number [positive msg_quantidade]
           (get "quantidade" o)
         = Valid (CreateAlocacaoInput.quantidade c)
      /\ coerce_number env Expected_number [nonnegative msg_valor_medio]
           (get "valor_medio_aquisicao" o)
         = Valid (CreateAlocacaoInput.valor_medio_aquisicao c)
      /\ coerce_date env Invalid_date (get "data_ultima_compra" o)
         = Valid (CreateAlocacaoInput.data_ultima_compra c).
Proof.
  unfold createAlocacaoSchema, object_.
  destruct (number_ _ _ (get "acaoId" o));
    destruct (coerce_number _ _ _ (get "quantidade" o));
    destruct (coerce_number _ _ _ (get "valor_medio_aquisicao" o));
    destruct (coerce_date _ _ _);
    destruct c; cbn; split; intros H;
    first [ discriminate H
          | injection H; intros; subst; repeat split; eauto
          | destruct H as [(q & Hq & Ea) H]; decompose record H;
            try discriminate; f_equal; congruence ].
Qed.

(** X3: [createAlocacaoSchema] accepts exactly the objects whose [acaoId]
    is a JSON number, whole and positive (a string is not made a number
    here, and an infinity is not whole), whose [quantidade] the runtime makes
    a number greater than 0, whose [valor_medio_aquisicao] it makes a number
    that is not negative, and whose [data_ultima_compra] it makes a date.
    The two amounts may be [Infinity]: the schema has no upper bound. *)
Theorem createAlocacaoSchema_accepts env (o : JsObject)
    (c : CreateAlocacaoInput.t) :
  createAlocacaoSchema env (JObj o) = Valid c
  <-> (exists q, get "acaoId" o = JNum (Finite q)
                 /\ (q == inject_Z (CreateAlocacaoInput.acaoId c))%Q
                 /\ (0 < CreateAlocacaoInput.acaoId c)%Z)
      /\ (Number env (get "quantidade" o) = CreateAlocacaoInput.quantidade c
          /\ greater_than_0 (CreateAlocacaoInput.quantidade c))
      /\ (Number env (get "valor_medio_aquisicao" o)
          = CreateAlocacaoInput.valor_medio_aquisicao c
          /\ not_negative (CreateAlocacaoInput.valor_medio_aquisicao c))
      /\ to_Date env (get "data_ultima_compra" o)
         = Some (CreateAlocacaoInput.data_ultima_compra c).
Proof.
  rewrite createAlocacaoSchema_fields.
  rewrite coerce_positive, coerce_nonnegative, coerce_date_accepts.
  split; intros (Ha & Hrest); (split; [| exact Hrest]).
  - destruct Ha as (n & Hn & Ea). apply number_accepts in Hn as (Eq & _ & Hv).
    apply int_positive_checks in Hv as (q & -> & Hw & Hp).
    exists q. rewrite Ea. auto.
  - destruct Ha as (q & Eq & Hw & Hp). exists (Finite q).
    rewrite number_accepts, int_positive_checks, (whole_to_Z _ _ Hw).
    repeat split; auto; [discriminate |]. exists q. auto.
Qed.

Lemma createAcaoSchema_fields env o c :
  createAcaoSchema env (JObj o) = Valid c
  <-> string_ "Nome do ativo é obrigatório."
        [min 3 "String must contain at least 3 character(s)"]
        (get "nome_ativo" o)
      = Valid (CreateAcaoInput.nome_ativo c)
      /\ string_ "Código ticker é obrigatório."
           [min 3 "String must contain at least 3 character(s)";
            max 10 "String must contain at most 10 character(s)";
            regex ticker_regex
              "Ticker deve conter apenas letras maiúsculas e números."]
           (get "codigo_ticker" o)
         = Valid (CreateAcaoInput.codigo_ticker c)
      /\ coerce_number env Expected_number [positive Number_gt_0]
           (get "valor_atual" o)
         = Valid (CreateAcaoInput.valor_atual c)
      /\ optional (string_ Required []) (get "tipo_ativo" o)
         = Valid (CreateAcaoInput.tipo_ativo c)
      /\ optional (string_ Required []) (get "descricao" o)
         = Valid (CreateAcaoInput.descricao c).
Proof.
  unfold createAcaoSchema, object_.
  destruct (string_ _ _ (get "nome_ativo" o));
    destruct (string_ _ _ (get "codigo_ticker" o));
    destruct (coerce_number _ _ _ (get "valor_atual" o));
    destruct (optional _ (get "tipo_ativo" o));
    destruct (optional _ (get "descricao" o));
    destruct c; fields.
Qed.

Lemma optional_plain_string v o :
  optional (string_ Required []) v = Valid o <-> optional_string v o.
Proof.
  rewrite optional_string_accepts. unfold optional_string.
  split; intros [H | (t & Hv & Ho)]; auto; right; exists t; auto.
  destruct Ho; auto.
Qed.

(** X4: [createAcaoSchema] accepts exactly the objects whose [nome_ativo]
    is a string of at least 3 code units, whose [codigo_ticker] is a string
    of 3 to 10 capital letters and digits, whose [valor_atual] the runtime
    makes a number greater than 0, [Infinity] included, and whose
    [tipo_ativo] and [descricao] are absent or strings. *)
Theorem createAcaoSchema_accepts env (o : JsObject) (c : CreateAcaoInput.t) :
  createAcaoSchema env (JObj o) = Valid c
  <-> (get "nome_ativo" o = JStr (CreateAcaoInput.nome_ativo c)
       /\ (3 <= length (CreateAcaoInput.nome_ativo c))%nat)
      /\ (get "codigo_ticker" o = JStr (CreateAcaoInput.codigo_ticker c)
          /\ ticker_ok (CreateAcaoInput.codigo_ticker c))
      /\ (Number env (get "valor_atual" o) = CreateAcaoInput.valor_atual c
          /\ greater_than_0 (CreateAcaoInput.valor_atual c))
      /\ optional_string (get "tipo_ativo" o) (CreateAcaoInput.tipo_ativo c)
      /\ optional_string (get "descricao" o) (CreateAcaoInput.descricao c).
Proof.
  rewrite createAcaoSchema_fields.
  rewrite !string_accepts, coerce_positive, min_check, ticker_checks,
    !optional_plain_string.
  reflexivity.
Qed.

Lemma optional_defined {A} (p : JsValue -> Parsed A) v :
  v <> JUndefined ->
  optional p v = match p v with
                 | Valid a => Valid (Some a)
                 | Invalid l => Invalid l
                 end.
Proof. destruct v; intros H; [congruence | reflexivity ..]. Qed.

Lemma optional_accepts {A} (p : JsValue -> Parsed A) v o :
  optional p v = Valid o
  <-> optional_field v o (fun v a => p v = Valid a).
Proof.
  unfold optional_field.
  assert (Hd : v = JUndefined \/ v <> JUndefined)
    by (destruct v; auto; right; discriminate).
  destruct Hd as [-> | Hv].
  - cbn. split.
    + intros H; injection H as <-. auto.
    + intros [[_ ->] | (H & _)]; [reflexivity | congruence].
  - rewrite (optional_defined p v Hv). destruct (p v) as [a |]; split.
    + intros H; injection H as <-. right. eauto.
    + intros [[H _] | (_ & a' & -> & Ha)]; [congruence |].
      injection Ha as ->. reflexivity.
    + discriminate.
    + intros [[H _] | (_ & a' & _ & Ha)]; [congruence | discriminate].
Qed.

Lemma optional_field_iff {A} v (o : option A) (P Q : JsValue -> A -> Prop) :
  (forall a, P v a <-> Q v a) ->
  (optional_field v o P <-> optional_field v o Q).
Proof.
  intros H. unfold optional_field.
  split; intros [Hn | (Hv & a & Ho & Ha)]; auto; right; split; auto;
    exists a; split; auto; apply H; auto.
Qed.

Lemma optional_string_with req cks (P : JsString -> Prop) v o :
  (forall s, is_valid (run_checks cks s) = true <-> P s) ->
  (optional (string_ req cks) v = Valid o
   <-> optional_field v o (string_with P)).
Proof.
  intros H. rewrite optional_accepts. apply optional_field_iff.
  intros s. unfold string_with. rewrite string_accepts, H. reflexivity.
Qed.

Lemma optional_positive env m1 m2 v o :
  optional (coerce_number env m1 [positive m2]) v = Valid o
  <-> optional_field v o (number_with env greater_than_0).
Proof.
  rewrite optional_accepts. apply optional_field_iff.
  intros n. unfold number_with. apply coerce_positive.
Qed.

Lemma optional_nonnegative env m1 m2 v o :
  optional (coerce_number env m1 [nonnegative m2]) v = Valid o
  <-> optional_field v o (number_with env not_negative).
Proof.
  rewrite optional_accepts. apply optional_field_iff.
  intros n. unfold number_with. apply coerce_nonnegative.
Qed.

Lemma optional_date_of env m v o :
  optional (coerce_date env m) v = Valid o
  <-> optional_field v o (date_of env).
Proof.
  rewrite optional_accepts. apply optional_field_iff.
  intros d. unfold date_of. apply coerce_date_accepts.
Qed.

Lemma email_check env m s :
  is_valid (run_checks [email env m] s) = true <-> is_email env s = true.
Proof. rewrite run_checks_valid. cbn. rewrite andb_true_r. reflexivity. Qed.

Lemma updateAlocacaoSchema_fields env o d :
  updateAlocacaoSchema env (JObj o) = Valid d
  <-> optional (coerce_number env Expected_number [positive msg_quantidade])
        (get "quantidade" o)
      = Valid (UpdateAlocacaoInput.quantidade d)
      /\ optional
           (coerce_number env Expected_number [nonnegative msg_valor_medio])
           (get "valor_medio_aquisicao" o)
         = Valid (UpdateAlocacaoInput.valor_medio_aquisicao d)
      /\ optional (coerce_date env Invalid_date) (get "data_ultima_compra" o)
         = Valid (UpdateAlocacaoInput.data_ultima_compra d).
Proof.
  unfold updateAlocacaoSchema, object_.
  destruct (optional _ (get "quantidade" o));
    destruct (optional _ (get "valor_medio_aquisicao" o));
    destruct (optional _ (get "data_ultima_compra" o));
    destruct d; fields.
Qed.

(** X5: [updateAlocacaoSchema] accepts exactly the objects in which each
    of [quantidade], [valor_medio_aquisicao] and [data_ultima_compra] is
    absent, and then absent from the result, or is made by the runtime a
    number greater than 0, a number that is not negative, a date.  A
    quantity of 0 or a negative price is refused on update as on create, and
    [Infinity] is accepted as on create. *)
Theorem updateAlocacaoSchema_accepts env (o : JsObject)
    (d : UpdateAlocacaoInput.t) :
  updateAlocacaoSchema env (JObj o) = Valid d
  <-> optional_field (get "quantidade" o) (UpdateAlocacaoInput.quantidade d)
        (number_with env greater_than_0)
      /\ optional_field (get "valor_medio_aquisicao" o)
           (UpdateAlocacaoInput.valor_medio_aquisicao d)
           (number_with env not_negative)
      /\ optional_field (get "data_ultima_compra" o)
           (UpdateAlocacaoInput.data_ultima_compra d) (date_of env).
Proof.
  rewrite updateAlocacaoSchema_fields.
  rewrite optional_positive, optional_nonnegative, optional_date_of.
  reflexivity.
Qed.

Lemma updateClienteSchema_fields env o d :
  updateClienteSchema env (JObj o) = Valid d
  <-> optional (string_ Required
                  [min 3 "String must contain at least 3 character(s)"])
        (get "nome_completo" o)
      = Valid (UpdateClienteInput.nome_completo d)
      /\ update_cpf_cnpj (get "cpf_cnpj" o)
         = Valid (UpdateClienteInput.cpf_cnpj d)
      /\ optional (string_ Required
                     [min 10 "String must contain at least 10 character(s)";
                      max 15 "String must contain at most 15 character(s)";
                      regex telefone_regex Invalid_])
           (get "telefone" o)
         = Valid (UpdateClienteInput.telefone d)
      /\ optional (coerce_date env Invalid_date) (get "data_nascimento" o)
         = Valid (UpdateClienteInput.data_nascimento d)
      /\ optional (string_ Required [email env "Invalid email"]) (get "email" o)
         = Valid (UpdateClienteInput.email d).
Proof.
  unfold updateClienteSchema, object_.
  destruct (optional _ (get "nome_completo" o));
    destruct (update_cpf_cnpj (get "cpf_cnpj" o));
    destruct (optional _ (get "telefone" o));
    destruct (optional _ (get "data_nascimento" o));
    destruct (optional _ (get "email" o));
    destruct d; fields.
Qed.

Lemma updateClienteSchema_clientes_fields env o d :
  updateClienteSchema_clientes env (JObj o) = Valid d
  <-> optional (string_ Required [min 3 msg_nome_len]) (get "nome_completo" o)
      = Valid (UpdateClienteInput.nome_completo d)
      /\ update_cpf_cnpj_clientes (get "cpf_cnpj" o)
         = Valid (UpdateClienteInput.cpf_cnpj d)
      /\ optional (string_ Required
                     [min 10 msg_tel_len; max 15 msg_tel_len;
                      regex telefone_regex msg_tel_formato])
           (get "telefone" o)
         = Valid (UpdateClienteInput.telefone d)
      /\ optional (coerce_date env Invalid_date) (get "data_nascimento" o)
         = Valid (UpdateClienteInput.data_nascimento d)
      /\ optional (string_ Required [email env "Formato de email inválido."])
           (get "email" o)
         = Valid (UpdateClienteInput.email d).
Proof.
  unfold updateClienteSchema_clientes, object_.
  destruct (optional _ (get "nome_completo" o));
    destruct (update_cpf_cnpj_clientes (get "cpf_cnpj" o));
    destruct (optional _ (get "telefone" o));
    destruct (optional _ (get "data_nascimento" o));
    destruct (optional _ (get "email" o));
    destruct d; fields.
Qed.

(** What an update of a customer may hold, field by field. *)
Lemma update_cliente_fields_spec env o d :
  optional_field (get "nome_completo" o) (UpdateClienteInput.nome_completo d)
    (string_with (fun s => (3 <= length s)%nat))
  /\ optional_field (get "cpf_cnpj" o) (UpdateClienteInput.cpf_cnpj d)
       (string_with cpf_cnpj_ok)
  /\ optional_field (get "telefone" o) (UpdateClienteInput.telefone d)
       (string_with telefone_ok)
  /\ optional_field (get "data_nascimento" o)
       (UpdateClienteInput.data_nascimento d) (date_of env)
  /\ optional_field (get "email" o) (UpdateClienteInput.email d)
       (string_with (fun s => is_email env s = true))
  <-> updateClienteSchema env (JObj o) = Valid d.
Proof.
  rewrite updateClienteSchema_fields. unfold update_cpf_cnpj.
  rewrite (optional_string_with _ _ (fun s => (3 <= length s)%nat))
    by (intros; apply min_check).
  rewrite (optional_string_with _ _ cpf_cnpj_ok)
    by (intros; apply cpf_cnpj_checks).
  rewrite (optional_string_with _ _ telefone_ok)
    by (intros; apply telefone_checks).
  rewrite (optional_string_with _ _ (fun s => is_email env s = true))
    by (intros; apply email_check).
  rewrite optional_date_of. reflexivity.
Qed.

Lemma update_cliente_fields_spec_clientes env o d :
  optional_field (get "nome_completo" o) (UpdateClienteInput.nome_completo d)
    (string_with (fun s => (3 <= length s)%nat))
  /\ optional_field (get "cpf_cnpj" o) (UpdateClienteInput.cpf_cnpj d)
       (string_with cpf_cnpj_ok)
  /\ optional_field (get "telefone" o) (UpdateClienteInput.telefone d)
       (string_with telefone_ok)
  /\ optional_field (get "data_nascimento" o)
       (UpdateClienteInput.data_nascimento d) (date_of env)
  /\ optional_field (get "email" o) (UpdateClienteInput.email d)
       (string_with (fun s => is_email env s = true))
  <-> updateClienteSchema_clientes env (JObj o) = Valid d.
Proof.
  rewrite updateClienteSchema_clientes_fields. unfold update_cpf_cnpj_clientes.
  rewrite (optional_string_with _ _ (fun s => (3 <= length s)%nat))
    by (intros; apply min_check).
  rewrite (optional_string_with _ _ cpf_cnpj_ok)
    by (intros; apply cpf_cnpj_checks).
  rewrite (optional_string_with _ _ telefone_ok)
    by (intros; apply telefone_checks).
  rewrite (optional_string_with _ _ (fun s => is_email env s = true))
    by (intros; apply email_check).
  rewrite optional_date_of. reflexivity.
Qed.

(** X6: [updateClienteSchema], in both revisions of the file, accepts
    exactly the objects in which each of the five customer fields is absent,
    and then absent from the result, or satisfies the constraint it has on
    create: a name of at least 3 code units, a tax identifier of 11 or 14
    digits, a phone number of 10 to 15 digits, a date, an e-mail address.
    The two revisions accept the same objects with the same results. *)
Theorem updateClienteSchema_accepts env (o : JsObject) (d : UpdateClienteInput.t) :
  (updateClienteSchema env (JObj o) = Valid d
   <-> optional_field (get "nome_completo" o)
         (UpdateClienteInput.nome_completo d)
         (string_with (fun s => (3 <= length s)%nat))
       /\ optional_field (get "cpf_cnpj" o) (UpdateClienteInput.cpf_cnpj d)
            (string_with cpf_cnpj_ok)
       /\ optional_field (get "telefone" o) (UpdateClienteInput.telefone d)
            (string_with telefone_ok)
       /\ optional_field (get "data_nascimento" o)
            (UpdateClienteInput.data_nascimento d) (date_of env)
       /\ optional_field (get "email" o) (UpdateClienteInput.email d)
            (string_with (fun s => is_email env s = true)))
  /\ (updateClienteSchema_clientes env (JObj o) = Valid d
      <-> updateClienteSchema env (JObj o) = Valid d).
Proof.
  split.
  - symmetry. apply update_cliente_fields_spec.
  - rewrite <- update_cliente_fields_spec,
      <- update_cliente_fields_spec_clientes. reflexivity.
Qed.

Lemma update_descricao_accepts v d :
  update_descricao v = Valid d <-> nullable_string v d.
Proof.
  unfold nullable_string.
  destruct v as [| | | | t | |]; cbn; split;
    try discriminate;
    try (intros H; injection H as <-; eauto; fail);
    try (intros [[H _] | [[H _] | (t' & H & _)]]; discriminate).
  - intros [[_ ->] | [[H _] | (t' & H & _)]]; [reflexivity | discriminate ..].
  - intros [[H _] | [[_ ->] | (t' & H & _)]]; [discriminate | reflexivity |
                                                 discriminate].
  - intros [[H _] | [[H _] | (t' & H & ->)]]; try discriminate.
    injection H as ->. reflexivity.
Qed.

Lemma updateAcaoSchema_fields env o d :
  updateAcaoSchema env (JObj o) = Valid d
  <-> optional (string_ Required
                  [min 3 "String must contain at least 3 character(s)"])
        (get "nome_ativo" o)
      = Valid (UpdateAcaoInput.nome_ativo d)
      /\ optional (string_ Required
                     [min 3 "String must contain at least 3 character(s)";
                      max 10 "String must contain at most 10 character(s)";
                      regex ticker_regex Invalid_])
           (get "codigo_ticker" o)
         = Valid (UpdateAcaoInput.codigo_ticker d)
      /\ optional (coerce_number env Expected_number [positive Number_gt_0])
           (get "valor_atual" o)
         = Valid (UpdateAcaoInput.valor_atual d)
      /\ optional (string_ Required []) (get "tipo_ativo" o)
         = Valid (UpdateAcaoInput.tipo_ativo d)
      /\ update_descricao (get "descricao" o)
         = Valid (UpdateAcaoInput.descricao d).
Proof.
  unfold updateAcaoSchema, object_.
  destruct (optional _ (get "nome_ativo" o));
    destruct (optional _ (get "codigo_ticker" o));
    destruct (optional _ (get "valor_atual" o));
    destruct (optional _ (get "tipo_ativo" o));
    destruct (update_descricao (get "descricao" o));
    destruct d; fields.
Qed.

(** X7: [updateAcaoSchema] accepts exactly the objects in which
    [nome_ativo], [codigo_ticker] and [valor_atual] are absent or satisfy the
    constraints they have on create (a price greater than 0, [Infinity]
    included), [tipo_ativo] is absent or a string, and [descricao] is absent,
    [null] or a string; [null] is kept apart from absent in the result. *)
Theorem updateAcaoSchema_accepts env (o : JsObject) (d : UpdateAcaoInput.t) :
  updateAcaoSchema env (JObj o) = Valid d
  <-> optional_field (get "nome_ativo" o) (UpdateAcaoInput.nome_ativo d)
        (string_with (fun s => (3 <= length s)%nat))
      /\ optional_field (get "codigo_ticker" o)
           (UpdateAcaoInput.codigo_ticker d) (string_with ticker_ok)
      /\ optional_field (get "valor_atual" o) (UpdateAcaoInput.valor_atual d)
           (number_with env greater_than_0)
      /\ optional_string (get "tipo_ativo" o) (UpdateAcaoInput.tipo_ativo d)
      /\ nullable_string (get "descricao" o) (UpdateAcaoInput.descricao d).
Proof.
  rewrite updateAcaoSchema_fields.
  rewrite (optional_string_with _ _ (fun s => (3 <= length s)%nat))
    by (intros; apply min_check).
  rewrite (optional_string_with _ _ ticker_ok)
    by (intros; apply ticker_checks).
  rewrite optional_positive, optional_plain_string, update_descricao_accepts.
  reflexivity.
Qed.

(** A body that is not an object is refused by every body schema. *)
Lemma object_only {A} (shape : JsObject -> Parsed A) v a :
  object_ shape v = Valid a -> exists o, v = JObj o.
Proof. destruct v; cbn; try discriminate. eauto. Qed.

Lemma optional_field_some {A} v (o : option A) (P : JsValue -> A -> Prop) a :
  optional_field v o P -> o = Some a -> P v a.
Proof.
  intros [[_ ->] | (_ & a' & -> & H)] E; [discriminate |].
  injection E as <-. exact H.
Qed.

(** What a validated body satisfies. *)

Lemma createClienteSchema_ok env v c :
  createClienteSchema env v = Valid c -> create_cliente_ok env c.
Proof.
  intros H. destruct (object_only _ _ _ H) as [o ->].
  apply createClienteSchema_fields in H as (H1 & H2 & H3 & _ & H5).
  unfold create_cpf_cnpj in H2.
  apply string_accepts in H1 as [_ H1], H2 as [_ H2], H3 as [_ H3],
    H5 as [_ H5].
  apply min_check in H1. apply cpf_cnpj_checks in H2.
  apply telefone_checks in H3. apply email_check in H5.
  unfold create_cliente_ok. auto.
Qed.

Lemma updateClienteSchema_ok env v d :
  updateClienteSchema env v = Valid d -> update_cliente_ok env d.
Proof.
  intros H. destruct (object_only _ _ _ H) as [o ->].
  apply update_cliente_fields_spec in H as (H1 & H2 & H3 & _ & H5).
  split; [| split; [| split]]; intros t E.
  - apply (optional_field_some _ _ _ _ H1 E).
  - apply (optional_field_some _ _ _ _ H2 E).
  - apply (optional_field_some _ _ _ _ H3 E).
  - apply (optional_field_some _ _ _ _ H5 E).
Qed.

Lemma updateClienteSchema_clientes_ok env v d :
  updateClienteSchema_clientes env v = Valid d -> update_cliente_ok env d.
Proof.
  intros H. destruct (object_only _ _ _ H) as [o ->].
  apply update_cliente_fields_spec_clientes in H as (H1 & H2 & H3 & _ & H5).
  split; [| split; [| split]]; intros t E.
  - apply (optional_field_some _ _ _ _ H1 E).
  - apply (optional_field_some _ _ _ _ H2 E).
  - apply (optional_field_some _ _ _ _ H3 E).
  - apply (optional_field_some _ _ _ _ H5 E).
Qed.

Lemma createAcaoSchema_ok env v c :
  createAcaoSchema env v = Valid c -> create_acao_ok c.
Proof.
  intros H. destruct (object_only _ _ _ H) as [o ->].
  apply createAcaoSchema_fields in H as (H1 & H2 & H3 & _ & _).
  apply string_accepts in H1 as [_ H1], H2 as [_ H2].
  apply coerce_positive in H3 as [_ H3].
  apply min_check in H1. apply ticker_checks in H2.
  unfold create_acao_ok. auto.
Qed.

Lemma updateAcaoSchema_ok env v d :
  updateAcaoSchema env v = Valid d -> update_acao_ok d.
Proof.
  intros H. destruct (object_only _ _ _ H) as [o ->].
  apply updateAcaoSchema_fields in H as (H1 & H2 & H3 & _ & _).
  rewrite (optional_string_with _ _ (fun s => (3 <= length s)%nat)) in H1
    by (intros; apply min_check).
  rewrite (optional_string_with _ _ ticker_ok) in H2
    by (intros; apply ticker_checks).
  rewrite optional_positive in H3.
  split; [| split]; intros t E.
  - apply (optional_field_some _ _ _ _ H1 E).
  - apply (optional_field_some _ _ _ _ H2 E).
  - apply (optional_field_some _ _ _ _ H3 E).
Qed.

Lemma createAlocacaoSchema_ok env v c :
  createAlocacaoSchema env v = Valid c -> create_alocacao_ok c.
Proof.
  intros H. destruct (object_only _ _ _ H) as [o ->].
  apply createAlocacaoSchema_fields in H as (_ & H2 & H3 & _).
  apply coerce_positive in H2 as [_ H2].
  apply coerce_nonnegative in H3 as [_ H3].
  split; auto.
Qed.

Lemma updateAlocacaoSchema_ok env v d :
  updateAlocacaoSchema env v = Valid d -> update_alocacao_ok d.
Proof.
  intros H. destruct (object_only _ _ _ H) as [o ->].
  apply updateAlocacaoSchema_fields in H as (H1 & H2 & _).
  rewrite optional_positive in H1. rewrite optional_nonnegative in H2.
  split; intros q E.
  - apply (optional_field_some _ _ _ _ H1 E).
  - apply (optional_field_some _ _ _ _ H2 E).
Qed.

End FieldFacts.

(** ** What every reachable store satisfies *)

Module InvariantFacts.
Import Js Prisma Async Reply Fastify Spec PrismaFacts AsyncFacts HandlerFacts
  FieldFacts RouteFacts.
#[local] Open Scope string_scope.
#[local] Open Scope list_scope.
#[local] Open Scope Z_scope.

(** A registered route is the route of the same name. *)
Lemma route_full env r : Routes.route env r = Server.route env (Routes.full r).
Proof. destruct r; reflexivity. Qed.

Lemma keeps_ret {A} P (a : A) : keeps P (ret a).
Proof. intros w H. exact H. Qed.

Lemma keeps_bind {A B} P (m : Async.t A) (k : A -> Async.t B) :
  keeps P m -> (forall a, keeps P (k a)) -> keeps P (bind m k).
Proof.
  intros Hm Hk w H. unfold bind. specialize (Hm w H).
  destruct (m w) as [[a | e] w']; cbn in *; auto. apply Hk; auto.
Qed.

Lemma keeps_try_catch {A} P (m : Async.t A) (h : Error -> Async.t A) :
  keeps P m -> (forall e, keeps P (h e)) -> keeps P (try_catch m h).
Proof.
  intros Hm Hh w H. unfold try_catch. specialize (Hm w H).
  destruct (m w) as [[a | e] w']; cbn in *; auto. apply Hh; auto.
Qed.

Lemma keeps_perform {A} (P : Store -> Prop) c (op : Store -> Outcome A * Store) :
  (forall s, P s -> P (snd (op s))) -> keeps P (perform c op).
Proof. intros Hop w H. unfold perform. cbn. auto. Qed.

Lemma keeps_query {A} P c (f : Store -> A) : keeps P (query c f).
Proof. intros w H. exact H. Qed.

Lemma keeps_if {A} P (b : bool) (m1 m2 : Async.t A) :
  keeps P m1 -> keeps P m2 -> keeps P (if b then m1 else m2).
Proof. destruct b; auto. Qed.

Lemma keeps_validate {A} P (schema : JsValue -> Zod.Parsed A) v h :
  (forall a, schema v = Zod.Valid a -> keeps P (h a)) ->
  keeps P (validate schema v h).
Proof.
  intros Hh. unfold validate. destruct (schema v); auto. apply keeps_ret.
Qed.

(** The calls that only read keep every property of the store. *)
Lemma cliente_findUnique_id_keeps (P : Store -> Prop) i s :
  P s -> P (snd (cliente_findUnique_id i s)).
Proof. intros H. rewrite (proj1 (reads_same s)). exact H. Qed.

Lemma cliente_findUnique_cpf_cnpj_keeps (P : Store -> Prop) cpf s :
  P s -> P (snd (cliente_findUnique_cpf_cnpj cpf s)).
Proof. intros H. rewrite (proj1 (proj2 (reads_same s))). exact H. Qed.

Lemma cliente_findFirst_contains_keeps (P : Store -> Prop) nome s :
  P s -> P (snd (cliente_findFirst_contains nome s)).
Proof. intros H. rewrite (proj1 (proj2 (proj2 (reads_same s)))). exact H. Qed.

Lemma acao_findUnique_id_keeps (P : Store -> Prop) i s :
  P s -> P (snd (acao_findUnique_id i s)).
Proof.
  intros H. rewrite (proj1 (proj2 (proj2 (proj2 (reads_same s))))). exact H.
Qed.

Lemma alocacao_findMany_keeps (P : Store -> Prop) k s :
  P s -> P (snd (alocacao_findMany_cliente k s)).
Proof.
  intros H. rewrite (proj2 (proj2 (proj2 (proj2 (reads_same s))))). exact H.
Qed.

(** *** Stored records are what the schemas and the columns leave *)

Lemma Forall_filter {A} (P : A -> Prop) f (l : list A) :
  Forall P l -> Forall P (filter f l).
Proof.
  rewrite !Forall_forall. intros H x Hx. apply filter_In in Hx as [Hx _]. auto.
Qed.

Lemma Forall_map_if {A} (P : A -> Prop) (b : A -> bool) (g : A -> A) l :
  (forall x, P x -> P (g x)) ->
  Forall P l -> Forall P (map (fun x => if b x then g x else x) l).
Proof.
  intros Hg H. induction H; cbn; constructor; auto.
  destruct (b x); auto.
Qed.

Lemma Forall_snoc {A} (P : A -> Prop) l x :
  Forall P l -> P x -> Forall P (l ++ [x]).
Proof. intros H Hx. apply Forall_app. split; auto. Qed.

(** A day has no time of day. *)
Lemma day_midnight d : midnight (day d).
Proof.
  unfold midnight, day. rewrite Z.mul_comm. apply Z.mod_mul. discriminate.
Qed.

(** Rounding keeps a number that is not negative so. *)
Lemma units_of_nonnegative s q : (0 <= q)%Q -> 0 <= units_of s q.
Proof.
  unfold units_of, Qle. destruct q as [a d]. cbn [Qnum Qden].
  rewrite Z.mul_1_r, Z.mul_0_l. intros Ha. cbv zeta.
  assert (Hn : 0 <= a * 10 ^ Z.of_nat s)
    by (apply Z.mul_nonneg_nonneg; [exact Ha | apply Z.pow_nonneg; lia]).
  apply Z.mul_nonneg_nonneg.
  - apply Z.sgn_nonneg. exact Hn.
  - apply Z.div_pos; [| lia].
    pose proof (Z.abs_nonneg (a * 10 ^ Z.of_nat s)). lia.
Qed.

(** What a decimal column holds of a number that is not negative. *)
Lemma Decimal_amount p s n q :
  not_negative n -> Decimal p s n = Some q -> amount p s q.
Proof.
  unfold Decimal, amount. destruct n as [q0 | | |]; try discriminate.
  cbn [not_negative]. intros Hq.
  destruct (Z.abs (units_of s q0) <? 10 ^ Z.of_nat p) eqn:E; [| discriminate].
  intros H; injection H as <-. exists (units_of s q0). split; auto.
  pose proof (units_of_nonnegative s q0 Hq) as Hu.
  apply Z.ltb_lt in E. rewrite Z.abs_eq in E by exact Hu. auto.
Qed.

Lemma greater_than_0_not_negative n : greater_than_0 n -> not_negative n.
Proof.
  destruct n as [q | | |]; cbn; auto. apply Qlt_le_weak.
Qed.

Lemma cliente_patch_ok env d c :
  update_cliente_ok env d -> cliente_ok env c -> cliente_ok env (cliente_patch d c).
Proof.
  intros (D1 & D2 & D3 & D4) (C1 & C2 & C3 & C4 & C5).
  unfold cliente_ok, cliente_patch, or_else. cbn.
  destruct (UpdateClienteInput.nome_completo d);
    destruct (UpdateClienteInput.cpf_cnpj d);
    destruct (UpdateClienteInput.telefone d);
    destruct (UpdateClienteInput.data_nascimento d);
    destruct (UpdateClienteInput.email d);
    (split; [| split; [| split; [| split]]]); cbn; auto using day_midnight.
Qed.

Lemma acao_patch_ok d valor a :
  update_acao_ok d ->
  optionally (Decimal 10 2) (UpdateAcaoInput.valor_atual d) = Some valor ->
  acao_ok a -> acao_ok (acao_patch d valor a).
Proof.
  intros (D1 & D2 & D3) Hv (A1 & A2 & A3).
  unfold acao_ok, acao_patch, or_else. cbn.
  assert (Hq : amount 10 2 match valor with
                           | Some q => q
                           | None => Acao.valor_atual a
                           end).
  { unfold optionally in Hv.
    destruct (UpdateAcaoInput.valor_atual d) as [n |].
    - destruct (Decimal 10 2 n) as [q |] eqn:Eq; [| discriminate].
      injection Hv as <-. eapply Decimal_amount; [| exact Eq].
      apply greater_than_0_not_negative. apply D3. reflexivity.
    - injection Hv as <-. exact A3. }
  destruct (UpdateAcaoInput.nome_ativo d);
    destruct (UpdateAcaoInput.codigo_ticker d); (split; [| split]); auto.
Qed.

Lemma optionally_amount p s o v old :
  (forall n, o = Some n -> not_negative n) ->
  optionally (Decimal p s) o = Some v ->
  amount p s old -> amount p s (or_else v old).
Proof.
  intros Ho Hv Hold. unfold optionally in Hv. destruct o as [n |].
  - destruct (Decimal p s n) as [q |] eqn:Eq; [| discriminate].
    injection Hv as <-. cbn. eapply Decimal_amount; [| exact Eq]. auto.
  - injection Hv as <-. exact Hold.
Qed.

Lemma optionally_midnight e o v old :
  optionally (DbDate e) o = Some v ->
  midnight old -> midnight (or_else v old).
Proof.
  intros Hv Hold. unfold optionally, DbDate in Hv. destruct o as [d |].
  - destruct (holds_date e d); [| discriminate].
    injection Hv as <-. cbn. apply day_midnight.
  - injection Hv as <-. exact Hold.
Qed.

Lemma alocacao_patch_ok e d quantidade valor data_compra al :
  update_alocacao_ok d ->
  optionally (Decimal 18 4) (UpdateAlocacaoInput.quantidade d)
  = Some quantidade ->
  optionally (Decimal 12 2) (UpdateAlocacaoInput.valor_medio_aquisicao d)
  = Some valor ->
  optionally (DbDate e) (UpdateAlocacaoInput.data_ultima_compra d)
  = Some data_compra ->
  alocacao_ok al ->
  alocacao_ok (alocacao_patch quantidade valor data_compra al).
Proof.
  intros (D1 & D2) Hq Hv Hd (A1 & A2 & A3).
  unfold alocacao_ok, alocacao_patch. cbn. split; [| split].
  - eapply optionally_amount; [| exact Hq | exact A1].
    intros n E. apply greater_than_0_not_negative. auto.
  - eapply optionally_amount; [| exact Hv | exact A2]. auto.
  - eapply optionally_midnight; eauto.
Qed.

Ltac ok_fields :=
  unfold cliente_ok, acao_ok, alocacao_ok; cbn;
  repeat match goal with |- _ /\ _ => split end;
  auto using day_midnight.

Lemma cliente_create_validated env data s :
  create_cliente_ok env data -> validated env s ->
  validated env (snd (cliente_create data s)).
Proof.
  intros (D1 & D2 & D3 & D4) (Hc & Ha & Hal).
  unfold cliente_create, refused_insert.
  cases; cbn [snd]; repeat split; cbn; auto;
    apply Forall_snoc; auto; ok_fields.
Qed.

Lemma cliente_update_validated env i data s :
  update_cliente_ok env data -> validated env s ->
  validated env (snd (cliente_update i data s)).
Proof.
  intros Hd (Hc & Ha & Hal).
  unfold cliente_update, refused. cases; cbn [snd];
    repeat split; cbn; auto.
  apply Forall_map_if; auto. intros x. apply cliente_patch_ok; auto.
Qed.

Lemma cliente_delete_validated env i s :
  validated env s -> validated env (snd (cliente_delete i s)).
Proof.
  intros (Hc & Ha & Hal).
  unfold cliente_delete, refused. cases; cbn [snd];
    repeat split; cbn; auto using Forall_filter.
Qed.

Lemma acao_create_validated env data s :
  create_acao_ok data -> validated env s ->
  validated env (snd (acao_create data s)).
Proof.
  intros (D1 & D2 & D3) (Hc & Ha & Hal).
  unfold acao_create, refused_insert.
  destruct (Decimal 10 2 _) as [valor |] eqn:Ev;
    cases; cbn [snd]; repeat split; cbn; auto;
    apply Forall_snoc; auto; ok_fields;
    eapply Decimal_amount; [| exact Ev];
    apply greater_than_0_not_negative; auto.
Qed.

Lemma acao_update_validated env i data s :
  update_acao_ok data -> validated env s ->
  validated env (snd (acao_update i data s)).
Proof.
  intros Hd (Hc & Ha & Hal).
  unfold acao_update, refused.
  destruct (optionally _ _) as [valor |] eqn:Ev; [| repeat split; auto].
  cases; cbn [snd]; repeat split; cbn; auto.
  apply Forall_map_if; auto. intros x. apply acao_patch_ok; auto.
Qed.

Lemma acao_delete_validated env i s :
  validated env s -> validated env (snd (acao_delete i s)).
Proof.
  intros (Hc & Ha & Hal).
  unfold acao_delete, refused. cases; cbn [snd];
    repeat split; cbn; auto using Forall_filter.
Qed.

Lemma alocacao_create_validated env k data s :
  create_alocacao_ok data -> validated env s ->
  validated env (snd (alocacao_create k data s)).
Proof.
  intros (D1 & D2) (Hc & Ha & Hal).
  unfold alocacao_create, refused_insert, DbDate.
  cases; cbn [snd]; repeat split; cbn; auto;
    apply Forall_snoc; auto; ok_fields;
    (eapply Decimal_amount; [| eassumption]);
    auto using greater_than_0_not_negative.
Qed.

Lemma alocacao_update_validated env i data s :
  update_alocacao_ok data -> validated env s ->
  validated env (snd (alocacao_update i data s)).
Proof.
  intros Hd (Hc & Ha & Hal).
  unfold alocacao_update, refused.
  destruct (optionally (Decimal 18 4) _) as [q |] eqn:Eq;
    [| repeat split; auto].
  destruct (optionally (Decimal 12 2) _) as [v |] eqn:Ev;
    [| repeat split; auto].
  destruct (optionally (DbDate _) _) as [d |] eqn:Ed; [| repeat split; auto].
  cases; cbn [snd]; repeat split; cbn; auto.
  apply Forall_map_if; auto. intros x.
  eapply alocacao_patch_ok; eauto.
Qed.

Lemma alocacao_delete_validated env i s :
  validated env s -> validated env (snd (alocacao_delete i s)).
Proof.
  intros (Hc & Ha & Hal).
  unfold alocacao_delete, refused. cases; cbn [snd];
    repeat split; cbn; auto using Forall_filter.
Qed.

Create HintDb validated.

#[local] Hint Resolve cliente_create_validated cliente_update_validated
  cliente_delete_validated acao_create_validated acao_update_validated
  acao_delete_validated alocacao_create_validated alocacao_update_validated
  alocacao_delete_validated
  createClienteSchema_ok updateClienteSchema_ok updateClienteSchema_clientes_ok
  createAcaoSchema_ok updateAcaoSchema_ok createAlocacaoSchema_ok
  updateAlocacaoSchema_ok : validated.

Ltac keep_store close :=
  repeat first
    [ apply keeps_ret
    | apply keeps_query
    | apply keeps_try_catch
    | apply keeps_bind
    | apply keeps_validate
    | apply keeps_if
    | apply keeps_perform;
      first [ apply cliente_findUnique_id_keeps
            | apply cliente_findUnique_cpf_cnpj_keeps
            | apply cliente_findFirst_contains_keeps
            | apply acao_findUnique_id_keeps
            | apply alocacao_findMany_keeps
            | solve [close] ]
    | match goal with
      | |- forall _, _ => intro
      | |- keeps _ (match ?x with Some _ => _ | None => _ end) => destruct x
      end ].

Lemma route_validated env r : keeps (validated env) (Routes.route env r).
Proof.
  destruct r; cbn [Routes.route]; unfold_handlers; cbv zeta;
    keep_store ltac:(eauto with validated).
Qed.

Lemma route_validated_clientes env r :
  keeps (validated env) (ServerClientes.route env r).
Proof.
  destruct r; cbn [ServerClientes.route]; unfold_handlers; cbv zeta;
    keep_store ltac:(eauto with validated).
Qed.

Lemma validated_empty env e : validated env (empty e).
Proof. repeat split; constructor. Qed.

(** X8: whatever requests the server has answered since the store was
    empty, every stored customer has a name of at least 3 code units, a tax
    identifier of 11 or 14 digits, a phone number of 10 to 15 digits, a date
    of birth without a time of day and an e-mail address that passes the
    test; every stored asset has a name of at least 3 code units, a ticker of
    3 to 10 capital letters and digits and a price that is not negative, has
    two decimals and is below 10^8 (a price that the schema accepts as
    greater than 0 may be stored as 0.00); every stored allocation has a
    quantity with four decimals below 10^14 and an average price with two
    decimals below 10^10, neither negative, and a date without a time of
    day.  No request, valid or not, gets other data into the store; this
    holds for the full route set and for the customer-only revision. *)
Theorem stored_data_is_validated env e :
  (forall rs, validated env (db (serve env rs (start (empty e)))))
  /\ (forall rs, validated env (db (serve_clientes env rs (start (empty e))))).
Proof.
  split.
  - assert (H : forall rs w, validated env (db w) ->
                             validated env (db (serve env rs w))).
    { induction rs as [| r rs IH]; intros w Hw; cbn; auto.
      apply IH. apply route_validated. exact Hw. }
    intros rs. apply H. apply validated_empty.
  - assert (H : forall rs w, validated env (db w) ->
                             validated env (db (serve_clientes env rs w))).
    { induction rs as [| r rs IH]; intros w Hw; cbn; auto.
      apply IH. apply route_validated_clientes. exact Hw. }
    intros rs. apply H. apply validated_empty.
Qed.

(** A positive price that the column rounds to nothing. *)
Example price_rounded_to_0 :
  Zod.gt_0 (Finite (1 # 1000)) = true
  /\ Decimal 10 2 (Finite (1 # 1000)) = Some (0 # 100)
  /\ Decimal 10 2 (Finite (30005 # 1000)) = Some (3001 # 100)
  /\ Decimal 10 2 (Finite (100000000 # 1)) = None
  /\ Decimal 10 2 PlusInfinity = None.
Proof. repeat split. Qed.

(** *** Ids stay below the sequences *)

Lemma Forall_lt_succ {A} (f : A -> Z) n l :
  Forall (fun x => f x < n) l -> Forall (fun x => f x < n + 1) l.
Proof. apply Forall_impl. intros x H. lia. Qed.

Ltac ids_kept :=
  cases; cbn [snd]; repeat split; cbn;
  auto using Forall_filter, Forall_map_if, Forall_lt_succ;
  try (apply Forall_map_if; auto);
  try (apply Forall_snoc; [apply Forall_lt_succ; auto | cbn; lia]).

Lemma cliente_create_ids data s :
  ids_below s -> ids_below (snd (cliente_create data s)).
Proof. intros (Hc & Ha & Hal). unfold cliente_create, refused_insert. ids_kept. Qed.

Lemma cliente_update_ids i data s :
  ids_below s -> ids_below (snd (cliente_update i data s)).
Proof. intros (Hc & Ha & Hal). unfold cliente_update, refused. ids_kept. Qed.

Lemma cliente_delete_ids i s :
  ids_below s -> ids_below (snd (cliente_delete i s)).
Proof. intros (Hc & Ha & Hal). unfold cliente_delete, refused. ids_kept. Qed.

Lemma acao_create_ids data s :
  ids_below s -> ids_below (snd (acao_create data s)).
Proof. intros (Hc & Ha & Hal). unfold acao_create, refused_insert. ids_kept. Qed.

Lemma acao_update_ids i data s :
  ids_below s -> ids_below (snd (acao_update i data s)).
Proof. intros (Hc & Ha & Hal). unfold acao_update, refused. ids_kept. Qed.

Lemma acao_delete_ids i s :
  ids_below s -> ids_below (snd (acao_delete i s)).
Proof. intros (Hc & Ha & Hal). unfold acao_delete, refused. ids_kept. Qed.

Lemma alocacao_create_ids k data s :
  ids_below s -> ids_below (snd (alocacao_create k data s)).
Proof.
  intros (Hc & Ha & Hal). unfold alocacao_create, DbDate, refused_insert. ids_kept.
Qed.

Lemma alocacao_update_ids i data s :
  ids_below s -> ids_below (snd (alocacao_update i data s)).
Proof. intros (Hc & Ha & Hal). unfold alocacao_update, refused. ids_kept. Qed.

Lemma alocacao_delete_ids i s :
  ids_below s -> ids_below (snd (alocacao_delete i s)).
Proof. intros (Hc & Ha & Hal). unfold alocacao_delete, refused. ids_kept. Qed.

Create HintDb ids.

#[local] Hint Resolve cliente_create_ids cliente_update_ids cliente_delete_ids
  acao_create_ids acao_update_ids acao_delete_ids alocacao_create_ids
  alocacao_update_ids alocacao_delete_ids : ids.

Lemma route_ids env r : keeps ids_below (Routes.route env r).
Proof.
  destruct r; cbn [Routes.route]; unfold_handlers; cbv zeta; keep_store ltac:(eauto with ids).
Qed.

Lemma ids_empty e : ids_below (empty e).
Proof. repeat split; constructor. Qed.

Lemma serve_ids env : forall rs w,
  ids_below (db w) -> ids_below (db (serve env rs w)).
Proof.
  induction rs as [| r rs IH]; intros w Hw; cbn; auto.
  apply IH. apply route_ids. exact Hw.
Qed.

(** X9: whatever requests the full route set has answered since the store
    was empty, every allocation references a stored customer and a stored
    asset, as the two relations of [model AlocacaoCliente] require, and every
    id in a table is below the sequence that numbers the table's next record,
    so that an id is not given twice. *)
Theorem reachable_store_is_consistent env e (rs : list Routes.Request) :
  integrity (db (serve env rs (start (empty e)))) = true
  /\ ids_below (db (serve env rs (start (empty e)))).
Proof.
  split.
  - apply serve_integrity. reflexivity.
  - apply serve_ids. apply ids_empty.
Qed.

End InvariantFacts.

(** ** What the routes answer, taken together *)

Module AnswerFacts.
Import Js Prisma Async Reply Fastify Spec PrismaFacts AsyncFacts HandlerFacts
  RouteFacts.
#[local] Open Scope string_scope.
#[local] Open Scope list_scope.
#[local] Open Scope Z_scope.

(** X10: every request to the full route set and to the customer-only
    revision is answered: no handler lets an error of the persistence layer
    escape, whatever the request and the store. *)
Theorem every_request_is_answered env (w : World) :
  (forall r, exists reply w', Routes.route env r w = (Returned reply, w'))
  /\ (forall r, exists reply w',
        ServerClientes.route env r w = (Returned reply, w')).
Proof.
  split; intros r.
  - destruct r; cbn [Routes.route]; validated_or_not; paths;
      eexists; eexists; reflexivity.
  - destruct r; cbn [ServerClientes.route]; validated_or_not; paths;
      eexists; eexists; reflexivity.
Qed.

Lemma bad_request_full env r w reply w' :
  Routes.route env r w = (Returned reply, w') ->
  status reply = 400 ->
  w' = w /\ exists issues, body reply = Validation issues.
Proof.
  destruct r; cbn [Routes.route]; validated_or_not; paths;
    intros Hrun H400; injection Hrun as <- <-; cbn in H400 |- *;
    first [discriminate H400 | split; [reflexivity | eexists; reflexivity]].
Qed.

Lemma bad_request_clientes env r w reply w' :
  ServerClientes.route env r w = (Returned reply, w') ->
  status reply = 400 ->
  w' = w.
Proof.
  destruct r; cbn [ServerClientes.route]; validated_or_not; paths;
    intros Hrun H400; injection Hrun as <- <-; cbn in H400 |- *;
    first [discriminate H400 | reflexivity].
Qed.

(** X11: an answer with status 400 leaves the store as it was and is
    given before any persistence call.  In the full route set it always
    reports the issues of a failed validation; in the customer-only revision
    it may also come from the guard of the update handler. *)
Theorem bad_request_touches_nothing env (w w' : World) (reply : Reply.t) :
  status reply = 400 ->
  (forall r, Routes.route env r w = (Returned reply, w') ->
     w' = w /\ exists issues, body reply = Validation issues)
  /\ (forall r, ServerClientes.route env r w = (Returned reply, w') -> w' = w).
Proof.
  intros H400. split; intros r Hrun.
  - eapply bad_request_full; eauto.
  - eapply bad_request_clientes; eauto.
Qed.

Lemma bad_request_touches_nothing_witness :
  ({| db := Sample.com_alocacao; calls := [] |} = start Sample.com_alocacao
   /\ exists issues,
        body (send 400 (Validation ["Expected number, received nan"]))
        = Validation issues)
  /\ start Sample.com_alocacao = start Sample.com_alocacao.
Proof.
  split.
  - apply (proj1 (bad_request_touches_nothing Runtime.env
                    (start Sample.com_alocacao) (start Sample.com_alocacao)
                    (send 400 (Validation ["Expected number, received nan"]))
                    eq_refl)
             (Routes.DELETE_clientes_id Sample.id_abc)).
    reflexivity.
  - apply (proj2 (bad_request_touches_nothing Runtime.env
                    (start Sample.com_alocacao) (start Sample.com_alocacao)
                    (send 400
                       (message "Nenhum dado fornecido para atualização."))
                    eq_refl)
             (ServerClientes.PUT_clientes_id Sample.id_1 (JObj []))).
    reflexivity.
Defined.

(** *** What a refused call leaves *)

Lemma same_tables_refl s : same_tables s s.
Proof. repeat split. Qed.

(** A call that only reads leaves the store. *)
Lemma cliente_findUnique_id_store i s o s' :
  cliente_findUnique_id i s = (o, s') -> s' = s.
Proof.
  intros E. rewrite <- (proj1 (reads_same s) i), E. reflexivity.
Qed.

Lemma cliente_findUnique_cpf_cnpj_store cpf s o s' :
  cliente_findUnique_cpf_cnpj cpf s = (o, s') -> s' = s.
Proof.
  intros E. rewrite <- (proj1 (proj2 (reads_same s)) cpf), E. reflexivity.
Qed.

Lemma cliente_findFirst_contains_store nome s o s' :
  cliente_findFirst_contains nome s = (o, s') -> s' = s.
Proof.
  intros E. rewrite <- (proj1 (proj2 (proj2 (reads_same s))) nome), E.
  reflexivity.
Qed.

Lemma acao_findUnique_id_store i s o s' :
  acao_findUnique_id i s = (o, s') -> s' = s.
Proof.
  intros E. rewrite <- (proj1 (proj2 (proj2 (proj2 (reads_same s)))) i), E.
  reflexivity.
Qed.

Lemma alocacao_findMany_store k s o s' :
  alocacao_findMany_cliente k s = (o, s') -> s' = s.
Proof.
  intros E. rewrite <- (proj2 (proj2 (proj2 (proj2 (reads_same s)))) k), E.
  reflexivity.
Qed.

(** A call that throws leaves the rows of the three tables; an insert that
    a constraint refuses has drawn from the sequence. *)
Ltac thrown_tables :=
  cases; cbn; intros E;
  first [discriminate E | inversion E; subst; repeat split].

Lemma cliente_create_refused data s e s' :
  cliente_create data s = (Thrown e, s') -> same_tables s s'.
Proof. unfold cliente_create, refused_insert. thrown_tables. Qed.

Lemma cliente_update_refused i data s e s' :
  cliente_update i data s = (Thrown e, s') -> same_tables s s'.
Proof. unfold cliente_update, refused. thrown_tables. Qed.

Lemma cliente_delete_refused i s e s' :
  cliente_delete i s = (Thrown e, s') -> same_tables s s'.
Proof. unfold cliente_delete, refused. thrown_tables. Qed.

Lemma acao_create_refused data s e s' :
  acao_create data s = (Thrown e, s') -> same_tables s s'.
Proof. unfold acao_create, refused_insert. thrown_tables. Qed.

Lemma acao_update_refused i data s e s' :
  acao_update i data s = (Thrown e, s') -> same_tables s s'.
Proof. unfold acao_update, refused. thrown_tables. Qed.

Lemma acao_delete_refused i s e s' :
  acao_delete i s = (Thrown e, s') -> same_tables s s'.
Proof. unfold acao_delete, refused. thrown_tables. Qed.

Lemma alocacao_create_refused k data s e s' :
  alocacao_create k data s = (Thrown e, s') -> same_tables s s'.
Proof. unfold alocacao_create, refused_insert. thrown_tables. Qed.

Lemma alocacao_update_refused i data s e s' :
  alocacao_update i data s = (Thrown e, s') -> same_tables s s'.
Proof. unfold alocacao_update, refused. thrown_tables. Qed.

Lemma alocacao_delete_refused i s e s' :
  alocacao_delete i s = (Thrown e, s') -> same_tables s s'.
Proof. unfold alocacao_delete, refused. thrown_tables. Qed.

(** What the calls of a path left of the store it began with. *)
Ltac stores :=
  repeat match goal with
         | E : _ = (_, ?s') |- _ =>
             first [ apply cliente_findUnique_id_store in E
                   | apply cliente_findUnique_cpf_cnpj_store in E
                   | apply cliente_findFirst_contains_store in E
                   | apply acao_findUnique_id_store in E
                   | apply alocacao_findMany_store in E ];
             subst s'
         | E : _ = (Thrown _, _) |- _ =>
             first [ apply cliente_create_refused in E
                   | apply cliente_update_refused in E
                   | apply cliente_delete_refused in E
                   | apply acao_create_refused in E
                   | apply acao_update_refused in E
                   | apply acao_delete_refused in E
                   | apply alocacao_create_refused in E
                   | apply alocacao_update_refused in E
                   | apply alocacao_delete_refused in E ]
         end.

(** X12: a request to the full route set that is not answered with 200 or
    201 leaves the rows of the three tables as they were, and every GET
    request, whatever it is answered with, leaves the whole store.  The
    sequences are not in the first part: an insert that is refused with 409
    has drawn an id. *)
Theorem only_success_changes_the_store env r (w w' : World) (reply : Reply.t) :
  Routes.route env r w = (Returned reply, w') ->
  (status reply <> 200 -> status reply <> 201 -> same_tables (db w) (db w'))
  /\ (is_get r = true -> db w' = db w).
Proof.
  destruct r; cbn [Routes.route is_get]; validated_or_not; paths;
    intros Hrun; injection Hrun as <- <-; cbn; stores;
    (split; [intros H200 H201 | intros Hget]);
    first [ reflexivity | discriminate Hget | congruence | assumption
          | apply same_tables_refl ].
Qed.

Lemma only_success_changes_the_store_witness :
  (status (send 409
     (message "Conflito: Já existe um cliente com este cpf_cnpj."))
   <> 200 ->
   status (send 409
     (message "Conflito: Já existe um cliente com este cpf_cnpj."))
   <> 201 ->
   same_tables
     (db (start Sample.com_alocacao))
     (db {| db := draw_cliente Sample.com_alocacao;
            calls := ["cliente.create"] |}))
  /\ (is_get (Routes.POST_clientes Sample.outra_ana) = true ->
      db {| db := draw_cliente Sample.com_alocacao;
            calls := ["cliente.create"] |}
      = db (start Sample.com_alocacao)).
Proof.
  apply (only_success_changes_the_store Runtime.env
           (Routes.POST_clientes Sample.outra_ana) (start Sample.com_alocacao)
           {| db := draw_cliente Sample.com_alocacao;
              calls := ["cliente.create"] |}
           (send 409
              (message "Conflito: Já existe um cliente com este cpf_cnpj."))).
  reflexivity.
Defined.

(** The refused insert has drawn the id 2: the next customer is numbered
    3. *)
Example conflict_draws_the_sequence :
  seq_cliente Sample.com_alocacao = 2
  /\ seq_cliente (draw_cliente Sample.com_alocacao) = 3
  /\ clientes (draw_cliente Sample.com_alocacao)
     = clientes Sample.com_alocacao.
Proof. repeat split. Qed.

(** X13: the status of an answer of the full route set is one of 200, 201,
    400, 404, 409 and 500; 201 answers a POST request only, and 409 only a
    request to create or update a customer or an asset, to delete an asset,
    or to add an allocation: updating or deleting an allocation and
    deleting a customer are never answered with 409. *)
Theorem status_codes env r (w w' : World) (reply : Reply.t) :
  Routes.route env r w = (Returned reply, w') ->
  In (status reply) [200; 201; 400; 404; 409; 500]
  /\ (status reply = 201 -> is_post r = true)
  /\ (status reply = 409 -> may_conflict r = true).
Proof.
  destruct r; cbn [Routes.route is_post may_conflict]; validated_or_not; paths;
    intros Hrun; injection Hrun as <- <-; cbn;
    (split; [tauto | split; intros H; first [reflexivity | discriminate H]]).
Qed.

Lemma status_codes_witness :
  In (status (send 404 (message "Alocação não encontrada para deleção.")))
     [200; 201; 400; 404; 409; 500]
  /\ (status (send 404 (message "Alocação não encontrada para deleção.")) = 201
      -> is_post (Routes.DELETE_alocacoes_id Sample.id_1) = true)
  /\ (status (send 404 (message "Alocação não encontrada para deleção.")) = 409
      -> may_conflict (Routes.DELETE_alocacoes_id Sample.id_1) = true).
Proof.
  apply (status_codes Runtime.env (Routes.DELETE_alocacoes_id Sample.id_1)
           (start Sample.sem_alocacao)
           {| db := Sample.sem_alocacao; calls := ["alocacaoCliente.delete"] |}).
  reflexivity.
Defined.

End AnswerFacts.

(** ** Creating, reading, updating and deleting *)

Module CrudFacts.
Import Js Prisma Async Reply Fastify Spec PrismaFacts AsyncFacts HandlerFacts
  RouteFacts.
#[local] Open Scope string_scope.
#[local] Open Scope list_scope.
#[local] Open Scope Z_scope.

Lemma existsb_str {A} (f : A -> JsString) x l :
  existsb (fun c => str_eqb (f c) x) l = true <-> exists c, In c l /\ f c = x.
Proof.
  rewrite existsb_exists. split; intros (c & Hc & E); exists c; split; auto;
    apply str_eqb_eq; auto.
Qed.

Lemma existsb_str_false {A} (f : A -> JsString) x l :
  existsb (fun c => str_eqb (f c) x) l = false
  <-> forall c, In c l -> f c <> x.
Proof.
  split.
  - intros H c Hc E.
    assert (Ht : existsb (fun c => str_eqb (f c) x) l = true)
      by (apply existsb_str; eauto).
    congruence.
  - intros H. destruct (existsb _ l) eqn:E; auto.
    apply existsb_str in E as (c & Hc & E). exfalso. apply (H c Hc E).
Qed.

Lemma find_snoc {A} (f : A -> bool) l c :
  (forall x, In x l -> f x = false) ->
  find f (l ++ [c]) = if f c then Some c else None.
Proof.
  induction l as [| a l IH]; intros H; cbn.
  - destruct (f c); reflexivity.
  - rewrite (H a) by (left; auto). apply IH. intros x Hx. apply H. right; auto.
Qed.

Lemma str_eqb_refl s : str_eqb s s = true.
Proof. apply str_eqb_eq. reflexivity. Qed.

(** POST /clientes with values that the engine takes. *)
Lemma post_clientes_run body w :
  create_cliente_fits (engine (db w)) body = true ->
  Int (seq_cliente (db w)) = true ->
  Server.post_clientes body w
  = if existsb (fun c => str_eqb (Cliente.cpf_cnpj c)
                                 (CreateClienteInput.cpf_cnpj body))
               (clientes (db w))
    then (Returned (send 409
            (message "Conflito: Já existe um cliente com este cpf_cnpj.")),
          {| db := draw_cliente (db w);
             calls := calls w ++ ["cliente.create"] |})
    else if existsb (fun c => str_eqb (Cliente.email c)
                                      (CreateClienteInput.email body))
                    (clientes (db w))
    then (Returned (send 409
            (message "Conflito: Já existe um cliente com este email.")),
          {| db := draw_cliente (db w);
             calls := calls w ++ ["cliente.create"] |})
    else
      let novo :=
        {| Cliente.id := seq_cliente (db w);
           Cliente.nome_completo := CreateClienteInput.nome_completo body;
           Cliente.cpf_cnpj := CreateClienteInput.cpf_cnpj body;
           Cliente.telefone := CreateClienteInput.telefone body;
           Cliente.data_nascimento :=
             day (CreateClienteInput.data_nascimento body);
           Cliente.email := CreateClienteInput.email body |} in
      (Returned (send 201 (Record_cliente novo)),
       {| db := set_clientes (clientes (db w) ++ [novo]) (draw_cliente (db w));
          calls := calls w ++ ["cliente.create"] |}).
Proof.
  intros Hfits Hseq.
  unfold Server.post_clientes, prisma.cliente.create. run.
  unfold cliente_create. rewrite Hfits, Hseq. cbn [andb].
  destruct (existsb _ _); [reflexivity |].
  destruct (existsb _ _); reflexivity.
Qed.

(** X14: POST /clientes with a validated body whose values the engine
    takes.  When a stored customer has the tax identifier of the body the
    answer is 409 and names [cpf_cnpj]; when none has it but one has the
    e-mail address, the answer is 409 and names [email]; in both cases no row
    is added and the refused insert has drawn an id from the sequence.
    Otherwise the customer is added with the fields of the body, the date of
    birth without its time of day, and the id that the sequence gives, and
    the answer is 201 with that record.  A body with a value that the engine
    does not take is answered with 500 and no row is added. *)
Theorem create_customer (body : CreateClienteInput.t) (w : World) :
  let s := db w in
  (create_cliente_fits (engine s) body = true ->
   Int (seq_cliente s) = true ->
   ((exists c, In c (clientes s)
               /\ Cliente.cpf_cnpj c = CreateClienteInput.cpf_cnpj body) ->
    Server.post_clientes body w
    = (Returned (send 409
         (message "Conflito: Já existe um cliente com este cpf_cnpj.")),
       {| db := draw_cliente s; calls := calls w ++ ["cliente.create"] |}))
   /\ ((forall c, In c (clientes s) ->
          Cliente.cpf_cnpj c <> CreateClienteInput.cpf_cnpj body) ->
       (exists c, In c (clientes s)
                  /\ Cliente.email c = CreateClienteInput.email body) ->
       Server.post_clientes body w
       = (Returned (send 409
            (message "Conflito: Já existe um cliente com este email.")),
          {| db := draw_cliente s; calls := calls w ++ ["cliente.create"] |}))
   /\ ((forall c, In c (clientes s) ->
          Cliente.cpf_cnpj c <> CreateClienteInput.cpf_cnpj body) ->
       (forall c, In c (clientes s) ->
          Cliente.email c <> CreateClienteInput.email body) ->
       let novo :=
         {| Cliente.id := seq_cliente s;
            Cliente.nome_completo := CreateClienteInput.nome_completo body;
            Cliente.cpf_cnpj := CreateClienteInput.cpf_cnpj body;
            Cliente.telefone := CreateClienteInput.telefone body;
            Cliente.data_nascimento :=
              day (CreateClienteInput.data_nascimento body);
            Cliente.email := CreateClienteInput.email body |} in
       Server.post_clientes body w
       = (Returned (send 201 (Record_cliente novo)),
          {| db := set_clientes (clientes s ++ [novo]) (draw_cliente s);
             calls := calls w ++ ["cliente.create"] |})))
  /\ (create_cliente_fits (engine s) body = false ->
      Server.post_clientes body w
      = (Returned (send 500 (message "Erro interno ao criar cliente.")),
         {| db := if draws_first (engine s) then draw_cliente s else s;
            calls := calls w ++ ["cliente.create"] |})).
Proof.
  cbv zeta. split.
  - intros Hfits Hseq. rewrite (post_clientes_run _ _ Hfits Hseq).
    split; [| split].
    + intros H. apply existsb_str in H. rewrite H. reflexivity.
    + intros Hc He. apply existsb_str_false in Hc. apply existsb_str in He.
      rewrite Hc, He. reflexivity.
    + intros Hc He. apply existsb_str_false in Hc, He.
      rewrite Hc, He. reflexivity.
  - intros Hfits. unfold Server.post_clientes, prisma.cliente.create. run.
    unfold cliente_create. rewrite Hfits. reflexivity.
Qed.

Lemma create_customer_witness :
  Server.post_clientes Sample.mesmo_cpf (start Sample.sem_alocacao)
  = (Returned (send 409
       (message "Conflito: Já existe um cliente com este cpf_cnpj.")),
     {| db := draw_cliente Sample.sem_alocacao; calls := ["cliente.create"] |})
  /\ Server.post_clientes Sample.mesmo_email (start Sample.sem_alocacao)
     = (Returned (send 409
          (message "Conflito: Já existe um cliente com este email.")),
        {| db := draw_cliente Sample.sem_alocacao;
           calls := ["cliente.create"] |})
  /\ Server.post_clientes Sample.bia_body (start Sample.sem_alocacao)
     = (Returned (send 201 (Record_cliente Sample.bia)),
        {| db := set_clientes [Sample.ana; Sample.bia]
                   (draw_cliente Sample.sem_alocacao);
           calls := ["cliente.create"] |})
  /\ Server.post_clientes Sample.com_nul (start Sample.sem_alocacao)
     = (Returned (send 500 (message "Erro interno ao criar cliente.")),
        {| db := Sample.sem_alocacao; calls := ["cliente.create"] |}).
Proof.
  split; [| split; [| split]].
  - apply (proj1 (proj1 (create_customer Sample.mesmo_cpf
                           (start Sample.sem_alocacao)) eq_refl eq_refl)).
    exists Sample.ana. split; [left |]; reflexivity.
  - apply (proj1 (proj2 (proj1 (create_customer Sample.mesmo_email
                                  (start Sample.sem_alocacao))
                           eq_refl eq_refl))).
    + intros c [<- | []]. discriminate.
    + exists Sample.ana. split; [left |]; reflexivity.
  - apply (proj2 (proj2 (proj1 (create_customer Sample.bia_body
                                  (start Sample.sem_alocacao))
                           eq_refl eq_refl))).
    + intros c [<- | []]. discriminate.
    + intros c [<- | []]. discriminate.
  - apply (proj2 (create_customer Sample.com_nul (start Sample.sem_alocacao))).
    reflexivity.
Defined.

(** The time of day of a date of birth is not stored. *)
Example date_of_birth_without_time :
  day 662731200000 = 662688000000
  /\ fst (Server.post_clientes (Sample.nascida_em 662731200000)
            (start Sample.sem_alocacao))
     = Returned (send 201 (Record_cliente Sample.bia)).
Proof. split; reflexivity. Qed.

Lemma get_clientes_id_run id w :
  Int id = true ->
  ServerClientes.get_clientes_id id w
  = (Returned (match find_cliente id (db w) with
               | Some c => send 200 (Record_cliente c)
               | None => send 404 (message "Cliente não encontrado.")
               end),
     {| db := db w; calls := calls w ++ ["cliente.findUnique"] |}).
Proof.
  intros Hid.
  unfold ServerClientes.get_clientes_id, prisma.cliente.findUnique_id. run.
  unfold cliente_findUnique_id. rewrite Hid. cbn.
  destruct (find_cliente id (db w)); reflexivity.
Qed.

Lemma buscar_cpf_run cpf w :
  cpf <> [] ->
  holds_text (engine (db w)) cpf = true ->
  Server.get_clientes_buscar
    {| BuscarClienteQueryInput.nome_completo := None;
       BuscarClienteQueryInput.cpf_cnpj := Some cpf |} w
  = (Returned (match find (fun c => str_eqb (Cliente.cpf_cnpj c) cpf)
                          (clientes (db w)) with
               | Some c => send 200 (Record_cliente c)
               | None => send 404 (message "Cliente não encontrado.")
               end),
     {| db := db w; calls := calls w ++ ["cliente.findUnique"] |}).
Proof.
  intros Hne Ht. destruct cpf as [| c0 cpf]; [congruence |].
  unfold Server.get_clientes_buscar, prisma.cliente.findUnique_cpf_cnpj.
  cbn [BuscarClienteQueryInput.cpf_cnpj BuscarClienteQueryInput.nome_completo
       truthy or_else].
  run. unfold cliente_findUnique_cpf_cnpj. rewrite Ht. cbn.
  destruct (find _ _); reflexivity.
Qed.

Lemma create_cliente_fits_cpf e body :
  create_cliente_fits e body = true ->
  holds_text e (CreateClienteInput.cpf_cnpj body) = true.
Proof.
  unfold create_cliente_fits. intros H.
  repeat (apply andb_true_iff in H as [H ?]). assumption.
Qed.

(** X15: after the full route set has answered any requests since the
    store was empty, let POST /clientes be answered with 201 and a record.
    Then GET /clientes/:id of the customer-only revision, with the id of the
    record, answers 200 with that record; the search of the full route set
    by its tax identifier, when that is not empty, answers 200 with it too;
    and a second POST /clientes with the same tax identifier or the same
    e-mail address, and values that the engine takes, is answered with 409:
    no row is added, and the refused insert has drawn an id. *)
Theorem created_customer_is_found env e (rs : list Routes.Request)
    (body : CreateClienteInput.t) (w1 : World) (c : Cliente.t) :
  let w := serve env rs (start (empty e)) in
  Server.post_clientes body w = (Returned (send 201 (Record_cliente c)), w1) ->
  ServerClientes.get_clientes_id (Cliente.id c) w1
  = (Returned (send 200 (Record_cliente c)),
     {| db := db w1; calls := calls w1 ++ ["cliente.findUnique"] |})
  /\ (Cliente.cpf_cnpj c <> [] ->
      Server.get_clientes_buscar
        {| BuscarClienteQueryInput.nome_completo := None;
           BuscarClienteQueryInput.cpf_cnpj := Some (Cliente.cpf_cnpj c) |} w1
      = (Returned (send 200 (Record_cliente c)),
         {| db := db w1; calls := calls w1 ++ ["cliente.findUnique"] |}))
  /\ (forall body',
        CreateClienteInput.cpf_cnpj body' = Cliente.cpf_cnpj c
        \/ CreateClienteInput.email body' = Cliente.email c ->
        create_cliente_fits (engine (db w1)) body' = true ->
        Int (seq_cliente (db w1)) = true ->
        exists m,
          Server.post_clientes body' w1
          = (Returned (send 409 (message m)),
             {| db := draw_cliente (db w1);
                calls := calls w1 ++ ["cliente.create"] |})).
Proof.
  intros w.
  assert (Hids : ids_below (db w))
    by (apply InvariantFacts.serve_ids, InvariantFacts.ids_empty).
  destruct Hids as (Hids & _ & _).
  destruct (create_cliente_fits (engine (db w)) body) eqn:Hfits.
  2: { unfold Server.post_clientes, prisma.cliente.create. run.
       unfold cliente_create. rewrite Hfits. cbn. discriminate. }
  destruct (Int (seq_cliente (db w))) eqn:Hseq.
  2: { unfold Server.post_clientes, prisma.cliente.create. run.
       unfold cliente_create. rewrite Hfits, Hseq. cbn. discriminate. }
  rewrite (post_clientes_run _ _ Hfits Hseq).
  case_if Ecpf; [discriminate |].
  case_if Eemail; [discriminate |].
  intros Hrun. injection Hrun as <- <-.
  pose proof (proj1 (existsb_str_false Cliente.cpf_cnpj _ _) Ecpf) as Hcpf.
  pose proof (proj1 (existsb_str_false Cliente.email _ _) Eemail) as Hemail.
  split; [| split].
  - rewrite get_clientes_id_run by exact Hseq. cbn. unfold find_cliente. cbn.
    rewrite find_snoc.
    + cbn. rewrite Z.eqb_refl. reflexivity.
    + intros x Hx. apply Z.eqb_neq.
      rewrite Forall_forall in Hids. specialize (Hids x Hx). lia.
  - cbn. intros Hne. rewrite buscar_cpf_run.
    + cbn. rewrite find_snoc.
      * cbn. rewrite str_eqb_refl. reflexivity.
      * intros x Hx.
        destruct (str_eqb (Cliente.cpf_cnpj x)
                          (CreateClienteInput.cpf_cnpj body)) eqn:E; auto.
        apply str_eqb_eq in E. exfalso. apply (Hcpf x Hx E).
    + exact Hne.
    + cbn. apply create_cliente_fits_cpf. exact Hfits.
  - intros body' Hsame Hfits' Hseq'.
    rewrite (post_clientes_run body' _ Hfits' Hseq'). cbn.
    rewrite !existsb_app. cbn. rewrite !orb_false_r.
    destruct Hsame as [E | E]; rewrite E, str_eqb_refl, orb_true_r.
    + eexists; reflexivity.
    + destruct (_ || _); eexists; reflexivity.
Qed.

Lemma created_customer_is_found_witness :
  ServerClientes.get_clientes_id 2
    {| db := {| engine := Runtime.engine;
                clientes := [Sample.ana; Sample.bia];
                acoes := []; alocacoes := [];
                seq_cliente := 3; seq_acao := 1; seq_alocacao := 1 |};
       calls := ["cliente.create"; "cliente.create"] |}
  = (Returned (send 200 (Record_cliente Sample.bia)),
     {| db := {| engine := Runtime.engine;
                 clientes := [Sample.ana; Sample.bia];
                 acoes := []; alocacoes := [];
                 seq_cliente := 3; seq_acao := 1; seq_alocacao := 1 |};
        calls := ["cliente.create"; "cliente.create"; "cliente.findUnique"] |}).
Proof.
  refine (proj1 (created_customer_is_found Runtime.env Runtime.engine
                   [Routes.POST_clientes Sample.ana_json]
                   Sample.bia_body
                   {| db := {| engine := Runtime.engine;
                               clientes := [Sample.ana; Sample.bia];
                               acoes := []; alocacoes := [];
                               seq_cliente := 3; seq_acao := 1;
                               seq_alocacao := 1 |};
                      calls := ["cliente.create"; "cliente.create"] |}
                   Sample.bia eq_refl)).
Defined.

(** X16: POST /acoes with a validated body whose price fits the column
    [Decimal(10, 2)] and whose texts the engine takes.  When a stored asset
    has the name of the body the answer is 409 and names [nome_ativo]; when
    none has it but one has the ticker, the answer is 409 and names
    [codigo_ticker]; in both cases no row is added and the refused insert has
    drawn an id from the sequence.  Otherwise the asset is added with the
    fields of the body, the price rounded to two decimals, and the id that
    the sequence gives, and the answer is 201 with that record.  A price
    that does not fit the column, an infinity among them, is answered with
    500 and no row is added. *)
Theorem create_asset (body : CreateAcaoInput.t) (w : World) :
  let s := db w in
  (forall valor,
   Decimal 10 2 (CreateAcaoInput.valor_atual body) = Some valor ->
   create_acao_fits (engine s) body = true ->
   Int (seq_acao s) = true ->
   ((exists a, In a (acoes s)
               /\ Acao.nome_ativo a = CreateAcaoInput.nome_ativo body) ->
    Server.post_acoes body w
    = (Returned (send 409
         (message "Conflito: Já existe uma ação com este nome_ativo.")),
       {| db := draw_acao s; calls := calls w ++ ["acao.create"] |}))
   /\ ((forall a, In a (acoes s) ->
          Acao.nome_ativo a <> CreateAcaoInput.nome_ativo body) ->
       (exists a, In a (acoes s)
                  /\ Acao.codigo_ticker a = CreateAcaoInput.codigo_ticker body) ->
       Server.post_acoes body w
       = (Returned (send 409
            (message "Conflito: Já existe uma ação com este codigo_ticker.")),
          {| db := draw_acao s; calls := calls w ++ ["acao.create"] |}))
   /\ ((forall a, In a (acoes s) ->
          Acao.nome_ativo a <> CreateAcaoInput.nome_ativo body) ->
       (forall a, In a (acoes s) ->
          Acao.codigo_ticker a <> CreateAcaoInput.codigo_ticker body) ->
       let nova :=
         {| Acao.id := seq_acao s;
            Acao.nome_ativo := CreateAcaoInput.nome_ativo body;
            Acao.codigo_ticker := CreateAcaoInput.codigo_ticker body;
            Acao.valor_atual := valor;
            Acao.tipo_ativo := CreateAcaoInput.tipo_ativo body;
            Acao.descricao := CreateAcaoInput.descricao body |} in
       Server.post_acoes body w
       = (Returned (send 201 (Record_acao nova)),
          {| db := set_acoes (acoes s ++ [nova]) (draw_acao s);
             calls := calls w ++ ["acao.create"] |})))
  /\ (Decimal 10 2 (CreateAcaoInput.valor_atual body) = None ->
      Server.post_acoes body w
      = (Returned (send 500 (message "Erro interno ao criar ação.")),
         {| db := if draws_first (engine s) then draw_acao s else s;
            calls := calls w ++ ["acao.create"] |})).
Proof.
  cbv zeta. unfold Server.post_acoes, prisma.acao.create. split.
  - intros valor Hv Hfits Hseq. run. unfold acao_create.
    rewrite Hv, Hfits, Hseq. cbn [andb]. split; [| split].
    + intros H. apply existsb_str in H. rewrite H. reflexivity.
    + intros Hn Ht. apply existsb_str_false in Hn. apply existsb_str in Ht.
      rewrite Hn, Ht. reflexivity.
    + intros Hn Ht. apply existsb_str_false in Hn, Ht.
      rewrite Hn, Ht. reflexivity.
  - intros Hv. run. unfold acao_create. rewrite Hv. reflexivity.
Qed.

Lemma create_asset_witness :
  Server.post_acoes (Sample.acao_com "Petrobras PN" "PETR3")
    (start Sample.sem_alocacao)
  = (Returned (send 409
       (message "Conflito: Já existe uma ação com este nome_ativo.")),
     {| db := draw_acao Sample.sem_alocacao; calls := ["acao.create"] |})
  /\ Server.post_acoes (Sample.acao_com "Petrobras ON" "PETR4")
       (start Sample.sem_alocacao)
     = (Returned (send 409
          (message "Conflito: Já existe uma ação com este codigo_ticker.")),
        {| db := draw_acao Sample.sem_alocacao; calls := ["acao.create"] |})
  /\ Server.post_acoes (Sample.acao_com "Vale ON" "VALE3")
       (start Sample.sem_alocacao)
     = (Returned (send 201 (Record_acao Sample.vale3)),
        {| db := set_acoes [Sample.petr4; Sample.vale3]
                   (draw_acao Sample.sem_alocacao);
           calls := ["acao.create"] |})
  /\ Server.post_acoes (Sample.acao_por (Finite (100000000 # 1)))
       (start Sample.sem_alocacao)
     = (Returned (send 500 (message "Erro interno ao criar ação.")),
        {| db := Sample.sem_alocacao; calls := ["acao.create"] |}).
Proof.
  split; [| split; [| split]].
  - apply (proj1 (proj1 (create_asset (Sample.acao_com "Petrobras PN" "PETR3")
                           (start Sample.sem_alocacao))
                    (6000 # 100) eq_refl eq_refl eq_refl)).
    exists Sample.petr4. split; [left |]; reflexivity.
  - apply (proj1 (proj2 (proj1 (create_asset
                                  (Sample.acao_com "Petrobras ON" "PETR4")
                                  (start Sample.sem_alocacao))
                           (6000 # 100) eq_refl eq_refl eq_refl))).
    + intros a [<- | []]. discriminate.
    + exists Sample.petr4. split; [left |]; reflexivity.
  - apply (proj2 (proj2 (proj1 (create_asset (Sample.acao_com "Vale ON" "VALE3")
                                  (start Sample.sem_alocacao))
                           (6000 # 100) eq_refl eq_refl eq_refl))).
    + intros a [<- | []]. discriminate.
    + intros a [<- | []]. discriminate.
  - apply (proj2 (create_asset (Sample.acao_por (Finite (100000000 # 1)))
                    (start Sample.sem_alocacao))).
    reflexivity.
Defined.

(** Prices as the column holds them: 0.001 is stored as 0.00, 30.005 as
    30.01; an infinity is not stored. *)
Example prices_are_rounded :
  (exists a, fst (Server.post_acoes (Sample.acao_por (Finite (1 # 1000)))
                    (start Sample.sem_alocacao))
             = Returned (send 201 (Record_acao a))
             /\ Acao.valor_atual a = 0 # 100)
  /\ (exists a, fst (Server.post_acoes (Sample.acao_por (Finite (30005 # 1000)))
                       (start Sample.sem_alocacao))
                = Returned (send 201 (Record_acao a))
                /\ Acao.valor_atual a = 3001 # 100)
  /\ fst (Server.post_acoes (Sample.acao_por PlusInfinity)
            (start Sample.sem_alocacao))
     = Returned (send 500 (message "Erro interno ao criar ação.")).
Proof.
  split; [| split]; [eexists; split; reflexivity .. | reflexivity].
Qed.

Lemma filter_filter_negb {A} (f : A -> bool) l :
  filter f (filter (fun x => negb (f x)) l) = [].
Proof.
  induction l as [| x l IH]; cbn; auto.
  destruct (f x) eqn:E; cbn; auto. rewrite E. exact IH.
Qed.

(** X17: DELETE /clientes/:id with a valid id.  With an id that the [Int]
    column holds: when there is no such customer the answer is 404 and the
    store is as before; otherwise the answer is 200, the customer is removed
    and so are all the allocations that reference it, while the assets and
    the allocations of other customers stay; afterwards no customer has that
    id and GET /clientes/:id/alocacoes answers 200 with the empty list.
    With an id that is larger the answer is 500 and the store is as
    before. *)
Theorem delete_customer (id : Z) (w : World) :
  let s := db w in
  (Int id = true -> find_cliente id s = None ->
   Server.delete_clientes_id id w
   = (Returned (send 404 (message "Cliente não encontrado para deleção.")),
      {| db := s; calls := calls w ++ ["cliente.delete"] |}))
  /\ (forall c, Int id = true -> find_cliente id s = Some c ->
      exists w1,
        Server.delete_clientes_id id w
        = (Returned (send 200 (message "Cliente deletado com sucesso.")), w1)
        /\ calls w1 = calls w ++ ["cliente.delete"]
        /\ (forall o, In o (clientes (db w1))
                      <-> In o (clientes s) /\ Cliente.id o <> id)
        /\ (forall al, In al (alocacoes (db w1))
                       <-> In al (alocacoes s)
                           /\ AlocacaoCliente.clienteId al <> id)
        /\ acoes (db w1) = acoes s
        /\ find_cliente id (db w1) = None
        /\ fst (Server.get_clientes_id_alocacoes id w1)
           = Returned (send 200 (List_alocacoes [])))
  /\ (Int id = false ->
      Server.delete_clientes_id id w
      = (Returned (send 500 (message "Erro interno ao deletar cliente.")),
         {| db := s; calls := calls w ++ ["cliente.delete"] |})).
Proof.
  cbv zeta. unfold Server.delete_clientes_id, prisma.cliente.delete.
  split; [| split].
  - intros Hid Hn. run. unfold cliente_delete. rewrite Hid, Hn. reflexivity.
  - intros c Hid Hc. eexists. split; [| split; [| split; [| split; [| split;
      [| split]]]]].
    + run. unfold cliente_delete. rewrite Hid, Hc. reflexivity.
    + reflexivity.
    + intros o. cbn. rewrite filter_In, negb_true_iff, Z.eqb_neq. reflexivity.
    + intros al. cbn. rewrite filter_In, negb_true_iff, Z.eqb_neq.
      reflexivity.
    + reflexivity.
    + unfold find_cliente. cbn.
      destruct (find _ (filter _ _)) as [o |] eqn:Ef; auto.
      apply find_some in Ef as [Hin Heq]. apply filter_In in Hin as [_ Hne].
      rewrite Heq in Hne. discriminate.
    + unfold Server.get_clientes_id_alocacoes,
        prisma.alocacaoCliente.findMany_clienteId. run.
      unfold alocacao_findMany_cliente. rewrite Hid. cbn.
      rewrite (filter_filter_negb
                 (fun al => AlocacaoCliente.clienteId al =? id)).
      reflexivity.
  - intros Hid. run. unfold cliente_delete. rewrite Hid. reflexivity.
Qed.

Lemma delete_customer_witness :
  Server.delete_clientes_id 7 (start Sample.com_alocacao)
  = (Returned (send 404 (message "Cliente não encontrado para deleção.")),
     {| db := Sample.com_alocacao; calls := ["cliente.delete"] |})
  /\ (exists w1,
       Server.delete_clientes_id 1 (start Sample.com_alocacao)
       = (Returned (send 200 (message "Cliente deletado com sucesso.")), w1)
       /\ calls w1 = ["cliente.delete"]
       /\ (forall o, In o (clientes (db w1))
                     <-> In o (clientes Sample.com_alocacao)
                         /\ Cliente.id o <> 1)
       /\ (forall al, In al (alocacoes (db w1))
                      <-> In al (alocacoes Sample.com_alocacao)
                          /\ AlocacaoCliente.clienteId al <> 1)
       /\ acoes (db w1) = acoes Sample.com_alocacao
       /\ find_cliente 1 (db w1) = None
       /\ fst (Server.get_clientes_id_alocacoes 1 w1)
          = Returned (send 200 (List_alocacoes [])))
  /\ Server.delete_clientes_id 2147483648 (start Sample.com_alocacao)
     = (Returned (send 500 (message "Erro interno ao deletar cliente.")),
        {| db := Sample.com_alocacao; calls := ["cliente.delete"] |}).
Proof.
  split; [| split].
  - apply (proj1 (delete_customer 7 (start Sample.com_alocacao)));
      reflexivity.
  - apply (proj1 (proj2 (delete_customer 1 (start Sample.com_alocacao)))
             Sample.ana); reflexivity.
  - apply (proj2 (proj2 (delete_customer 2147483648
                           (start Sample.com_alocacao)))).
    reflexivity.
Defined.

(** X18: DELETE /alocacoes/:id with a valid id.  With an id that the
    [Int] column holds: when there is no such allocation the answer is 404
    and the store is as before; otherwise the answer is 200 and the
    allocations with that id are removed, nothing else; and when no other
    allocation references its asset, DELETE /acoes/:id for that asset,
    refused before, is then answered with 200.  With an id that is larger
    the answer is 500 and the store is as before. *)
Theorem delete_allocation (id : Z) (w : World) :
  let s := db w in
  (Int id = true -> find_alocacao id s = None ->
   Server.delete_alocacoes_id id w
   = (Returned (send 404 (message "Alocação não encontrada para deleção.")),
      {| db := s; calls := calls w ++ ["alocacaoCliente.delete"] |}))
  /\ (forall al, Int id = true -> find_alocacao id s = Some al ->
      exists w1,
        Server.delete_alocacoes_id id w
        = (Returned (send 200 (message "Alocação deletada com sucesso.")), w1)
        /\ calls w1 = calls w ++ ["alocacaoCliente.delete"]
        /\ (forall o, In o (alocacoes (db w1))
                      <-> In o (alocacoes s) /\ AlocacaoCliente.id o <> id)
        /\ clientes (db w1) = clientes s
        /\ acoes (db w1) = acoes s
        /\ (forall a, Int (AlocacaoCliente.acaoId al) = true ->
            find_acao (AlocacaoCliente.acaoId al) s = Some a ->
            (forall o, In o (alocacoes s) ->
               AlocacaoCliente.acaoId o = AlocacaoCliente.acaoId al ->
               AlocacaoCliente.id o = id) ->
            fst (Server.delete_acoes_id (AlocacaoCliente.acaoId al) w)
            = Returned (send 409
                (message "Não é possível deletar a ação pois ela está alocada a um ou mais clientes."))
            /\ fst (Server.delete_acoes_id (AlocacaoCliente.acaoId al) w1)
               = Returned (send 200 (message "Ação deletada com sucesso."))))
  /\ (Int id = false ->
      Server.delete_alocacoes_id id w
      = (Returned (send 500 (message "Erro interno ao deletar alocação.")),
         {| db := s; calls := calls w ++ ["alocacaoCliente.delete"] |})).
Proof.
  cbv zeta. unfold Server.delete_alocacoes_id, prisma.alocacaoCliente.delete.
  split; [| split].
  - intros Hid Hn. run. unfold alocacao_delete. rewrite Hid, Hn. reflexivity.
  - intros al Hid Hal. eexists.
    split; [| split; [| split; [| split; [| split]]]].
    + run. unfold alocacao_delete. rewrite Hid, Hal. reflexivity.
    + reflexivity.
    + intros o. cbn. rewrite filter_In, negb_true_iff, Z.eqb_neq. reflexivity.
    + reflexivity.
    + reflexivity.
    + intros a Hj Ha Honly.
      unfold Server.delete_acoes_id, prisma.acao.delete. run.
      unfold acao_delete, find_acao in *. cbn. rewrite Hj, Ha.
      apply find_alocacao_some in Hal as [Hin Hid'].
      rewrite (ref_existsb _ _ al Hin eq_refl).
      rewrite no_ref_existsb; [split; reflexivity |].
      intros o Ho E. apply filter_In in Ho as [Ho Hne].
      apply negb_true_iff, Z.eqb_neq in Hne. apply Hne. apply Honly; auto.
  - intros Hid. run. unfold alocacao_delete. rewrite Hid. reflexivity.
Qed.

Lemma delete_allocation_witness :
  Server.delete_alocacoes_id 9 (start Sample.com_alocacao)
  = (Returned (send 404 (message "Alocação não encontrada para deleção.")),
     {| db := Sample.com_alocacao; calls := ["alocacaoCliente.delete"] |})
  /\ fst (Server.delete_acoes_id 1
            {| db := Sample.sem_alocacao_2;
               calls := ["alocacaoCliente.delete"] |})
     = Returned (send 200 (message "Ação deletada com sucesso."))
  /\ Server.delete_alocacoes_id 2147483648 (start Sample.com_alocacao)
     = (Returned (send 500 (message "Erro interno ao deletar alocação.")),
        {| db := Sample.com_alocacao; calls := ["alocacaoCliente.delete"] |}).
Proof.
  split; [| split].
  - apply (proj1 (delete_allocation 9 (start Sample.com_alocacao)));
      reflexivity.
  - destruct (proj1 (proj2 (delete_allocation 1 (start Sample.com_alocacao)))
                Sample.carteira eq_refl eq_refl)
      as (w1 & Hrun & _ & _ & _ & _ & Hfree).
    injection Hrun as <-.
    apply (Hfree Sample.petr4 eq_refl eq_refl).
    intros o [<- | []] _. reflexivity.
  - apply (proj2 (proj2 (delete_allocation 2147483648
                           (start Sample.com_alocacao)))).
    reflexivity.
Defined.

Lemma existsb_other {A} (id : A -> Z) (f : A -> JsString) i x l :
  existsb (fun o => negb (id o =? i) && str_eqb (f o) x) l = true
  <-> exists o, In o l /\ id o <> i /\ f o = x.
Proof.
  rewrite existsb_exists. split; intros (o & Ho & E); exists o.
  - apply andb_true_iff in E as [E1 E2].
    apply negb_true_iff, Z.eqb_neq in E1. apply str_eqb_eq in E2. auto.
  - destruct E as [E1 E2]. split; auto. apply andb_true_iff. split.
    + apply negb_true_iff, Z.eqb_neq. exact E1.
    + apply str_eqb_eq. exact E2.
Qed.

Lemma existsb_other_false {A} (id : A -> Z) (f : A -> JsString) i x l :
  (forall o, In o l -> id o <> i -> f o <> x) ->
  existsb (fun o => negb (id o =? i) && str_eqb (f o) x) l = false.
Proof.
  intros H. destruct (existsb _ l) eqn:E; auto.
  apply existsb_other in E as (o & Ho & Hne & E).
  exfalso. apply (H o Ho Hne E).
Qed.

(** What an update makes of a customer: the fields that the body supplies
    are replaced, a date of birth by its day; the others and the id are
    kept. *)
Lemma cliente_patch_fields body c :
  Cliente.id (cliente_patch body c) = Cliente.id c
  /\ (forall t, UpdateClienteInput.nome_completo body = Some t ->
                Cliente.nome_completo (cliente_patch body c) = t)
  /\ (forall t, UpdateClienteInput.cpf_cnpj body = Some t ->
                Cliente.cpf_cnpj (cliente_patch body c) = t)
  /\ (forall t, UpdateClienteInput.telefone body = Some t ->
                Cliente.telefone (cliente_patch body c) = t)
  /\ (forall d, UpdateClienteInput.data_nascimento body = Some d ->
                Cliente.data_nascimento (cliente_patch body c) = day d)
  /\ (forall t, UpdateClienteInput.email body = Some t ->
                Cliente.email (cliente_patch body c) = t)
  /\ (UpdateClienteInput.nome_completo body = None ->
      Cliente.nome_completo (cliente_patch body c) = Cliente.nome_completo c)
  /\ (UpdateClienteInput.cpf_cnpj body = None ->
      Cliente.cpf_cnpj (cliente_patch body c) = Cliente.cpf_cnpj c)
  /\ (UpdateClienteInput.telefone body = None ->
      Cliente.telefone (cliente_patch body c) = Cliente.telefone c)
  /\ (UpdateClienteInput.data_nascimento body = None ->
      Cliente.data_nascimento (cliente_patch body c)
      = Cliente.data_nascimento c)
  /\ (UpdateClienteInput.email body = None ->
      Cliente.email (cliente_patch body c) = Cliente.email c).
Proof.
  unfold cliente_patch, or_else. cbn.
  repeat split; try (intros t ->; reflexivity); intros ->; reflexivity.
Qed.

(** X19: PUT /clientes/:id of the full route set, with a valid id and a
    validated body.  With an id that the [Int] column holds and values that
    the engine takes: when there is no such customer the answer is 404; when
    another customer has the tax identifier that the update would give, the
    answer is 409 and names [cpf_cnpj]; in both cases the store is as before.
    When no other customer has the resulting tax identifier or e-mail
    address, the answer is 200 with the updated record, in which the fields
    of the body replace the stored ones, a date of birth without its time of
    day, and no other customer, asset or allocation changes.  With an id
    that is larger the answer is 500 and the store is as before. *)
Theorem update_customer (id : Z) (body : UpdateClienteInput.t) (w : World) :
  let s := db w in
  (Int id = true -> update_cliente_fits (engine s) body = true ->
   (find_cliente id s = None ->
    Server.put_clientes_id id body w
    = (Returned (send 404 (message "Cliente não encontrado para atualização.")),
       {| db := s; calls := calls w ++ ["cliente.update"] |}))
   /\ (forall c o, find_cliente id s = Some c ->
       In o (clientes s) -> Cliente.id o <> id ->
       Cliente.cpf_cnpj o = Cliente.cpf_cnpj (cliente_patch body c) ->
       Server.put_clientes_id id body w
       = (Returned (send 409
            (message "Conflito: Já existe um cliente com este cpf_cnpj.")),
          {| db := s; calls := calls w ++ ["cliente.update"] |}))
   /\ (forall c, find_cliente id s = Some c ->
       (forall o, In o (clientes s) -> Cliente.id o <> id ->
          Cliente.cpf_cnpj o <> Cliente.cpf_cnpj (cliente_patch body c)) ->
       (forall o, In o (clientes s) -> Cliente.id o <> id ->
          Cliente.email o <> Cliente.email (cliente_patch body c)) ->
       exists w1,
         Server.put_clientes_id id body w
         = (Returned (send 200 (Record_cliente (cliente_patch body c))), w1)
         /\ calls w1 = calls w ++ ["cliente.update"]
         /\ Forall2 (fun old new =>
                       Cliente.id new = Cliente.id old
                       /\ (Cliente.id old <> id -> new = old)
                       /\ (Cliente.id old = id -> new = cliente_patch body old))
                    (clientes s) (clientes (db w1))
         /\ acoes (db w1) = acoes s
         /\ alocacoes (db w1) = alocacoes s
         /\ (forall d, UpdateClienteInput.data_nascimento body = Some d ->
             Cliente.data_nascimento (cliente_patch body c) = day d)))
  /\ (Int id = false ->
      Server.put_clientes_id id body w
      = (Returned (send 500 (message "Erro interno ao atualizar cliente.")),
         {| db := s; calls := calls w ++ ["cliente.update"] |})).
Proof.
  cbv zeta. unfold Server.put_clientes_id, prisma.cliente.update.
  split; [intros Hid Hfits; split; [| split] |].
  - intros Hn. run. unfold cliente_update. rewrite Hid, Hfits, Hn. reflexivity.
  - intros c o Hc Ho Hne E. run. unfold cliente_update.
    rewrite Hid, Hfits, Hc. cbn [andb].
    assert (Hx : existsb (fun o => negb (Cliente.id o =? id)
                            && str_eqb (Cliente.cpf_cnpj o)
                                 (Cliente.cpf_cnpj (cliente_patch body c)))
                         (clientes (db w)) = true)
      by (apply existsb_other; eauto).
    rewrite Hx. reflexivity.
  - intros c Hc Hcpf Hemail. eexists.
    split; [| split; [| split; [| split; [| split]]]].
    + run. unfold cliente_update. rewrite Hid, Hfits, Hc. cbn [andb].
      rewrite (existsb_other_false Cliente.id Cliente.cpf_cnpj _ _ _ Hcpf).
      rewrite (existsb_other_false Cliente.id Cliente.email _ _ _ Hemail).
      reflexivity.
    + reflexivity.
    + cbn. apply Forall2_map_self. intros x Hx.
      destruct (Cliente.id x =? id) eqn:Ex.
      * apply Z.eqb_eq in Ex.
        split; [reflexivity | split; intros H; [congruence | reflexivity]].
      * apply Z.eqb_neq in Ex.
        split; [reflexivity | split; intros H; [reflexivity | congruence]].
    + reflexivity.
    + reflexivity.
    + apply cliente_patch_fields.
  - intros Hid. run. unfold cliente_update. rewrite Hid. reflexivity.
Qed.

Lemma update_customer_witness :
  Server.put_clientes_id 7 Sample.novo_telefone (start Sample.duas_acoes)
  = (Returned (send 404 (message "Cliente não encontrado para atualização.")),
     {| db := Sample.duas_acoes; calls := ["cliente.update"] |})
  /\ Server.put_clientes_id 1 Sample.cpf_da_bia (start Sample.duas_acoes)
     = (Returned (send 409
          (message "Conflito: Já existe um cliente com este cpf_cnpj.")),
        {| db := Sample.duas_acoes; calls := ["cliente.update"] |})
  /\ (exists w1,
       Server.put_clientes_id 1 Sample.novo_telefone (start Sample.duas_acoes)
       = (Returned (send 200
            (Record_cliente (cliente_patch Sample.novo_telefone Sample.ana))),
          w1)
       /\ calls w1 = ["cliente.update"]
       /\ Forall2 (fun old new =>
                     Cliente.id new = Cliente.id old
                     /\ (Cliente.id old <> 1 -> new = old)
                     /\ (Cliente.id old = 1
                         -> new = cliente_patch Sample.novo_telefone old))
                  (clientes Sample.duas_acoes) (clientes (db w1))
       /\ acoes (db w1) = acoes Sample.duas_acoes
       /\ alocacoes (db w1) = alocacoes Sample.duas_acoes
       /\ (forall d,
           UpdateClienteInput.data_nascimento Sample.novo_telefone = Some d ->
           Cliente.data_nascimento
             (cliente_patch Sample.novo_telefone Sample.ana) = day d))
  /\ Server.put_clientes_id 2147483648 Sample.novo_telefone
       (start Sample.duas_acoes)
     = (Returned (send 500 (message "Erro interno ao atualizar cliente.")),
        {| db := Sample.duas_acoes; calls := ["cliente.update"] |}).
Proof.
  split; [| split; [| split]].
  - apply (proj1 (proj1 (update_customer 7 Sample.novo_telefone
                           (start Sample.duas_acoes)) eq_refl eq_refl)).
    reflexivity.
  - apply (proj1 (proj2 (proj1 (update_customer 1 Sample.cpf_da_bia
                                  (start Sample.duas_acoes))
                           eq_refl eq_refl))
             Sample.ana Sample.bia); try reflexivity.
    + right. left. reflexivity.
    + discriminate.
  - apply (proj2 (proj2 (proj1 (update_customer 1 Sample.novo_telefone
                                  (start Sample.duas_acoes))
                           eq_refl eq_refl))
             Sample.ana); try reflexivity.
    + intros o [<- | [<- | []]] Hne;
        [exfalso; apply Hne; reflexivity | cbn; discriminate].
    + intros o [<- | [<- | []]] Hne;
        [exfalso; apply Hne; reflexivity | cbn; discriminate].
  - apply (proj2 (update_customer 2147483648 Sample.novo_telefone
                    (start Sample.duas_acoes))).
    reflexivity.
Defined.

Lemma join_acao_snoc s l rows al a :
  join_acao s l = Some rows ->
  find_acao (AlocacaoCliente.acaoId al) s = Some a ->
  join_acao s (l ++ [al]) = Some (rows ++ [(al, resumo a)]).
Proof.
  revert rows. induction l as [| x l IH]; intros rows Hj Ha; cbn in *.
  - injection Hj as <-. rewrite Ha. reflexivity.
  - destruct (find_acao (AlocacaoCliente.acaoId x) s); [| discriminate].
    destruct (join_acao s l) as [r |]; [| discriminate].
    injection Hj as <-. rewrite (IH r eq_refl Ha). reflexivity.
Qed.

Lemma join_acao_same_acoes s s' l :
  acoes s' = acoes s -> join_acao s' l = join_acao s l.
Proof.
  intros E. induction l as [| x l IH]; cbn; auto.
  unfold find_acao in *. rewrite E, IH. reflexivity.
Qed.

(** What a 201 of POST /clientes/:id/alocacoes means. *)
Lemma post_alocacoes_created k body w w1 al a :
  Server.post_clientes_id_alocacoes k body w
  = (Returned (send 201 (Record_alocacao al a)), w1) ->
  Int k = true
  /\ Int (CreateAlocacaoInput.acaoId body) = true
  /\ (exists c, find_cliente k (db w) = Some c)
  /\ find_acao (CreateAlocacaoInput.acaoId body) (db w) = Some a
  /\ AlocacaoCliente.clienteId al = k
  /\ AlocacaoCliente.acaoId al = CreateAlocacaoInput.acaoId body
  /\ engine (db w1) = engine (db w)
  /\ clientes (db w1) = clientes (db w)
  /\ acoes (db w1) = acoes (db w)
  /\ alocacoes (db w1) = alocacoes (db w) ++ [al]
  /\ (exists q v d,
        Decimal 18 4 (CreateAlocacaoInput.quantidade body) = Some q
        /\ Decimal 12 2 (CreateAlocacaoInput.valor_medio_aquisicao body)
           = Some v
        /\ DbDate (engine (db w)) (CreateAlocacaoInput.data_ultima_compra body)
           = Some d).
Proof.
  unfold Server.post_clientes_id_alocacoes, prisma.cliente.findUnique_id,
    prisma.acao.findUnique_id, prisma.alocacaoCliente.create,
    cliente_findUnique_id, acao_findUnique_id. run.
  destruct (Int k) eqn:Hk; cbn; [| discriminate].
  destruct (find_cliente k (db w)) as [c |] eqn:Ec; cbn; [| discriminate].
  destruct (Int (CreateAlocacaoInput.acaoId body)) eqn:Hj; cbn;
    [| discriminate].
  destruct (find_acao _ (db w)) as [a0 |] eqn:Ea; cbn; [| discriminate].
  unfold alocacao_create, refused_insert. rewrite Hk, Hj, Ec, Ea. cbn [andb].
  destruct (Decimal 18 4 _) as [q |] eqn:Eq; cbn; [| discriminate].
  destruct (Decimal 12 2 _) as [v |] eqn:Ev; cbn; [| discriminate].
  destruct (DbDate _ _) as [d |] eqn:Ed; cbn; [| discriminate].
  case_if Es; cbn; [| discriminate].
  case_if Ex; cbn; [discriminate |].
  intros H. injection H as <- <- <-. cbn. repeat split; eauto.
  repeat eexists.
Qed.

(** X20: after the full route set has answered any requests since the
    store was empty, let POST /clientes/:id/alocacoes be answered with 201,
    an allocation and its asset.  Then the customer's list is what it was
    with one more row, the new allocation with the id, name, ticker and
    price of its asset; the same request again is answered with 409; and
    DELETE /acoes/:id for that asset is answered with 409. *)
Theorem allocation_is_listed env e (rs : list Routes.Request) (k : Z)
    (body : CreateAlocacaoInput.t) (w1 : World) (al : AlocacaoCliente.t)
    (a : Acao.t) :
  let w := serve env rs (start (empty e)) in
  Server.post_clientes_id_alocacoes k body w
  = (Returned (send 201 (Record_alocacao al a)), w1) ->
  (exists rows rows1,
     fst (Server.get_clientes_id_alocacoes k w)
     = Returned (send 200 (List_alocacoes rows))
     /\ fst (Server.get_clientes_id_alocacoes k w1)
        = Returned (send 200 (List_alocacoes rows1))
     /\ Permutation rows1 ((al, resumo a) :: rows))
  /\ (Int (seq_alocacao (db w1)) = true ->
      fst (Server.post_clientes_id_alocacoes k body w1)
      = Returned (send 409
          (message "Este cliente já possui uma alocação para esta ação.")))
  /\ fst (Server.delete_acoes_id (CreateAlocacaoInput.acaoId body) w1)
     = Returned (send 409
         (message "Não é possível deletar a ação pois ela está alocada a um ou mais clientes.")).
Proof.
  intros w Hrun.
  assert (Hi : integrity (db w) = true)
    by (apply serve_integrity; reflexivity).
  apply post_alocacoes_created in Hrun
    as (Hk & Hj & (c & Hc) & Ha & Ek & Eacao & Ee & Ecs & Eas & Eals
        & (q & v & d & Eq & Ev & Ed)).
  destruct (ListingFacts.findMany_rows k (db w) Hi) as (rows & Ej & _ & _).
  split; [| split].
  - exists rows, (rows ++ [(al, resumo a)]).
    unfold Server.get_clientes_id_alocacoes,
      prisma.alocacaoCliente.findMany_clienteId. run.
    unfold alocacao_findMany_cliente. rewrite Hk, Ej. cbn.
    split; [reflexivity | split].
    + rewrite Eals, filter_app. cbn. rewrite Ek, Z.eqb_refl.
      rewrite (join_acao_same_acoes (db w) (db w1) _ Eas).
      rewrite (join_acao_snoc _ _ rows al a Ej); [reflexivity |].
      rewrite Eacao. exact Ha.
    + apply Permutation_sym, Permutation_cons_append.
  - intros Hseq.
    unfold Server.post_clientes_id_alocacoes, prisma.cliente.findUnique_id,
      prisma.acao.findUnique_id, prisma.alocacaoCliente.create,
      cliente_findUnique_id, acao_findUnique_id. run.
    rewrite Hk. cbn.
    unfold find_cliente, find_acao in *. rewrite Ecs, Hc. cbn.
    rewrite Hj. cbn. rewrite Eas, Ha. cbn.
    unfold alocacao_create. rewrite Eq, Ev, Ee, Ed, Hk, Hj, Hseq. cbn [andb].
    rewrite Eals, existsb_app. cbn.
    rewrite Ek, Eacao, !Z.eqb_refl. cbn. rewrite orb_true_r. reflexivity.
  - unfold Server.delete_acoes_id, prisma.acao.delete. run.
    unfold acao_delete, find_acao in *.
    rewrite Hj, Eas, Ha, Eals, existsb_app.
    cbn. rewrite Eacao, Z.eqb_refl. cbn. rewrite orb_true_r. reflexivity.
Qed.

Lemma allocation_is_listed_witness :
  (exists rows rows1,
     fst (Server.get_clientes_id_alocacoes 1
            (serve Runtime.env
               [Routes.POST_clientes Sample.ana_json;
                Routes.POST_acoes Sample.petr4_json]
               (start (empty Runtime.engine))))
     = Returned (send 200 (List_alocacoes rows))
     /\ fst (Server.get_clientes_id_alocacoes 1
               {| db := Sample.com_alocacao;
                  calls := ["cliente.create"; "acao.create";
                            "cliente.findUnique"; "acao.findUnique";
                            "alocacaoCliente.create"] |})
        = Returned (send 200 (List_alocacoes rows1))
     /\ Permutation rows1 ((Sample.carteira, resumo Sample.petr4) :: rows))
  /\ (Int (seq_alocacao Sample.com_alocacao) = true ->
      fst (Server.post_clientes_id_alocacoes 1 Sample.compra
             {| db := Sample.com_alocacao;
                calls := ["cliente.create"; "acao.create";
                          "cliente.findUnique"; "acao.findUnique";
                          "alocacaoCliente.create"] |})
      = Returned (send 409
          (message "Este cliente já possui uma alocação para esta ação.")))
  /\ fst (Server.delete_acoes_id 1
            {| db := Sample.com_alocacao;
               calls := ["cliente.create"; "acao.create";
                         "cliente.findUnique"; "acao.findUnique";
                         "alocacaoCliente.create"] |})
     = Returned (send 409
         (message "Não é possível deletar a ação pois ela está alocada a um ou mais clientes.")).
Proof.
  apply (allocation_is_listed Runtime.env Runtime.engine
           [Routes.POST_clientes Sample.ana_json;
            Routes.POST_acoes Sample.petr4_json]
           1 Sample.compra
           {| db := Sample.com_alocacao;
              calls := ["cliente.create"; "acao.create";
                        "cliente.findUnique"; "acao.findUnique";
                        "alocacaoCliente.create"] |}
           Sample.carteira Sample.petr4).
  reflexivity.
Defined.

(** X22: in the customer-only revision, PUT /clientes/:id with a valid
    id and an object that has none of the five customer keys is answered
    with 400 and no persistence call, whatever other keys the object has:
    the schema drops them and the guard sees a body with no key. *)
Theorem unknown_keys_are_dropped env params (id : Z) (o : JsObject) (w : World) :
  Schemas.clienteIdParamSchema_clientes env params = Zod.Valid id ->
  get "nome_completo" o = JUndefined ->
  get "cpf_cnpj" o = JUndefined ->
  get "telefone" o = JUndefined ->
  get "data_nascimento" o = JUndefined ->
  get "email" o = JUndefined ->
  Schemas.updateClienteSchema_clientes env (JObj o) = Zod.Valid no_cliente_data
  /\ ServerClientes.route env (ServerClientes.PUT_clientes_id params (JObj o)) w
     = (Returned (send 400 (message "Nenhum dado fornecido para atualização.")),
        w).
Proof.
  intros Hid H1 H2 H3 H4 H5.
  assert (Hs : Schemas.updateClienteSchema_clientes env (JObj o)
               = Zod.Valid no_cliente_data).
  { unfold Schemas.updateClienteSchema_clientes, Zod.object_,
      Schemas.update_cpf_cnpj_clientes.
    rewrite H1, H2, H3, H4, H5. reflexivity. }
  split; [exact Hs |].
  cbn [ServerClientes.route]. unfold validate. rewrite Hid, Hs.
  apply guarded_empty_update. reflexivity.
Qed.

Lemma unknown_keys_are_dropped_witness :
  Schemas.updateClienteSchema_clientes Runtime.env
    (JObj Sample.so_outras_chaves)
  = Zod.Valid no_cliente_data
  /\ ServerClientes.route Runtime.env
       (ServerClientes.PUT_clientes_id Sample.id_1
          (JObj Sample.so_outras_chaves))
       (start Sample.com_alocacao)
     = (Returned (send 400 (message "Nenhum dado fornecido para atualização.")),
        start Sample.com_alocacao).
Proof.
  apply (unknown_keys_are_dropped Runtime.env Sample.id_1 1
           Sample.so_outras_chaves (start Sample.com_alocacao));
    reflexivity.
Defined.

Lemma put_acoes_updated id d w w1 a' :
  Server.put_acoes_id id d w = (Returned (send 200 (Record_acao a')), w1) ->
  exists a valor, find_acao id (db w) = Some a /\ a' = acao_patch d valor a.
Proof.
  unfold Server.put_acoes_id, prisma.acao.update. run.
  unfold acao_update, refused.
  destruct (optionally _ _) as [valor |]; cbn; [| discriminate].
  case_if E0; cbn; [| discriminate].
  destruct (find_acao id (db w)) as [a |]; cbn; [| discriminate].
  case_if E1; cbn; [discriminate |].
  case_if E2; cbn; [discriminate |].
  intros H. injection H as <- <-. eauto.
Qed.

(** X23: PUT /acoes/:id with a validated body, answered with 200 and a
    record.  When the [descricao] of the body is [null] the record has no
    description; when it is a string the record has that description; when
    the body has no [descricao] the record keeps the description that was
    stored.  In each case the id is the one asked for. *)
Theorem description_on_update env (id : Z) (o : JsObject)
    (d : UpdateAcaoInput.t) (w w1 : World) (a' : Acao.t) :
  Schemas.updateAcaoSchema env (JObj o) = Zod.Valid d ->
  Server.put_acoes_id id d w = (Returned (send 200 (Record_acao a')), w1) ->
  Acao.id a' = id
  /\ (get "descricao" o = JNull -> Acao.descricao a' = None)
  /\ (forall t, get "descricao" o = JStr t -> Acao.descricao a' = Some t)
  /\ (get "descricao" o = JUndefined ->
      exists a, find_acao id (db w) = Some a
                /\ Acao.descricao a' = Acao.descricao a).
Proof.
  intros Hv Hrun.
  apply FieldFacts.updateAcaoSchema_fields in Hv as (_ & _ & _ & _ & Hd).
  apply FieldFacts.update_descricao_accepts in Hd.
  apply put_acoes_updated in Hrun as (a & valor & Ha & ->).
  pose proof (find_acao_some _ _ _ Ha) as [_ Hid].
  unfold acao_patch, or_else. cbn.
  split; [exact Hid | split; [| split]].
  - intros E. rewrite E in Hd.
    destruct Hd as [[H _] | [[_ ->] | (t & H & _)]];
      [discriminate | reflexivity | discriminate].
  - intros t E. rewrite E in Hd.
    destruct Hd as [[H _] | [[H _] | (t' & H & ->)]]; try discriminate.
    injection H as ->. reflexivity.
  - intros E. rewrite E in Hd. exists a. split; auto.
    destruct Hd as [[_ ->] | [[H _] | (t & H & _)]];
      [reflexivity | discriminate ..].
Qed.

Lemma description_on_update_witness :
  Acao.id Sample.vale3_sem_descricao = 2
  /\ (get "descricao" Sample.limpa_descricao = JNull ->
      Acao.descricao Sample.vale3_sem_descricao = None)
  /\ (forall t, get "descricao" Sample.limpa_descricao = JStr t ->
                Acao.descricao Sample.vale3_sem_descricao = Some t)
  /\ (get "descricao" Sample.limpa_descricao = JUndefined ->
      exists a, find_acao 2 (db (start Sample.duas_acoes)) = Some a
                /\ Acao.descricao Sample.vale3_sem_descricao
                   = Acao.descricao a).
Proof.
  apply (description_on_update Runtime.env 2 Sample.limpa_descricao
           Sample.sem_descricao (start Sample.duas_acoes)
           {| db := set_acoes [Sample.petr4; Sample.vale3_sem_descricao]
                      Sample.duas_acoes;
              calls := ["acao.update"] |}
           Sample.vale3_sem_descricao); reflexivity.
Defined.

(** *** The two revisions of the server, side by side *)

Lemma id_schemas_agree env m1 m2 v :
  match Schemas.idParamSchema env m1 v, Schemas.idParamSchema env m2 v with
  | Zod.Valid i, Zod.Valid j => i = j
  | Zod.Invalid _, Zod.Invalid _ => True
  | _, _ => False
  end.
Proof.
  unfold Schemas.idParamSchema, Zod.object_, Zod.coerce_number.
  destruct v; auto.
  destruct (Zod.Number env (get "id" fields)) as [q | | |]; auto;
    unfold Zod.run_checks; cbn; auto.
  repeat (branch; cbn); auto.
Qed.

Lemma update_schemas_agree env v :
  match Schemas.updateClienteSchema_clientes env v,
        Schemas.updateClienteSchema env v with
  | Zod.Valid d, Zod.Valid d' => d = d'
  | Zod.Invalid _, Zod.Invalid _ => True
  | _, _ => False
  end.
Proof.
  destruct (Schemas.updateClienteSchema_clientes env v) as [d |] eqn:E1;
    destruct (Schemas.updateClienteSchema env v) as [d' |] eqn:E2; auto.
  - destruct (FieldFacts.object_only _ _ _ E1) as [o ->].
    apply FieldFacts.update_cliente_fields_spec_clientes in E1.
    apply FieldFacts.update_cliente_fields_spec in E1. congruence.
  - destruct (FieldFacts.object_only _ _ _ E1) as [o ->].
    apply FieldFacts.update_cliente_fields_spec_clientes in E1.
    apply FieldFacts.update_cliente_fields_spec in E1. congruence.
  - destruct (FieldFacts.object_only _ _ _ E2) as [o ->].
    apply FieldFacts.update_cliente_fields_spec in E2.
    apply FieldFacts.update_cliente_fields_spec_clientes in E2. congruence.
Qed.

(** X24: the customer-only revision and the full route set treat a
    customer request alike where both register the route, unless it is an
    update whose validated body has no key: the answers have the same
    status, and the same store and the same persistence calls result.  (The
    bodies may differ: the messages of an invalid id, and [fields] in a
    409.)  GET /clientes/:id is a route of the customer-only revision
    alone. *)
Theorem revisions_agree env (r : ServerClientes.Request) (r' : Routes.Request)
    (w : World) :
  as_full r = Some r' ->
  is_empty_update env r = false ->
  status_of (fst (ServerClientes.route env r w))
  = status_of (fst (Routes.route env r' w))
  /\ snd (ServerClientes.route env r w) = snd (Routes.route env r' w).
Proof.
  destruct r as [body | | params | params body | params];
    cbn [as_full]; intros Hr; try discriminate; injection Hr as <-;
    cbn [ServerClientes.route Routes.route is_empty_update];
    unfold validate, Schemas.clienteIdParamSchema_clientes,
      Schemas.clienteIdParamSchema; intros Hne.
  - destruct (Schemas.createClienteSchema env body); [| split; reflexivity].
    paths; split; reflexivity.
  - paths. split; reflexivity.
  - pose proof (id_schemas_agree env
                  "ID deve ser um número inteiro positivo."
                  "ID do cliente deve ser um número inteiro positivo." params)
      as Hid.
    unfold Schemas.clienteIdParamSchema_clientes in Hne.
    destruct (Schemas.idParamSchema env _ params) as [i |];
      destruct (Schemas.idParamSchema env _ params) as [j |];
      try contradiction; [subst j | split; reflexivity].
    pose proof (update_schemas_agree env body) as Hup.
    destruct (Schemas.updateClienteSchema_clientes env body) as [d |];
      destruct (Schemas.updateClienteSchema env body) as [d' |];
      try contradiction; [subst d' | split; reflexivity].
    unfold_handlers; run. rewrite Hne.
    repeat (first [outcome | branch]; cbn); split; reflexivity.
  - pose proof (id_schemas_agree env
                  "ID deve ser um número inteiro positivo."
                  "ID do cliente deve ser um número inteiro positivo." params)
      as Hid.
    destruct (Schemas.idParamSchema env _ params) as [i |];
      destruct (Schemas.idParamSchema env _ params) as [j |];
      try contradiction; [subst j | split; reflexivity].
    paths; split; reflexivity.
Qed.

Lemma revisions_agree_witness :
  status_of (fst (ServerClientes.route Runtime.env
                    (ServerClientes.POST_clientes Sample.outra_ana)
                    (start Sample.com_alocacao)))
  = status_of (fst (Routes.route Runtime.env
                      (Routes.POST_clientes Sample.outra_ana)
                      (start Sample.com_alocacao)))
  /\ snd (ServerClientes.route Runtime.env
            (ServerClientes.POST_clientes Sample.outra_ana)
            (start Sample.com_alocacao))
     = snd (Routes.route Runtime.env
              (Routes.POST_clientes Sample.outra_ana)
              (start Sample.com_alocacao)).
Proof.
  apply (revisions_agree Runtime.env
           (ServerClientes.POST_clientes Sample.outra_ana)
           (Routes.POST_clientes Sample.outra_ana)
           (start Sample.com_alocacao)); reflexivity.
Defined.

(** X25: after the full route set has answered any requests since the
    store was empty, let POST /acoes be answered with 201 and a record.
    Then GET /acoes/:id with the id of the record answers 200 with that
    record, GET /acoes lists it with the assets that were stored, and
    DELETE /acoes/:id for it is answered with 200: no allocation can
    reference an asset that has just been created. *)
Theorem created_asset_is_found env e (rs : list Routes.Request)
    (body : CreateAcaoInput.t) (w1 : World) (a : Acao.t) :
  let w := serve env rs (start (empty e)) in
  Server.post_acoes body w = (Returned (send 201 (Record_acao a)), w1) ->
  fst (Server.get_acoes_id (Acao.id a) w1) = Returned (send 200 (Record_acao a))
  /\ (exists l, fst (Server.get_acoes w1) = Returned (send 200 (List_acoes l))
                /\ Permutation l (a :: acoes (db w)))
  /\ fst (Server.delete_acoes_id (Acao.id a) w1)
     = Returned (send 200 (message "Ação deletada com sucesso.")).
Proof.
  intros w.
  assert (Hi : integrity (db w) = true)
    by (apply serve_integrity; reflexivity).
  assert (Hb : ids_below (db w))
    by (apply InvariantFacts.serve_ids, InvariantFacts.ids_empty).
  destruct Hb as (_ & Hids & _).
  pose proof (proj1 (integrity_spec (db w)) Hi) as Hs.
  unfold Server.post_acoes, prisma.acao.create. run.
  unfold acao_create, refused_insert.
  destruct (Decimal 10 2 _) as [valor |]; cbn; [| discriminate].
  destruct (create_acao_fits _ _); cbn; [| discriminate].
  destruct (Int (seq_acao (db w))) eqn:Hseq; cbn; [| discriminate].
  case_if E1; cbn; [discriminate |].
  case_if E2; cbn; [discriminate |].
  intros Hrun. injection Hrun as <- <-.
  assert (Hfresh : forall x, In x (acoes (db w)) ->
                             (Acao.id x =? seq_acao (db w)) = false).
  { intros x Hx. apply Z.eqb_neq. rewrite Forall_forall in Hids.
    specialize (Hids x Hx). lia. }
  split; [| split].
  - unfold Server.get_acoes_id, prisma.acao.findUnique_id. run.
    unfold acao_findUnique_id. cbn. rewrite Hseq. cbn.
    unfold find_acao. cbn. rewrite find_snoc by exact Hfresh.
    cbn. rewrite Z.eqb_refl. reflexivity.
  - eexists. unfold Server.get_acoes, prisma.acao.findMany. run.
    split; [reflexivity |]. cbn.
    apply Permutation_sym, Permutation_cons_append.
  - unfold Server.delete_acoes_id, prisma.acao.delete. run.
    unfold acao_delete, find_acao. cbn. rewrite Hseq.
    rewrite find_snoc by exact Hfresh. cbn. rewrite Z.eqb_refl.
    rewrite no_ref_existsb; [reflexivity |].
    intros al Hal E. destruct (Hs al Hal) as [_ (x & Hx & Ex)].
    specialize (Hfresh x Hx). apply Z.eqb_neq in Hfresh. congruence.
Qed.

Lemma created_asset_is_found_witness :
  fst (Server.get_acoes_id 1
         {| db := Sample.sem_alocacao;
            calls := ["cliente.create"; "acao.create"] |})
  = Returned (send 200 (Record_acao Sample.petr4))
  /\ (exists l,
        fst (Server.get_acoes
               {| db := Sample.sem_alocacao;
                  calls := ["cliente.create"; "acao.create"] |})
        = Returned (send 200 (List_acoes l))
        /\ Permutation l
             (Sample.petr4
              :: acoes (db (serve Runtime.env
                              [Routes.POST_clientes Sample.ana_json]
                              (start (empty Runtime.engine))))))
  /\ fst (Server.delete_acoes_id 1
            {| db := Sample.sem_alocacao;
               calls := ["cliente.create"; "acao.create"] |})
     = Returned (send 200 (message "Ação deletada com sucesso.")).
Proof.
  apply (created_asset_is_found Runtime.env Runtime.engine
           [Routes.POST_clientes Sample.ana_json]
           Sample.petr4_body
           {| db := Sample.sem_alocacao;
              calls := ["cliente.create"; "acao.create"] |}
           Sample.petr4).
  reflexivity.
Defined.

(** *** No constraint of the data model is left unclassified *)

(** Using what is known of the tests of a call, then splitting on the
    others. *)
Ltac known_tests :=
  repeat match goal with
         | H : _ /\ _ |- _ => destruct H
         | H : ?b = true |- context [?b] => rewrite H; cbn [andb]
         | H : ?x <> None |- context [?x] =>
             let E := fresh "E" in
             destruct x eqn:E; [clear H | exfalso; apply H; reflexivity]
         end.

Ltac classified := cbn; cases; cbn; discriminate.

Lemma post_clientes_classified body w :
  create_cliente_fits (engine (db w)) body = true ->
  Int (seq_cliente (db w)) = true ->
  status_of (fst (Server.post_clientes body w)) <> Some 500.
Proof.
  intros Hfits Hseq. rewrite (post_clientes_run _ _ Hfits Hseq). classified.
Qed.

Lemma get_clientes_buscar_classified d w :
  opt (holds_text (engine (db w))) (BuscarClienteQueryInput.cpf_cnpj d) = true ->
  opt (holds_text (engine (db w))) (BuscarClienteQueryInput.nome_completo d)
  = true ->
  status_of (fst (Server.get_clientes_buscar d w)) <> Some 500.
Proof.
  destruct d as [[[| n0 nome] |] [[| c0 cpf] |]]; cbn [opt
    BuscarClienteQueryInput.cpf_cnpj BuscarClienteQueryInput.nome_completo];
    intros Hc Hn;
    unfold Server.get_clientes_buscar, prisma.cliente.findUnique_cpf_cnpj,
      prisma.cliente.findFirst_contains;
    cbn [BuscarClienteQueryInput.cpf_cnpj BuscarClienteQueryInput.nome_completo
         truthy or_else];
    run; unfold cliente_findUnique_cpf_cnpj, cliente_findFirst_contains;
    known_tests; classified.
Qed.

Lemma put_clientes_classified i d w :
  Int i = true -> update_cliente_fits (engine (db w)) d = true ->
  status_of (fst (Server.put_clientes_id i d w)) <> Some 500.
Proof.
  intros Hi Hfits. unfold Server.put_clientes_id, prisma.cliente.update. run.
  unfold cliente_update. known_tests. classified.
Qed.

Lemma delete_clientes_classified i w :
  Int i = true ->
  status_of (fst (Server.delete_clientes_id i w)) <> Some 500.
Proof.
  intros Hi. unfold Server.delete_clientes_id, prisma.cliente.delete. run.
  unfold cliente_delete. known_tests. classified.
Qed.

Lemma post_acoes_classified d w :
  Decimal 10 2 (CreateAcaoInput.valor_atual d) <> None ->
  create_acao_fits (engine (db w)) d = true ->
  Int (seq_acao (db w)) = true ->
  status_of (fst (Server.post_acoes d w)) <> Some 500.
Proof.
  intros Hv Hfits Hseq. unfold Server.post_acoes, prisma.acao.create. run.
  unfold acao_create. known_tests. classified.
Qed.

Lemma get_acoes_id_classified i w :
  Int i = true -> status_of (fst (Server.get_acoes_id i w)) <> Some 500.
Proof.
  intros Hi. unfold Server.get_acoes_id, prisma.acao.findUnique_id. run.
  unfold acao_findUnique_id. known_tests. classified.
Qed.

Lemma put_acoes_classified i d w :
  Int i = true ->
  optionally (Decimal 10 2) (UpdateAcaoInput.valor_atual d) <> None ->
  update_acao_fits (engine (db w)) d = true ->
  status_of (fst (Server.put_acoes_id i d w)) <> Some 500.
Proof.
  intros Hi Hv Hfits. unfold Server.put_acoes_id, prisma.acao.update. run.
  unfold acao_update. known_tests. classified.
Qed.

Lemma delete_acoes_classified i w :
  Int i = true -> status_of (fst (Server.delete_acoes_id i w)) <> Some 500.
Proof.
  intros Hi. unfold Server.delete_acoes_id, prisma.acao.delete. run.
  unfold acao_delete. known_tests. classified.
Qed.

Lemma post_alocacoes_classified k d w :
  Int k = true ->
  Int (CreateAlocacaoInput.acaoId d) = true ->
  Decimal 18 4 (CreateAlocacaoInput.quantidade d) <> None ->
  Decimal 12 2 (CreateAlocacaoInput.valor_medio_aquisicao d) <> None ->
  holds_date (engine (db w)) (CreateAlocacaoInput.data_ultima_compra d) = true ->
  Int (seq_alocacao (db w)) = true ->
  status_of (fst (Server.post_clientes_id_alocacoes k d w)) <> Some 500.
Proof.
  intros Hk Hj Hq Hv Hd Hseq.
  unfold Server.post_clientes_id_alocacoes, prisma.cliente.findUnique_id,
    prisma.acao.findUnique_id, prisma.alocacaoCliente.create,
    cliente_findUnique_id, acao_findUnique_id. run.
  rewrite Hk. cbn.
  destruct (find_cliente k (db w)) as [c |] eqn:Ec; cbn; [| discriminate].
  rewrite Hj. cbn.
  destruct (find_acao _ (db w)) as [a |] eqn:Ea; cbn; [| discriminate].
  unfold alocacao_create, DbDate. rewrite Ec, Ea. known_tests. classified.
Qed.

Lemma get_alocacoes_classified k w :
  integrity (db w) = true -> Int k = true ->
  status_of (fst (Server.get_clientes_id_alocacoes k w)) <> Some 500.
Proof.
  intros Hi Hk.
  destruct (ListingFacts.findMany_rows k (db w) Hi) as (rows & Ej & _ & _).
  unfold Server.get_clientes_id_alocacoes,
    prisma.alocacaoCliente.findMany_clienteId. run.
  unfold alocacao_findMany_cliente. rewrite Hk, Ej. cbn. discriminate.
Qed.

Lemma put_alocacoes_classified i d w :
  integrity (db w) = true -> Int i = true ->
  optionally (Decimal 18 4) (UpdateAlocacaoInput.quantidade d) <> None ->
  optionally (Decimal 12 2) (UpdateAlocacaoInput.valor_medio_aquisicao d)
  <> None ->
  opt (holds_date (engine (db w))) (UpdateAlocacaoInput.data_ultima_compra d)
  = true ->
  status_of (fst (Server.put_alocacoes_id i d w)) <> Some 500.
Proof.
  intros Hi Hid Hq Hv Hd.
  pose proof (proj1 (integrity_spec (db w)) Hi) as Hs.
  unfold Server.put_alocacoes_id, prisma.alocacaoCliente.update. run.
  unfold alocacao_update.
  destruct (optionally (Decimal 18 4) _) as [q |]; [| contradiction].
  destruct (optionally (Decimal 12 2) _) as [v |]; [| contradiction].
  assert (Ed : exists x, optionally (DbDate (engine (db w)))
                           (UpdateAlocacaoInput.data_ultima_compra d)
                         = Some x).
  { unfold optionally, DbDate.
    destruct (UpdateAlocacaoInput.data_ultima_compra d) as [x |]; cbn in Hd.
    - rewrite Hd. eauto.
    - eauto. }
  destruct Ed as [x ->]. rewrite Hid.
  destruct (find_alocacao i (db w)) as [al |] eqn:Ef; cbn; [| discriminate].
  apply find_alocacao_some in Ef as [Hin _].
  destruct (@find_acao_exists (db w) (AlocacaoCliente.acaoId al)) as [a Ea].
  { apply Hs; auto. }
  cbn. rewrite Ea. cbn. discriminate.
Qed.

Lemma delete_alocacoes_classified i w :
  Int i = true -> status_of (fst (Server.delete_alocacoes_id i w)) <> Some 500.
Proof.
  intros Hi. unfold Server.delete_alocacoes_id, prisma.alocacaoCliente.delete.
  run. unfold alocacao_delete. known_tests. classified.
Qed.

(** X21: after the full route set has answered any requests since the
    store was empty, a request whose ids and values fit the columns of
    [prisma/schema.prisma], and whose texts and dates the engine takes, is
    not answered with 500: every failure that the constraints of the data
    model can cause, a missing record, a value that is taken, an asset that
    is referenced, is given its own status by the handler.  (An id beyond
    the [Int] range, a price beyond [Decimal(10, 2)] or an infinity is
    answered with 500.) *)
Theorem constraint_failures_are_classified env e (rs : list Routes.Request)
    (r : Routes.Request) :
  let w := serve env rs (start (empty e)) in
  fits_columns env (db w) r ->
  status_of (fst (Routes.route env r w)) <> Some 500.
Proof.
  intros w.
  assert (Hi : integrity (db w) = true)
    by (apply serve_integrity; reflexivity).
  destruct r; cbn [Routes.route fits_columns]; cbv zeta; intros Hfit;
    validated_or_not; try (cbn; discriminate);
    try (specialize (Hfit _ eq_refl));
    try (specialize (Hfit _ _ eq_refl eq_refl));
    repeat match goal with H : _ /\ _ |- _ => destruct H end.
  all: first [ apply post_clientes_classified; assumption
             | apply get_clientes_buscar_classified; assumption
             | apply put_clientes_classified; assumption
             | apply delete_clientes_classified; assumption
             | apply post_acoes_classified; assumption
             | apply get_acoes_id_classified; assumption
             | apply put_acoes_classified; assumption
             | apply delete_acoes_classified; assumption
             | apply post_alocacoes_classified; assumption
             | apply get_alocacoes_classified; assumption
             | apply put_alocacoes_classified; assumption
             | apply delete_alocacoes_classified; assumption ].
Qed.

Lemma constraint_failures_are_classified_witness :
  status_of (fst (Routes.route Runtime.env
                    (Routes.POST_clientes_id_alocacoes Sample.id_1
                                                       Sample.compra_json)
                    (serve Runtime.env
                       [Routes.POST_clientes Sample.ana_json;
                        Routes.POST_acoes Sample.petr4_json;
                        Routes.POST_clientes_id_alocacoes Sample.id_1
                                                          Sample.compra_json]
                       (start (empty Runtime.engine)))))
  <> Some 500.
Proof.
  apply (constraint_failures_are_classified Runtime.env Runtime.engine
           [Routes.POST_clientes Sample.ana_json;
            Routes.POST_acoes Sample.petr4_json;
            Routes.POST_clientes_id_alocacoes Sample.id_1 Sample.compra_json]
           (Routes.POST_clientes_id_alocacoes Sample.id_1 Sample.compra_json)).
  cbn [fits_columns]. intros i d Hi Hd.
  injection Hi as <-. injection Hd as <-.
  repeat split; discriminate.
Defined.

(** Requests that do not fit: a price of nine digits before the point, and
    an id beyond the [Int] range. *)
Example unfit_requests_are_answered_500 :
  fst (Server.post_acoes (Sample.acao_por (Finite (100000000 # 1)))
         (start Sample.sem_alocacao))
  = Returned (send 500 (message "Erro interno ao criar ação."))
  /\ fst (Routes.route Runtime.env (Routes.GET_acoes_id Sample.id_2147483648)
            (start Sample.sem_alocacao))
     = Returned (send 500 (message "Erro interno ao buscar ação.")).
Proof. split; reflexivity. Qed.

End CrudFacts.
